(** * TUS Santander route planner: a shallow embedding of [src/api.js] and
      of tools of [src/index.js]

    The development has these layers.

    - [JS]: the fragment of the JavaScript runtime the planner relies on:
      scalar JSON values, numbers, [parseInt], [parseFloat],
      [Number.prototype.toString], [toFixed(2)], strict equality,
      truthiness, [?.] and [??].
    - [Api]: [api.js].  The open-data service is an oracle ([server]) that
      answers the n-th request; the module-level estimates cache, the list
      of requests issued and the list of calls of [planificarRuta] are
      threaded through a state-and-exception monad.
    - [Index]: the handlers of the tools [planificar_ruta] and
      [ruta_desde_nombres].
    - [Http]: [fetchAllPages] followed page by page, over an oracle for
      [fetch].
    - [Consultas]: the handlers of the tools [info_linea],
      [estimaciones_parada] and [estimaciones_linea].

    Modelling conventions.

    - A raw record is a JSON object whose fields are scalars: a finite map
      from field names to [JS.value]; an absent field reads [VUndefined].
    - A JS number is [NaN], an infinity, or an exact decimal [m * 10^e] kept
      in lowest terms (the mantissa is not a multiple of ten): the rounding of
      IEEE doubles to 53 bits is not modelled, and neither are the overflow
      of a large decimal to an infinity and the negative zero, which
      compares equal to zero everywhere in the planner.
    - Strings are byte strings; [toUpperCase] and the white space skipped by
      the number parsers act on ASCII.
    - [await] and [Promise.all] are run in the order the requests are issued;
      a rejected request aborts the call ([Throw]).
    - [Array.prototype.sort] is the stable sort; [Math.sqrt] is an oracle. *)

From Stdlib Require Import ZArith String Ascii List Lia Bool.
From stdpp Require Import gmap strings list.

Local Open Scope string_scope.
Local Open Scope list_scope.
Local Open Scope Z_scope.

(* ===================================================================== *)
(** * The JavaScript fragment                                              *)
(* ===================================================================== *)

Module JS.

(** ** Numbers *)

Inductive number : Type :=
  | NaN
  | Inf (neg : bool)
  | Dec (m e : Z).          (* m * 10^e *)

(** Removal of the trailing zeros of a mantissa. *)
Fixpoint strip (fuel : nat) (m e : Z) : Z * Z :=
  match fuel with
  | O => (m, e)
  | S f => if m mod 10 =? 0 then strip f (m / 10) (e + 1) else (m, e)
  end.

Definition mkDec (m e : Z) : number :=
  if m =? 0 then Dec 0 0
  else let '(m', e') := strip (Z.to_nat (Z.log2 (Z.abs m))) m e in Dec m' e'.

Definition zero : number := Dec 0 0.
Definition of_Z (z : Z) : number := mkDec z 0.

(** Both decimals brought to the smaller exponent. *)
Definition align (m1 e1 m2 e2 : Z) : Z * Z * Z :=
  let k := Z.min e1 e2 in (m1 * 10 ^ (e1 - k), m2 * 10 ^ (e2 - k), k).

(** [x <= y], [x < y] and [x === y] on numbers; every comparison with
    [NaN] is false. *)
Definition leb (x y : number) : bool :=
  match x, y with
  | NaN, _ | _, NaN => false
  | Inf true, _ => true
  | _, Inf false => true
  | Inf false, _ => false
  | _, Inf true => false
  | Dec m1 e1, Dec m2 e2 => let '(a, b, _) := align m1 e1 m2 e2 in a <=? b
  end.

Definition eqb (x y : number) : bool :=
  match x, y with
  | Inf s, Inf t => Bool.eqb s t
  | Dec m1 e1, Dec m2 e2 => let '(a, b, _) := align m1 e1 m2 e2 in a =? b
  | _, _ => false
  end.

(** [x >= y] is evaluated as [y <= x]. *)
Definition geb (x y : number) : bool := leb y x.

(** [x - y]. *)
Definition sub (x y : number) : number :=
  match x, y with
  | NaN, _ | _, NaN => NaN
  | Inf s, Inf t => if Bool.eqb s t then NaN else Inf s
  | Inf s, Dec _ _ => Inf s
  | Dec _ _, Inf t => Inf (negb t)
  | Dec m1 e1, Dec m2 e2 => let '(a, b, k) := align m1 e1 m2 e2 in mkDec (a - b) k
  end.


(** ** Digits *)

Definition digit_char (d : Z) : ascii := ascii_of_nat (Z.to_nat (48 + d)).

Definition digit_val (c : ascii) : option Z :=
  let n := Z.of_nat (nat_of_ascii c) in
  if (48 <=? n) && (n <=? 57) then Some (n - 48) else None.

Definition hex_val (c : ascii) : option Z :=
  let n := Z.of_nat (nat_of_ascii c) in
  if (48 <=? n) && (n <=? 57) then Some (n - 48)
  else if (65 <=? n) && (n <=? 70) then Some (n - 55)
  else if (97 <=? n) && (n <=? 102) then Some (n - 87)
  else None.

Fixpoint digits_aux (fuel : nat) (n : Z) (acc : list ascii) : list ascii :=
  match fuel with
  | O => acc
  | S f =>
      let acc' := digit_char (n mod 10) :: acc in
      if n / 10 =? 0 then acc' else digits_aux f (n / 10) acc'
  end.

(** The decimal digits of [n >= 0], most significant first; ["0"] for 0. *)
Definition digits (n : Z) : list ascii :=
  digits_aux (S (Z.to_nat (Z.log2 n))) n [].

(** The longest prefix of digits in the given base: its value (on top of
    [acc]), its length, and what follows it. *)
Fixpoint read_digits (val : ascii -> option Z) (base : Z)
    (l : list ascii) (acc cnt : Z) : Z * Z * list ascii :=
  match l with
  | c :: l' =>
      match val c with
      | Some d => read_digits val base l' (acc * base + d) (cnt + 1)
      | None => (acc, cnt, l)
      end
  | [] => (acc, cnt, [])
  end.

Definition is_ws (c : ascii) : bool :=
  let n := nat_of_ascii c in
  ((9 <=? n) && (n <=? 13))%nat || (n =? 32)%nat.

Fixpoint skip_ws (l : list ascii) : list ascii :=
  match l with
  | c :: l' => if is_ws c then skip_ws l' else l
  | [] => []
  end.

Definition read_sign (l : list ascii) : bool * list ascii :=
  match l with
  | c :: l' =>
      if Ascii.eqb c "-" then (true, l')
      else if Ascii.eqb c "+" then (false, l')
      else (false, l)
  | [] => (false, [])
  end.

Fixpoint starts_with (p l : list ascii) : bool :=
  match p, l with
  | [], _ => true
  | a :: p', b :: l' => Ascii.eqb a b && starts_with p' l'
  | _ :: _, [] => false
  end.

Definition chars (s : string) : list ascii := list_ascii_of_string s.
Definition str (l : list ascii) : string := string_of_list_ascii l.

(** ** [Number::toString] (radix 10) *)

Definition zeros (n : Z) : list ascii := repeat "0"%char (Z.to_nat n).

Definition number_chars (x : number) : list ascii :=
  match x with
  | NaN => chars "NaN"
  | Inf false => chars "Infinity"
  | Inf true => chars "-Infinity"
  | Dec m e =>
      if m =? 0 then chars "0"
      else
        let sgn := if m <? 0 then chars "-" else [] in
        let '(s, e') := strip (Z.to_nat (Z.log2 (Z.abs m))) (Z.abs m) e in
        let ds := digits s in
        let k := Z.of_nat (length ds) in
        let n := k + e' in
        sgn ++
        (if (k <=? n) && (n <=? 21) then ds ++ zeros (n - k)
         else if (0 <? n) && (n <=? 21) then
           firstn (Z.to_nat n) ds ++ "."%char :: skipn (Z.to_nat n) ds
         else if (-6 <? n) && (n <=? 0) then
           "0"%char :: "."%char :: zeros (- n) ++ ds
         else
           let ex := n - 1 in
           let es := (if ex <? 0 then "-"%char else "+"%char) :: digits (Z.abs ex) in
           match ds with
           | [] => []
           | [d] => d :: "e"%char :: es
           | d :: rest => d :: "."%char :: rest ++ "e"%char :: es
           end)
  end.

Definition number_toString (x : number) : string := str (number_chars x).

(** ** [Number.prototype.toFixed(2)] *)

(** The integer nearest to [|m * 10^e| * 100], the larger one on a tie. *)
Definition hundredths (m e : Z) : Z :=
  let a := Z.abs m in
  if 0 <=? e + 2 then a * 10 ^ (e + 2)
  else let d := 10 ^ (- (e + 2)) in (2 * a + d) / (2 * d).

Definition toFixed2_chars (x : number) : list ascii :=
  match x with
  | Dec m e =>
      if leb (Dec 1 21) (Dec (Z.abs m) e) then number_chars x
      else
        let n := hundredths m e in
        let ds := digits n in
        let ds' := zeros (3 - Z.of_nat (length ds)) ++ ds in
        let k := (length ds' - 2)%nat in
        (if m <? 0 then chars "-" else []) ++
        firstn k ds' ++ "."%char :: skipn k ds'
  | _ => number_chars x
  end.

Definition toFixed2 (x : number) : string := str (toFixed2_chars x).

(** ** [parseFloat] and [parseInt] on text *)

Definition parseFloat_chars (l : list ascii) : number :=
  let '(neg, l1) := read_sign (skip_ws l) in
  if starts_with (chars "Infinity") l1 then Inf neg
  else
    let '(ip, n1, r1) := read_digits digit_val 10 l1 0 0 in
    let '(mant, n2, r2) :=
      match r1 with
      | c :: r => if Ascii.eqb c "." then read_digits digit_val 10 r ip 0
                  else (ip, 0, r1)
      | [] => (ip, 0, r1)
      end in
    if (n1 =? 0) && (n2 =? 0) then NaN
    else
      let ex :=
        match r2 with
        | c :: r3 =>
            if Ascii.eqb c "e" || Ascii.eqb c "E" then
              let '(eneg, r4) := read_sign r3 in
              let '(ev, n3, _) := read_digits digit_val 10 r4 0 0 in
              if n3 =? 0 then 0 else if eneg then - ev else ev
            else 0
        | [] => 0
        end in
      mkDec (if neg then - mant else mant) (ex - n2).

Definition parseInt_chars (l : list ascii) : number :=
  let '(neg, l1) := read_sign (skip_ws l) in
  let '(v, n, _) :=
    if starts_with (chars "0x") l1 || starts_with (chars "0X") l1
    then read_digits hex_val 16 (skipn 2 l1) 0 0
    else read_digits digit_val 10 l1 0 0 in
  if n =? 0 then NaN else of_Z (if neg then - v else v).

(** ** Values *)

Inductive value : Type :=
  | VUndefined
  | VNull
  | VBool (b : bool)
  | VNum (x : number)
  | VStr (s : string).

Inductive error : Type :=
  | TypeError (what : string)
  | HttpError (what : string).

Inductive result (A : Type) : Type :=
  | Ok (a : A)
  | Throw (e : error).
Arguments Ok {A} a.
Arguments Throw {A} e.

(** [String(v)], as used by [parseInt], [parseFloat] and template
    literals. *)
Definition to_string (v : value) : string :=
  match v with
  | VUndefined => "undefined"
  | VNull => "null"
  | VBool true => "true"
  | VBool false => "false"
  | VNum x => number_toString x
  | VStr s => s
  end.

Definition parseFloat (v : value) : number := parseFloat_chars (chars (to_string v)).
Definition parseInt (v : value) : number := parseInt_chars (chars (to_string v)).

(** [a ?? b] *)
Definition nullish_or (a b : value) : value :=
  match a with VUndefined | VNull => b | _ => a end.

(** [a === b] *)
Definition strict_eq (a b : value) : bool :=
  match a, b with
  | VUndefined, VUndefined => true
  | VNull, VNull => true
  | VBool x, VBool y => Bool.eqb x y
  | VNum x, VNum y => eqb x y
  | VStr s, VStr t => String.eqb s t
  | _, _ => false
  end.

(** [Boolean(v)] *)
Definition truthy (v : value) : bool :=
  match v with
  | VUndefined | VNull => false
  | VBool b => b
  | VNum NaN => false
  | VNum (Dec m _) => negb (m =? 0)
  | VNum (Inf _) => true
  | VStr s => negb (String.eqb s "")
  end.

(** [v.toString()]: a [TypeError] on [undefined] and [null]. *)
Definition toString (v : value) : result string :=
  match v with
  | VUndefined | VNull => Throw (TypeError "toString of undefined or null")
  | _ => Ok (to_string v)
  end.

(** [v?.toString()]: [None] is [undefined]. *)
Definition opt_toString (v : value) : option string :=
  match v with
  | VUndefined | VNull => None
  | _ => Some (to_string v)
  end.

Definition upper_char (c : ascii) : ascii :=
  let n := nat_of_ascii c in
  if ((97 <=? n) && (n <=? 122))%nat then ascii_of_nat (n - 32) else c.

Definition toUpperCase (s : string) : string := str (map upper_char (chars s)).

(** [v?.toUpperCase()]: [undefined] on [undefined] and [null], a
    [TypeError] on a number or a boolean (they have no such method). *)
Definition opt_toUpperCase (v : value) : result (option string) :=
  match v with
  | VUndefined | VNull => Ok None
  | VStr s => Ok (Some (toUpperCase s))
  | _ => Throw (TypeError "toUpperCase is not a function")
  end.

(** [s === t] where each side is a string or [undefined]. *)
Definition opt_str_eq (a b : option string) : bool :=
  match a, b with
  | Some s, Some t => String.eqb s t
  | None, None => true
  | _, _ => false
  end.

Definition of_opt_string (o : option string) : value :=
  match o with Some s => VStr s | None => VUndefined end.

(** [Math.round(x / 60)]: the nearest integer, the larger one on a tie. *)
Definition round_div60 (x : number) : number :=
  match x with
  | Dec m e =>
      if 0 <=? e then of_Z ((2 * m * 10 ^ e + 60) / 120)
      else let d := 10 ^ (- e) in of_Z ((2 * m + 60 * d) / (120 * d))
  | _ => x
  end.

(** The integer part of a decimal, for clock arithmetic. *)
Definition trunc (x : number) : Z :=
  match x with
  | Dec m e => if 0 <=? e then m * 10 ^ e else Z.quot m (10 ^ (- e))
  | _ => 0
  end.

(** [String.prototype.trim] (ASCII white space). *)
Definition trim (s : string) : string :=
  str (rev (skip_ws (rev (skip_ws (chars s))))).

(** [findIndex]: [None] is -1. *)
Fixpoint findIndex {A} (p : A -> bool) (l : list A) : option nat :=
  match l with
  | [] => None
  | x :: l' => if p x then Some O else option_map S (findIndex p l')
  end.

(** [[...new Set(l)]]: the first occurrence of each element, in order. *)
Definition uniq {A} (same : A -> A -> bool) (l : list A) : list A :=
  fold_left (fun acc x => if existsb (same x) acc then acc else acc ++ [x]) l [].

(** SameValueZero, the equality of [Set] and [Map] keys. *)
Definition same_value_zero (a b : value) : bool :=
  match a, b with
  | VNum NaN, VNum NaN => true
  | _, _ => strict_eq a b
  end.

(** [x > 0]: false on [NaN]. *)
Definition is_positive (x : number) : bool :=
  match x with
  | Dec m _ => 0 <? m
  | Inf neg => negb neg
  | NaN => false
  end.

(** [Array.prototype.sort(comparefn)], which is stable: an element moves
    behind another only when [comparefn] of the two is positive, a result
    that is zero or [NaN] leaving them as they come.  The language fixes
    the outcome for a consistent comparator only; on the others this is
    the order an insertion from the right produces. *)
Fixpoint insert_sorted {A} (comparefn : A -> A -> number) (x : A) (l : list A) : list A :=
  match l with
  | [] => [x]
  | y :: l' => if is_positive (comparefn x y) then y :: insert_sorted comparefn x l'
               else x :: l
  end.

Definition sort {A} (comparefn : A -> A -> number) (l : list A) : list A :=
  fold_right (insert_sorted comparefn) [] l.

(** [x + y] and [x * y]. *)
Definition add (x y : number) : number :=
  match x, y with
  | NaN, _ | _, NaN => NaN
  | Inf s, Inf t => if Bool.eqb s t then Inf s else NaN
  | Inf s, Dec _ _ | Dec _ _, Inf s => Inf s
  | Dec m1 e1, Dec m2 e2 => let '(a, b, k) := align m1 e1 m2 e2 in mkDec (a + b) k
  end.

Definition mul (x y : number) : number :=
  match x, y with
  | NaN, _ | _, NaN => NaN
  | Inf s, Inf t => Inf (xorb s t)
  | Inf s, Dec m _ | Dec m _, Inf s => if m =? 0 then NaN else Inf (xorb s (m <? 0))
  | Dec m1 e1, Dec m2 e2 => mkDec (m1 * m2) (e1 + e2)
  end.

(** [isNaN(x)] on a number. *)
Definition isNaN (x : number) : bool :=
  match x with NaN => true | _ => false end.

(** [Math.round(x)]: the nearest integer, the larger one on a tie. *)
Definition round (x : number) : number :=
  match x with
  | Dec m e =>
      if 0 <=? e then x
      else let d := 10 ^ (- e) in of_Z ((2 * m + d) / (2 * d))
  | _ => x
  end.

(** [l.slice(0, n)] for an integer [n]: a negative [n] counts from the
    end. *)
Definition slice0 {A} (n : Z) (l : list A) : list A :=
  if n <? 0 then firstn (Z.to_nat (Z.max (Z.of_nat (length l) + n) 0)) l
  else firstn (Z.to_nat n) l.

End JS.

Import JS.


(* ===================================================================== *)
(** * api.js                                                               *)
(* ===================================================================== *)

Module Api.

(** ** Raw records, requests and the state of the module *)

Abbreviation record := (gmap string value).

(** [r[k]] *)
Definition field (r : record) (k : string) : value := default VUndefined (r !! k).

Inductive endpoint : Type := lineas | secuencia | paradas | estimaciones.

(** [ENDPOINTS] *)
Definition ENDPOINTS (ep : endpoint) : string :=
  match ep with
  | lineas => "lineas_bus.json"
  | secuencia => "lineas_bus_secuencia.json"
  | paradas => "paradas_bus.json"
  | estimaciones => "control_flotas_estimaciones.json"
  end.

Record request : Type := { endpoint_of : endpoint; query : option string }.

(** What [fetchAllPages] resolves to: [{ total, resources }]. *)
Record response : Type := { total : value; resources : list record }.

(** [_cache = { data: null, ts: 0 }]: [None] is [null]. *)
Record cache : Type := { data : option response; ts : Z }.

Definition CACHE_TTL_MS : Z := 30000.

(** The module state, with two histories kept for the statements: the
    requests sent to the service and the calls of [planificarRuta]. *)
Record state : Type := {
  _cache : cache;
  peticiones : list request;
  llamadas : list (value * value)
}.

Definition estado_inicial : state :=
  {| _cache := {| data := None; ts := 0 |}; peticiones := []; llamadas := [] |}.

(** ** The monads: exceptions, and state over exceptions *)

Definition bindR {A B} (r : result A) (k : A -> result B) : result B :=
  match r with Ok a => k a | Throw e => Throw e end.

Definition M (A : Type) : Type := state -> result A * state.

Definition ret {A} (a : A) : M A := fun st => (Ok a, st).

Definition bind {A B} (m : M A) (k : A -> M B) : M B :=
  fun st =>
    match m st with
    | (Ok a, st') => k a st'
    | (Throw e, st') => (Throw e, st')
    end.

Definition lift {A} (r : result A) : M A := fun st => (r, st).

Declare Scope js_scope.
Delimit Scope js_scope with js.
Notation "'try' x ':=' r 'in' k" := (bindR r (fun x => k))
  (at level 10, x name, r at level 100, k at level 200, only parsing) : js_scope.
Notation "'await' x ':=' m 'in' k" := (bind m (fun x => k))
  (at level 10, x name, m at level 100, k at level 200, only parsing) : js_scope.
Notation "'run' m 'in' k" := (bind m (fun _ => k))
  (at level 10, m at level 100, k at level 200, only parsing) : js_scope.
Local Open Scope js_scope.

Fixpoint mapR {A B} (f : A -> result B) (l : list A) : result (list B) :=
  match l with
  | [] => Ok []
  | x :: l' => try y := f x in try ys := mapR f l' in Ok (y :: ys)
  end.

Fixpoint filterR {A} (p : A -> result bool) (l : list A) : result (list A) :=
  match l with
  | [] => Ok []
  | x :: l' =>
      try b := p x in try r := filterR p l' in Ok (if b then x :: r else r)
  end.

(** [l.filter((v, i, a) => p(v, i))] *)
Definition filterR_i {A} (p : nat -> A -> result bool) (l : list A) : result (list A) :=
  try kept := filterR (fun iv => p (fst iv) (snd iv)) (imap pair l) in
  Ok (map snd kept).

(** The relational reading of [filterR_i]: [Elige p n l out] when [out]
    keeps, in order, the elements of [l] on which [p] answers [true], the
    first element of [l] having index [n]. *)
Inductive Elige {A} (p : nat -> A -> result bool) : nat -> list A -> list A -> Prop :=
  | Elige_fin n : Elige p n [] []
  | Elige_si n x l out :
      p n x = Ok true -> Elige p (S n) l out -> Elige p n (x :: l) (x :: out)
  | Elige_no n x l out :
      p n x = Ok false -> Elige p (S n) l out -> Elige p n (x :: l) out.

(** ** Estimates as [mapEstimacion] shapes them *)

Module Bus.
Record t : Type := {
  tiempoSegundos : number;
  tiempoMinutos : option number;
  distanciaMetros : option number;
  llegada : option string
}.
End Bus.

Module Estimacion.
Record t : Type := {
  paradaId : value;
  linea : value;
  destino1 : value;
  destino2 : value;
  proximoBus : Bus.t;
  segundoBus : Bus.t;
  fechaConsulta : value;
  ultimaActualizacion : value;
  id : value
}.
End Estimacion.

(** ** Sequence entries, routes and plans *)

(** What [seqToEntry] returns; [nParada] is a string or [undefined]. *)
Module Entry.
Record t : Type := {
  linea : value;
  sentido : value;
  puntoKm : number;
  nombreParada : value;
  nParada : option string
}.
End Entry.

(** What [getSecuenciaLinea] returns for each record. *)
Module Secuencia.
Record t : Type := {
  linea : value;
  etiquetaLinea : value;
  sublinea : value;
  ruta : value;
  sentido : string;
  sentidoNumerico : number;
  numeroParada : value;
  nombreParada : value;
  puntoKm : number;
  coordX : number;
  coordY : number;
  id : value
}.
End Secuencia.

(** [{ numero, nombre }] *)
Module Parada.
Record t : Type := { numero : value; nombre : value }.
End Parada.

Module ProximoBus.
Record t : Type := {
  tiempoMinutos : option number;
  llegadaEstimada : option string;
  destino : value
}.
End ProximoBus.

Module Directa.
Record t : Type := {
  tipo : string;
  linea : value;
  sentido : string;
  paradaOrigen : Parada.t;
  paradaDestino : Parada.t;
  distanciaKm : number;
  proximoBus : option ProximoBus.t
}.
End Directa.

Module Tramo1.
Record t : Type := {
  linea : value;
  paradaOrigen : Parada.t;
  paradaTransbordo : Parada.t
}.
End Tramo1.

Module Tramo2.
Record t : Type := {
  linea : value;
  paradaTransbordo : Parada.t;
  paradaDestino : Parada.t
}.
End Tramo2.

Module Transbordo.
Record t : Type := { tipo : string; tramo1 : Tramo1.t; tramo2 : Tramo2.t }.
End Transbordo.

(** The plan; [tiempoConsulta] is the instant whose ISO text the code
    returns. *)
Module Plan.
Record t : Type := {
  origen : value;
  destino : value;
  rutasDirectas : list Directa.t;
  rutasConTransbordo : list Transbordo.t;
  tiempoConsulta : Z
}.
End Plan.

(** A stop as [getParadas] and [buscarParadas] return it. *)
Module ParadaBus.
Record t : Type := {
  id : value;
  numero : value;
  nombre : value;
  direccion : value;
  sentido : value;
  lat : number;
  lon : number;
  coordX : number;
  coordY : number;
  ultimaActualizacion : value;
  uri : value
}.
End ParadaBus.

(** A line as [getLineas] and [getLineaByNumero] return it. *)
Module Linea.
Record t : Type := {
  id : value;
  numero : value;
  nombre : value;
  ultimaActualizacion : value;
  uri : value
}.
End Linea.

(** A stop as [getParadasCercanas] returns it: the fields of the stop and
    [distanciaMetrosAprox]. *)
Module Cercana.
Record t : Type := { parada : ParadaBus.t; distanciaMetrosAprox : number }.
End Cercana.

(** ** The service and the clock *)

Section Servicio.

(** [server n req]: what the open-data service answers to the request
    [req] when [n] requests were sent before it; [Throw] is a failed
    request. *)
Variable server : nat -> request -> result response.

(** The es-ES rendering (hours and minutes) of an instant, in
    milliseconds since the epoch. *)
Variable horaLocal : Z -> string.

Definition lucene_special (c : ascii) : bool :=
  existsb (Ascii.eqb c) ("034"%char :: chars "+-&|!(){}[]^~:\/").

(** [value.replace(...)]: every Lucene special character (the double
    quote, and those listed below) gets a backslash in front. *)
Definition luceneEscape (value : string) : string :=
  str (flat_map (fun c => if lucene_special c then ["\"%char; c] else [c]) (chars value)).

(** [luceneEscape] applied to a value that need not be a string: a value
    without [replace] raises a [TypeError]. *)
Definition luceneEscape_value (v : value) : result string :=
  match v with
  | VStr s => Ok (luceneEscape s)
  | _ => Throw (TypeError "value.replace is not a function")
  end.

(** The pages of an endpoint are fetched and merged by the service side;
    the request is recorded. *)
Definition fetchAllPages (ep : endpoint) (q : option string) : M response :=
  fun st =>
    let req := {| endpoint_of := ep; query := q |} in
    (server (length (peticiones st)) req,
     {| _cache := _cache st;
        peticiones := peticiones st ++ [req];
        llamadas := llamadas st |}).

(** ** Stops *)

Definition mapParada (r : record) : ParadaBus.t :=
  {| ParadaBus.id := field r "dc:identifier";
     ParadaBus.numero := field r "ayto:numero";
     ParadaBus.nombre := field r "ayto:parada";
     ParadaBus.direccion := field r "vivo:address1";
     ParadaBus.sentido := field r "ayto:sentido";
     ParadaBus.lat := parseFloat (field r "wgs84_pos:lat");
     ParadaBus.lon := parseFloat (field r "wgs84_pos:long");
     ParadaBus.coordX := parseFloat (field r "gn:coordX");
     ParadaBus.coordY := parseFloat (field r "gn:coordY");
     ParadaBus.ultimaActualizacion := field r "dc:modified";
     ParadaBus.uri := field r "uri" |}.

Definition buscarParadas (texto : string) : M (list ParadaBus.t) :=
  let escaped := luceneEscape (trim texto) in
  await res :=
    fetchAllPages paradas
      (Some ("ayto\:parada:*" +:+ escaped +:+ "* OR vivo\:address1:*" +:+ escaped
             +:+ "* OR ayto\:sentido:*" +:+ escaped +:+ "*")) in
  ret (map mapParada (resources res)).

(** ** Estimates *)

Definition calcularHoraLlegada (now : Z) (segundos : number) : string :=
  horaLocal (now + 1000 * trunc segundos).

Definition mapEstimacion (now : Z) (r : record) : Estimacion.t :=
  let menos1 := VNum (of_Z (-1)) in
  let tiempo1Seg := parseInt (nullish_or (field r "ayto:tiempo1") menos1) in
  let tiempo2Seg := parseInt (nullish_or (field r "ayto:tiempo2") menos1) in
  let dist1 := parseInt (nullish_or (field r "ayto:distancia1") menos1) in
  let dist2 := parseInt (nullish_or (field r "ayto:distancia2") menos1) in
  let bus t d :=
    {| Bus.tiempoSegundos := t;
       Bus.tiempoMinutos := if geb t zero then Some (round_div60 t) else None;
       Bus.distanciaMetros := if geb d zero then Some d else None;
       Bus.llegada := if geb t zero then Some (calcularHoraLlegada now t) else None |} in
  {| Estimacion.paradaId := field r "ayto:paradaId";
     Estimacion.linea := field r "ayto:etiqLinea";
     Estimacion.destino1 := field r "ayto:destino1";
     Estimacion.destino2 := field r "ayto:destino2";
     Estimacion.proximoBus := bus tiempo1Seg dist1;
     Estimacion.segundoBus := bus tiempo2Seg dist2;
     Estimacion.fechaConsulta := field r "ayto:fechActual";
     Estimacion.ultimaActualizacion := field r "dc:modified";
     Estimacion.id := field r "dc:identifier" |}.

Definition getEstimacionesByParada (paradaId : value) (now : Z) : M (list Estimacion.t) :=
  await s := lift (toString paradaId) in
  await res := fetchAllPages estimaciones (Some ("ayto\:paradaId:" +:+ luceneEscape s)) in
  ret (map (mapEstimacion now) (resources res)).

(** ** The cache *)

Definition set_cache (c : cache) : M unit :=
  fun st =>
    (Ok tt, {| _cache := c; peticiones := peticiones st; llamadas := llamadas st |}).

Definition getTodasEstimacionesCached (now : Z) : M response :=
  fun st =>
    let refetch :=
      await result := fetchAllPages estimaciones None in
      run set_cache {| data := Some result; ts := now |} in
      ret result in
    match data (_cache st) with
    | Some d => if now - ts (_cache st) <? CACHE_TTL_MS then (Ok d, st) else refetch st
    | None => refetch st
    end.

(** ** Route planning *)

Definition seqToEntry (s : record) : Entry.t :=
  {| Entry.linea := nullish_or (field s "dc:EtiquetaLinea") (field s "ayto:Linea");
     Entry.sentido := field s "ayto:SentidoRuta";
     Entry.puntoKm := parseFloat (nullish_or (field s "ayto:PuntoKM") (VNum zero));
     Entry.nombreParada := field s "ayto:NombreParada";
     Entry.nParada := opt_toString (field s "ayto:NParada") |}.

(** [parseInt(x) === 1 ? "ida" : "vuelta"] *)
Definition sentidoLabel (x : value) : string :=
  if eqb (parseInt x) (of_Z 1) then "ida" else "vuelta".

(** The record mapping of [getSecuenciaLinea] (its [.map] callback). *)
Definition secuenciaParada (r : record) : Secuencia.t :=
  {| Secuencia.linea := field r "ayto:Linea";
     Secuencia.etiquetaLinea := field r "dc:EtiquetaLinea";
     Secuencia.sublinea := field r "ayto:NombreSublinea";
     Secuencia.ruta := field r "ayto:Ruta";
     Secuencia.sentido := sentidoLabel (field r "ayto:SentidoRuta");
     Secuencia.sentidoNumerico := parseInt (field r "ayto:SentidoRuta");
     Secuencia.numeroParada := field r "ayto:NParada";
     Secuencia.nombreParada := field r "ayto:NombreParada";
     Secuencia.puntoKm := parseFloat (nullish_or (field r "ayto:PuntoKM") (VNum zero));
     Secuencia.coordX := parseFloat (nullish_or (field r "ayto:PosX") (VNum zero));
     Secuencia.coordY := parseFloat (nullish_or (field r "ayto:PosY") (VNum zero));
     Secuencia.id := field r "dc:identifier" |}.

(** [seq["dc:EtiquetaLinea"] ?? seq["ayto:Linea"]] *)
Definition lineaDe (s : record) : value :=
  nullish_or (field s "dc:EtiquetaLinea") (field s "ayto:Linea").

(** [[...new Set(entries.map((e) => e.linea).filter(Boolean))]] *)
Definition lineasUnicas (entries : list Entry.t) : list value :=
  uniq same_value_zero (filter (fun v => truthy v) (map Entry.linea entries)).

(** [ls.map((l) => `dc\\:EtiquetaLinea:${luceneEscape(l)}`).join(" OR ")] *)
Definition qLineas (ls : list value) : result string :=
  try qs := mapR (fun l => try e := luceneEscape_value l in
                           Ok ("dc\:EtiquetaLinea:" +:+ e)) ls in
  Ok (match qs with
      | [] => ""
      | q :: qs' => fold_left (fun acc x => acc +:+ " OR " +:+ x) qs' q
      end).

(** What the two rounds of requests of [planificarRuta] bring back. *)
Record datos : Type := {
  resOrigen : response;
  resDestino : response;
  resSeqLineasOrigen : response;
  resSeqLineasDestino : response;
  estimacionesOrigen : list Estimacion.t;
  todasEstimaciones : response
}.

Definition lineasOrigen (dt : datos) : list Entry.t :=
  map seqToEntry (resources (resOrigen dt)).

Definition lineasDestino (dt : datos) : list Entry.t :=
  map seqToEntry (resources (resDestino dt)).

Definition sinRecursos : response := {| total := VUndefined; resources := [] |}.

(** The [await Promise.all([...])] of [planificarRuta], first and second. *)
Definition obtenerDatos (paradaOrigenId paradaDestinoId : value) (now : Z) : M datos :=
  await so := lift (toString paradaOrigenId) in
  await resO := fetchAllPages secuencia (Some ("ayto\:NParada:" +:+ luceneEscape so)) in
  await sd := lift (toString paradaDestinoId) in
  await resD := fetchAllPages secuencia (Some ("ayto\:NParada:" +:+ luceneEscape sd)) in
  let lineasUnicasOrigen := lineasUnicas (map seqToEntry (resources resO)) in
  let lineasUnicasDestino := lineasUnicas (map seqToEntry (resources resD)) in
  await qLineasOrigen := lift (qLineas lineasUnicasOrigen) in
  await qLineasDestino := lift (qLineas lineasUnicasDestino) in
  await seqO :=
    (match lineasUnicasOrigen with
     | [] => ret sinRecursos
     | _ => fetchAllPages secuencia (Some qLineasOrigen)
     end) in
  await seqD :=
    (match lineasUnicasDestino with
     | [] => ret sinRecursos
     | _ => fetchAllPages secuencia (Some qLineasDestino)
     end) in
  await ests := getEstimacionesByParada paradaOrigenId now in
  await todas := getTodasEstimacionesCached now in
  ret {| resOrigen := resO; resDestino := resD;
         resSeqLineasOrigen := seqO; resSeqLineasDestino := seqD;
         estimacionesOrigen := ests; todasEstimaciones := todas |}.

(** [new Set(todasEstimaciones.resources
      .map((r) => r["ayto:etiqLinea"]?.toUpperCase()).filter(Boolean))] *)
Definition lineasActivas (todas : response) : result (gset string) :=
  try us := mapR (fun r => opt_toUpperCase (field r "ayto:etiqLinea")) (resources todas) in
  Ok (list_to_set
        (flat_map (fun u => match u with
                            | Some l => if String.eqb l "" then [] else [l]
                            | None => []
                            end) us)).

(** [lineasActivas.has(u)] where [u] is a string or [undefined]. *)
Definition has (activas : gset string) (u : option string) : bool :=
  match u with
  | Some l => bool_decide (l ∈ activas)
  | None => false
  end.

(** A line label is active when it is a string whose upper-case form is
    in the set: as a proposition and as a test. *)
Definition activa (activas : gset string) (linea : value) : Prop :=
  exists l, linea = VStr l /\ toUpperCase l ∈ activas.

Definition esActiva (activas : gset string) (linea : value) : bool :=
  match linea with
  | VStr l => bool_decide (toUpperCase l ∈ activas)
  | _ => false
  end.

(** The [Map] from stop number to the entries recorded at it; a record
    whose stop number is missing or empty is skipped. *)
Definition paradaALineas (ss : list record) : gmap string (list Entry.t) :=
  fold_left
    (fun (m : gmap string (list Entry.t)) s =>
       match opt_toString (field s "ayto:NParada") with
       | None => m
       | Some nParada =>
           if String.eqb nParada "" then m
           else <[nParada := default [] (m !! nParada) ++ [seqToEntry s]]> m
       end)
    ss ∅.

Definition flat_mapR {A B} (f : A -> result (list B)) (l : list A) : result (list B) :=
  try ls := mapR f l in Ok (concat ls).

(** *** Direct routes *)

(** [lo.linea === ld.linea && lo.sentido === ld.sentido], then
    [lo.puntoKm <= ld.puntoKm]. *)
Definition enlaza (lo ld : Entry.t) : bool :=
  strict_eq (Entry.linea lo) (Entry.linea ld)
  && strict_eq (Entry.sentido lo) (Entry.sentido ld)
  && leb (Entry.puntoKm lo) (Entry.puntoKm ld).

Definition estOrigen (so : string) (ests : list Estimacion.t) (lo : Entry.t)
  : result (list Estimacion.t) :=
  filterR (fun e =>
             if opt_str_eq (opt_toString (Estimacion.paradaId e)) (Some so) then
               try a := opt_toUpperCase (Estimacion.linea e) in
               try b := opt_toUpperCase (Entry.linea lo) in
               Ok (opt_str_eq a b)
             else Ok false) ests.

(** [parseFloat((ld.puntoKm - lo.puntoKm).toFixed(2))] *)
Definition distancia (lo ld : Entry.t) : number :=
  parseFloat (VStr (toFixed2 (sub (Entry.puntoKm ld) (Entry.puntoKm lo)))).

Definition rutaDirecta (paradaOrigenId paradaDestinoId : value) (so : string)
    (ests : list Estimacion.t) (lo ld : Entry.t) : result Directa.t :=
  try est := estOrigen so ests lo in
  Ok {| Directa.tipo := "directa";
        Directa.linea := Entry.linea lo;
        Directa.sentido := sentidoLabel (Entry.sentido lo);
        Directa.paradaOrigen :=
          {| Parada.numero := paradaOrigenId; Parada.nombre := Entry.nombreParada lo |};
        Directa.paradaDestino :=
          {| Parada.numero := paradaDestinoId; Parada.nombre := Entry.nombreParada ld |};
        Directa.distanciaKm := distancia lo ld;
        Directa.proximoBus :=
          match est with
          | e :: _ =>
              Some {| ProximoBus.tiempoMinutos := Bus.tiempoMinutos (Estimacion.proximoBus e);
                      ProximoBus.llegadaEstimada := Bus.llegada (Estimacion.proximoBus e);
                      ProximoBus.destino := Estimacion.destino1 e |}
          | [] => None
          end |}.

(** The two nested [for] loops that fill [rutasDirectas]. *)
Definition rutasDirectas (paradaOrigenId paradaDestinoId : value) (so : string)
    (ests : list Estimacion.t) (lineasOrigen lineasDestino : list Entry.t)
  : result (list Directa.t) :=
  flat_mapR (fun lo =>
    flat_mapR (fun ld =>
      if enlaza lo ld then
        try r := rutaDirecta paradaOrigenId paradaDestinoId so ests lo ld in Ok [r]
      else Ok [])
      lineasDestino)
    lineasOrigen.

(** [t.linea === v.linea && t.sentido === v.sentido] *)
Definition mismaRuta (t v : Directa.t) : bool :=
  strict_eq (Directa.linea t) (Directa.linea v)
  && String.eqb (Directa.sentido t) (Directa.sentido v).

(** The pair a direct route is identified by. *)
Definition clave (r : Directa.t) : value * string :=
  (Directa.linea r, Directa.sentido r).

Definition rutasDirectasUnicas (activas : gset string) (directas : list Directa.t)
  : result (list Directa.t) :=
  filterR_i (fun i v =>
               match findIndex (fun t => mismaRuta t v) directas with
               | Some j =>
                   if Nat.eqb j i then
                     try u := opt_toUpperCase (Directa.linea v) in Ok (has activas u)
                   else Ok false
               | None => Ok false
               end) directas.

(** *** Routes with one transfer *)

(** [lineasOrigen.some((lo) => lo.linea === linea)] *)
Definition sirveOrigen (lineasOrigen : list Entry.t) (linea : value) : bool :=
  existsb (fun lo => strict_eq (Entry.linea lo) linea) lineasOrigen.

(** The [Set] of stops reached by a line of the origin, in insertion
    order. *)
Definition paradasIntermedias (seqs : list record) (lineasOrigen : list Entry.t)
  : list (option string) :=
  uniq opt_str_eq
    (flat_map (fun seq =>
                 if sirveOrigen lineasOrigen (lineaDe seq)
                 then [opt_toString (field seq "ayto:NParada")] else [])
       seqs).

(** [seqs.find(...)]: the first record of an origin line at stop [pi]. *)
Definition seqOrigenDe (seqs : list record) (lineasOrigen : list Entry.t)
    (pi : option string) : option record :=
  List.find (fun s =>
               opt_str_eq (opt_toString (field s "ayto:NParada")) pi
               && sirveOrigen lineasOrigen (lineaDe s)) seqs.

Definition rutaTransbordo (paradaOrigenId paradaDestinoId : value)
    (lineasOrigen : list Entry.t) (pi : option string) (li ld : Entry.t)
    (seqOrigen : record) : Transbordo.t :=
  let lineaOrigen := lineaDe seqOrigen in
  {| Transbordo.tipo := "transbordo";
     Transbordo.tramo1 :=
       {| Tramo1.linea := lineaOrigen;
          Tramo1.paradaOrigen :=
            {| Parada.numero := paradaOrigenId;
               Parada.nombre :=
                 nullish_or
                   (match List.find (fun lo => strict_eq (Entry.linea lo) lineaOrigen)
                            lineasOrigen with
                    | Some lo => Entry.nombreParada lo
                    | None => VUndefined
                    end)
                   paradaOrigenId |};
          Tramo1.paradaTransbordo :=
            {| Parada.numero := of_opt_string pi;
               Parada.nombre := field seqOrigen "ayto:NombreParada" |} |};
     Transbordo.tramo2 :=
       {| Tramo2.linea := Entry.linea li;
          Tramo2.paradaTransbordo :=
            {| Parada.numero := of_opt_string pi; Parada.nombre := Entry.nombreParada li |};
          Tramo2.paradaDestino :=
            {| Parada.numero := paradaDestinoId; Parada.nombre := Entry.nombreParada ld |} |} |}.

(** The body of [if (rutasDirectasUnicas.length === 0) { ... }]. *)
Definition rutasTransbordo (paradaOrigenId paradaDestinoId : value) (so sd : string)
    (seqs : list record) (mapa : gmap string (list Entry.t))
    (lineasOrigen lineasDestino : list Entry.t) : list Transbordo.t :=
  flat_map (fun pi =>
    if opt_str_eq pi (Some so) || opt_str_eq pi (Some sd) then []
    else
      let lineasIntermedias :=
        match pi with
        | Some k => default [] (mapa !! k)
        | None => []
        end in
      flat_map (fun li =>
        flat_map (fun ld =>
          if enlaza li ld then
            match seqOrigenDe seqs lineasOrigen pi with
            | Some seqOrigen =>
                [rutaTransbordo paradaOrigenId paradaDestinoId lineasOrigen pi li ld seqOrigen]
            | None => []
            end
          else [])
          lineasDestino)
        lineasIntermedias)
    (paradasIntermedias seqs lineasOrigen).

Definition rutasTransbordoActivas (activas : gset string) (rs : list Transbordo.t)
  : result (list Transbordo.t) :=
  filterR (fun r =>
             try a := opt_toUpperCase (Tramo1.linea (Transbordo.tramo1 r)) in
             if has activas a then
               try b := opt_toUpperCase (Tramo2.linea (Transbordo.tramo2 r)) in
               Ok (has activas b)
             else Ok false) rs.

(** Both legs of a transfer run on active lines. *)
Definition ambasActivas (activas : gset string) (r : Transbordo.t) : bool :=
  esActiva activas (Tramo1.linea (Transbordo.tramo1 r))
  && esActiva activas (Tramo2.linea (Transbordo.tramo2 r)).

(** *** The plan *)

(** [rutasTransbordo] as the code fills it: the search runs only when no
    direct route is left. *)
Definition busquedaTransbordo (paradaOrigenId paradaDestinoId : value) (so sd : string)
    (dt : datos) (unicas : list Directa.t) : list Transbordo.t :=
  let seqs := resources (resSeqLineasOrigen dt) in
  let mapa := paradaALineas (seqs ++ resources (resSeqLineasDestino dt)) in
  match unicas with
  | [] => rutasTransbordo paradaOrigenId paradaDestinoId so sd seqs mapa
            (lineasOrigen dt) (lineasDestino dt)
  | _ :: _ => []
  end.

(** What [planificarRuta] computes once both rounds of requests are in. *)
Definition planificar (paradaOrigenId paradaDestinoId : value) (now : Z) (dt : datos)
  : result Plan.t :=
  try so := toString paradaOrigenId in
  try sd := toString paradaDestinoId in
  try activas := lineasActivas (todasEstimaciones dt) in
  try directas :=
    rutasDirectas paradaOrigenId paradaDestinoId so (estimacionesOrigen dt)
      (lineasOrigen dt) (lineasDestino dt) in
  try unicas := rutasDirectasUnicas activas directas in
  let transbordo := busquedaTransbordo paradaOrigenId paradaDestinoId so sd dt unicas in
  try transbordoActivas := rutasTransbordoActivas activas transbordo in
  Ok {| Plan.origen := paradaOrigenId;
        Plan.destino := paradaDestinoId;
        Plan.rutasDirectas := unicas;
        Plan.rutasConTransbordo := firstn 5 transbordoActivas;
        Plan.tiempoConsulta := now |}.

Definition registrarLlamada (paradaOrigenId paradaDestinoId : value) : M unit :=
  fun st =>
    (Ok tt,
     {| _cache := _cache st;
        peticiones := peticiones st;
        llamadas := llamadas st ++ [(paradaOrigenId, paradaDestinoId)] |}).

Definition planificarRuta (paradaOrigenId paradaDestinoId : value) (now : Z) : M Plan.t :=
  run registrarLlamada paradaOrigenId paradaDestinoId in
  await dt := obtenerDatos paradaOrigenId paradaDestinoId now in
  lift (planificar paradaOrigenId paradaDestinoId now dt).

(** ** Lines *)

Definition mapLinea (r : record) : Linea.t :=
  {| Linea.id := field r "dc:identifier";
     Linea.numero := field r "ayto:numero";
     Linea.nombre := field r "dc:name";
     Linea.ultimaActualizacion := field r "dc:modified";
     Linea.uri := field r "uri" |}.

Definition getLineas : M (list Linea.t) :=
  await res := fetchAllPages lineas None in
  ret (map mapLinea (resources res)).

(** [numero.toString().toUpperCase().trim()] *)
Definition normalizado (numero : value) : result string :=
  try s := toString numero in Ok (trim (toUpperCase s)).

(** [null] is [None]. *)
Definition getLineaByNumero (numero : value) : M (option Linea.t) :=
  await n := lift (normalizado numero) in
  await res := fetchAllPages lineas (Some ("ayto\:numero:" +:+ luceneEscape n)) in
  ret (match resources res with
       | [] => None
       | r :: _ => Some (mapLinea r)
       end).

(** ** The sequence of stops of a line *)

(** The comparator of the [.sort] of [getSecuenciaLinea]. *)
Definition comparaSecuencia (a b : record) : number :=
  let sA := parseInt (nullish_or (field a "ayto:SentidoRuta") (VNum zero)) in
  let sB := parseInt (nullish_or (field b "ayto:SentidoRuta") (VNum zero)) in
  if negb (eqb sA sB) then sub sA sB
  else sub (parseFloat (nullish_or (field a "ayto:PuntoKM") (VNum zero)))
           (parseFloat (nullish_or (field b "ayto:PuntoKM") (VNum zero))).

(** The query of [getSecuenciaLinea]; [sentido] defaults to [null], also
    when [undefined] is passed. *)
Definition consultaSecuencia (numeroLinea sentido : value) : result string :=
  try n := normalizado numeroLinea in
  let qLinea :=
    "dc\:EtiquetaLinea:" +:+ luceneEscape n +:+ " OR ayto\:Linea:" +:+ luceneEscape n in
  match sentido with
  | VUndefined | VNull => Ok qLinea
  | _ => Ok ("(" +:+ qLinea +:+ ") AND ayto\:SentidoRuta:"
             +:+ luceneEscape (to_string sentido))
  end.

Definition getSecuenciaLinea (numeroLinea sentido : value) : M (list Secuencia.t) :=
  await q := lift (consultaSecuencia numeroLinea sentido) in
  await res := fetchAllPages secuencia (Some q) in
  ret (map secuenciaParada (sort comparaSecuencia (resources res))).

(** ** Stops by number *)

Definition getParadas : M (list ParadaBus.t) :=
  await res := fetchAllPages paradas None in
  ret (map mapParada (resources res)).

Definition getParadaByNumero (numero : value) : M (option ParadaBus.t) :=
  await s := lift (toString numero) in
  await res := fetchAllPages paradas (Some ("ayto\:numero:" +:+ luceneEscape s)) in
  ret (match resources res with
       | [] => None
       | r :: _ => Some (mapParada r)
       end).

(** ** Estimates of every stop and of a line *)

Definition getEstimaciones (now : Z) : M (list Estimacion.t) :=
  await res := fetchAllPages estimaciones None in
  ret (map (mapEstimacion now) (resources res)).

Definition getEstimacionesByLinea (linea : value) (now : Z) : M (list Estimacion.t) :=
  await n := lift (normalizado linea) in
  await res := fetchAllPages estimaciones (Some ("ayto\:etiqLinea:" +:+ luceneEscape n)) in
  ret (map (mapEstimacion now) (resources res)).

(** ** The stops nearest to a point *)

(** [Math.sqrt] *)
Variable Math_sqrt : number -> number.

(** [distancia(p)] *)
Definition distanciaGrados (lat lon : number) (p : ParadaBus.t) : number :=
  let dLat := sub (ParadaBus.lat p) lat in
  let dLon := sub (ParadaBus.lon p) lon in
  Math_sqrt (add (mul dLat dLat) (mul dLon dLon)).

(** [!isNaN(p.lat) && !isNaN(p.lon)] *)
Definition conCoordenadas (p : ParadaBus.t) : bool :=
  negb (isNaN (ParadaBus.lat p)) && negb (isNaN (ParadaBus.lon p)).

(** [.filter(...).map(...).sort(...)]: the stops that have coordinates,
    each with its [distanciaGrados], by that distance. *)
Definition porDistancia (lat lon : number) (ps : list ParadaBus.t)
  : list (ParadaBus.t * number) :=
  sort (fun a b => sub (snd a) (snd b))
    (map (fun p => (p, distanciaGrados lat lon p)) (List.filter conCoordenadas ps)).

(** [n] is an integer; it defaults to 5 at the call. *)
Definition getParadasCercanas (lat lon : number) (n : Z) : M (list Cercana.t) :=
  await ps := getParadas in
  ret (map (fun pd =>
              {| Cercana.parada := fst pd;
                 Cercana.distanciaMetrosAprox := round (mul (snd pd) (of_Z 111320)) |})
         (slice0 n (porDistancia lat lon ps))).

End Servicio.
End Api.

(* ===================================================================== *)
(** * index.js: the two route tools                                        *)
(* ===================================================================== *)

Module Index.

Import Api.
Local Open Scope js_scope.

(** [{ terminoBuscado, paradaSeleccionada, otrasParadasEncontradas }] *)
Module Busqueda.
Record t : Type := {
  terminoBuscado : string;
  paradaSeleccionada : ParadaBus.t;
  otrasParadasEncontradas : list ParadaBus.t
}.
End Busqueda.

(** The object a tool hands to [ok], before [JSON.stringify]. *)
Inductive contenido : Type :=
  | Ruta (resultado : Plan.t) (resumen : string)
  | RutaDesdeNombres (origen destino : Busqueda.t) (ruta : Plan.t) (resumen : string).

(** [ok(data)] and [err(mensaje)] *)
Inductive respuesta : Type :=
  | ok (data : contenido)
  | err (mensaje : string).

Definition cuenta {A} (l : list A) : string := str (digits (Z.of_nat (length l))).

Definition hayRutas (resultado : Plan.t) : bool :=
  negb (Nat.eqb (length (Plan.rutasDirectas resultado)) 0)
  || negb (Nat.eqb (length (Plan.rutasConTransbordo resultado)) 0).

Section Herramientas.

Variable server : nat -> request -> result response.
Variable horaLocal : Z -> string.

(** Tool [planificar_ruta] *)
Definition planificar_ruta (parada_origen parada_destino : string) (now : Z) : M respuesta :=
  if String.eqb parada_origen parada_destino then
    ret (err "La parada de origen y destino son la misma.")
  else
    await resultado :=
      planificarRuta server horaLocal (VStr parada_origen) (VStr parada_destino) now in
    ret (ok (Ruta resultado
               (if hayRutas resultado then
                  "Se encontraron " +:+ cuenta (Plan.rutasDirectas resultado)
                  +:+ " ruta(s) directa(s) y "
                  +:+ cuenta (Plan.rutasConTransbordo resultado)
                  +:+ " ruta(s) con transbordo."
                else
                  "No se encontraron rutas entre estas paradas. Verifica los números de parada con buscar_paradas."))).

(** Tool [ruta_desde_nombres] *)
Definition ruta_desde_nombres (origen destino : string) (now : Z) : M respuesta :=
  await paradasOrigen := buscarParadas server origen in
  await paradasDestino := buscarParadas server destino in
  match paradasOrigen, paradasDestino with
  | [], _ =>
      ret (err ("No se encontraron paradas cerca de " +:+ str ["034"%char] +:+ origen
                +:+ str ["034"%char] +:+ ". Prueba con un nombre diferente."))
  | _ :: _, [] =>
      ret (err ("No se encontraron paradas cerca de " +:+ str ["034"%char] +:+ destino
                +:+ str ["034"%char] +:+ ". Prueba con un nombre diferente."))
  | paradaOrigen :: otrasOrigen, paradaDestino :: otrasDestino =>
      await resultado :=
        planificarRuta server horaLocal
          (ParadaBus.numero paradaOrigen) (ParadaBus.numero paradaDestino) now in
      let entre :=
        str ["034"%char] +:+ to_string (ParadaBus.nombre paradaOrigen) +:+ str ["034"%char]
        +:+ " y " +:+ str ["034"%char] +:+ to_string (ParadaBus.nombre paradaDestino)
        +:+ str ["034"%char] in
      ret (ok (RutaDesdeNombres
                 {| Busqueda.terminoBuscado := origen;
                    Busqueda.paradaSeleccionada := paradaOrigen;
                    Busqueda.otrasParadasEncontradas := firstn 3 otrasOrigen |}
                 {| Busqueda.terminoBuscado := destino;
                    Busqueda.paradaSeleccionada := paradaDestino;
                    Busqueda.otrasParadasEncontradas := firstn 3 otrasDestino |}
                 resultado
                 (if hayRutas resultado then
                    "Se encontraron " +:+ cuenta (Plan.rutasDirectas resultado)
                    +:+ " ruta(s) directa(s) y "
                    +:+ cuenta (Plan.rutasConTransbordo resultado)
                    +:+ " ruta(s) con transbordo entre " +:+ entre +:+ "."
                  else
                    "No se encontraron rutas directas entre " +:+ entre
                    +:+ ". Prueba con otras paradas cercanas usando buscar_paradas.")))
  end.

End Herramientas.
End Index.

(* ===================================================================== *)
(** * api.js: [fetchAllPages], page by page                                *)
(* ===================================================================== *)

(** [Api.fetchAllPages] takes the merged answer of an endpoint from the
    oracle [server].  This module follows the function itself: the URLs it
    builds, the requests it sends with [fetch] and the way it merges the
    pages.  The body of a response is a JSON object whose [summary], when
    there, is an object, whose [resources], when there, is an array of
    records, and whose [pages] is a number in range. *)
Module Http.

Import Api.
Local Open Scope js_scope.

Definition BASE_URL : string := "http://datos.santander.es/api/rest/datasets".

(** A URL under [BASE_URL]: the data set and the search parameters, in
    their order. *)
Module Url.
Record t : Type := { dataset : string; searchParams : list (string * string) }.
End Url.

(** [searchParams.set(name, value)]: the first pair called [name] takes
    the value and the others go; without one, the pair is added at the
    end. *)
Fixpoint set (name value : string) (ps : list (string * string))
  : list (string * string) :=
  match ps with
  | [] => [(name, value)]
  | (n, v) :: ps' =>
      if String.eqb n name
      then (name, value) :: List.filter (fun nv => negb (String.eqb (fst nv) name)) ps'
      else (n, v) :: set name value ps'
  end.

(** [{ pages, items }]; [pages] is [m * 10^e], or is not there. *)
Module Summary.
Record t : Type := { pages : option (Z * Z); items : value }.
End Summary.

(** The body of a response, once parsed. *)
Module Body.
Record t : Type := { summary : option Summary.t; resources : option (list record) }.
End Body.

(** What [fetch] resolves to; [json] is what [.json()] gives. *)
Module Response.
Record t : Type := { ok : bool; status : Z; json : result Body.t }.
End Response.

(** [pages > 1] *)
Definition masDeUna (pages : option (Z * Z)) : bool :=
  match pages with
  | Some (m, e) => negb (leb (Dec m e) (Dec 1 0))
  | None => false
  end.

(** The last [page] with [page <= pages]. *)
Definition ultima (pages : option (Z * Z)) : Z :=
  match pages with
  | Some (m, e) => if 0 <=? e then m * 10 ^ e else m / 10 ^ (- e)
  | None => 0
  end.

(** The values of [page] in [for (let page = 2; page <= pages; page++)]. *)
Definition paginas (pages : option (Z * Z)) : list Z :=
  map Z.of_nat (seq 2 (Z.to_nat (ultima pages) - 1)).

(** [pageUrl]: the URL with the parameter [page] set. *)
Definition conPagina (u : Url.t) (page : Z) : Url.t :=
  {| Url.dataset := Url.dataset u;
     Url.searchParams := set "page" (number_toString (of_Z page)) (Url.searchParams u) |}.

(** [url]: the endpoint with [items_per_page], then the entries of
    [params] ([{}] or [{ query }]). *)
Definition urlDe (ep : endpoint) (query : option string) : Url.t :=
  let base := set "items_per_page" "500" [] in
  {| Url.dataset := ENDPOINTS ep;
     Url.searchParams :=
       match query with
       | Some q => set "query" q base
       | None => base
       end |}.

Section Red.

(** [fetch n u]: what the network gives for the URL [u] when [n] requests
    were sent before; [Throw] is a promise that rejects. *)
Variable fetch : nat -> Url.t -> result Response.t.

(** One call of [fetch]; the URL is added to the requests sent. *)
Definition envia (u : Url.t) (enviadas : list Url.t) : result Response.t * list Url.t :=
  (fetch (length enviadas) u, enviadas ++ [u]).

(** The loop that fills [pageRequests]: every page is asked for before
    any answer is looked at. *)
Fixpoint pageRequests (u : Url.t) (pags : list Z) (enviadas : list Url.t)
  : list (result Response.t) * list Url.t :=
  match pags with
  | [] => ([], enviadas)
  | page :: pags' =>
      let '(r, enviadas1) := envia (conPagina u page) enviadas in
      let '(rs, enviadas2) := pageRequests u pags' enviadas1 in
      (r :: rs, enviadas2)
  end.

(** [fetch(...).then((r) => r.json())] *)
Definition cuerpoDe (r : result Response.t) : result Body.t :=
  try res := r in Response.json res.

Definition fetchAllPages (ep : endpoint) (query : option string) (enviadas : list Url.t)
  : result response * list Url.t :=
  let url := urlDe ep query in
  let '(primera, enviadas1) := envia url enviadas in
  match primera with
  | Throw e => (Throw e, enviadas1)
  | Ok firstRes =>
      if negb (Response.ok firstRes) then
        (Throw (HttpError ("Error HTTP " +:+ number_toString (of_Z (Response.status firstRes))
                           +:+ " al consultar " +:+ ENDPOINTS ep)),
         enviadas1)
      else
        match Response.json firstRes with
        | Throw e => (Throw e, enviadas1)
        | Ok firstData =>
            match Body.summary firstData with
            | None => (Throw (TypeError "Cannot destructure property of undefined"), enviadas1)
            | Some summary =>
                let resources := default [] (Body.resources firstData) in
                if masDeUna (Summary.pages summary) then
                  let '(rs, enviadas2) :=
                    pageRequests url (paginas (Summary.pages summary)) enviadas1 in
                  (try pages_data := mapR cuerpoDe rs in
                   Ok {| total := Summary.items summary;
                         resources :=
                           fold_left (fun acc pd => acc ++ default [] (Body.resources pd))
                             pages_data resources |},
                   enviadas2)
                else
                  (Ok {| total := Summary.items summary; resources := resources |},
                   enviadas1)
            end
        end
  end.

End Red.
End Http.

(* ===================================================================== *)
(** * index.js: the query tools                                            *)
(* ===================================================================== *)

Module Consultas.

Import Api.
Local Open Scope js_scope.

(** [ok(data)] and [err(mensaje)]; as in [Index], [data] is the object a
    tool hands to [ok], before [JSON.stringify]. *)
Inductive respuesta (A : Type) : Type :=
  | ok (data : A)
  | err (mensaje : string).
Arguments ok {A} data.
Arguments err {A} mensaje.

(** ** Tool [info_linea] *)

(** The values of the parameter [sentido]. *)
Inductive sentidoRuta : Type := ida | vuelta | ambos.

(** [{ orden, numeroParada, nombreParada, puntoKm }] *)
Module Orden.
Record t : Type := {
  orden : Z;
  numeroParada : value;
  nombreParada : value;
  puntoKm : number
}.
End Orden.

(** [{ numero, nombre, id }] *)
Module LineaInfo.
Record t : Type := { numero : value; nombre : value; id : value }.
End LineaInfo.

(** [{ linea, rutas, totalParadas }]; the keys of [rutas] come in the
    order they were added. *)
Module InfoLinea.
Record t : Type := {
  linea : LineaInfo.t;
  rutas : list (string * list Orden.t);
  totalParadas : nat
}.
End InfoLinea.

(** [porSentido[k]] *)
Definition grupo (porSentido : list (string * list Orden.t)) (k : string)
  : option (list Orden.t) :=
  option_map snd (List.find (fun kv => String.eqb (fst kv) k) porSentido).

(** [porSentido[k] = v] *)
Definition pon (k : string) (v : list Orden.t) (porSentido : list (string * list Orden.t))
  : list (string * list Orden.t) :=
  if existsb (fun kv => String.eqb (fst kv) k) porSentido
  then map (fun kv => if String.eqb (fst kv) k then (k, v) else kv) porSentido
  else porSentido ++ [(k, v)].

(** The body of [for (const s of secuencia)]. *)
Definition agrega (porSentido : list (string * list Orden.t)) (s : Secuencia.t)
  : list (string * list Orden.t) :=
  let k := Secuencia.sentido s in
  let actual := default [] (grupo porSentido k) in
  pon k (actual ++ [{| Orden.orden := Z.of_nat (length actual) + 1;
                       Orden.numeroParada := Secuencia.numeroParada s;
                       Orden.nombreParada := Secuencia.nombreParada s;
                       Orden.puntoKm := Secuencia.puntoKm s |}])
      porSentido.

Definition porSentido (secuencia : list Secuencia.t) : list (string * list Orden.t) :=
  fold_left agrega secuencia [].

(** ** Tools [estimaciones_parada] and [estimaciones_linea] *)

(** [{ tiempoMinutos, llegadaEstimada, distanciaMetros, destino }];
    [estimaciones_linea] leaves [distanciaMetros] in as well. *)
Module BusInfo.
Record t : Type := {
  tiempoMinutos : option number;
  llegadaEstimada : option string;
  distanciaMetros : option number;
  destino : value
}.
End BusInfo.

(** [{ linea, proximoBus, segundoBus }]; [None] is [null]. *)
Module EstimacionParada.
Record t : Type := {
  linea : value;
  proximoBus : BusInfo.t;
  segundoBus : option BusInfo.t
}.
End EstimacionParada.

(** The stop or the line an answer is about: [{ numero }] alone when it
    was not found ([None] is a key that is not there). *)
Module Sujeto.
Record t : Type := {
  numero : value;
  nombre : option value;
  direccion : option value;
  sentido : option value
}.
End Sujeto.

(** The two objects of [estimaciones_parada]. *)
Inductive estimacionesParada : Type :=
  | ParadaSinEstimaciones (parada : Sujeto.t) (mensaje : string) (consultadoEn : Z)
  | ParadaConEstimaciones (parada : Sujeto.t) (totalLineas : nat)
      (estimaciones : list EstimacionParada.t) (consultadoEn : Z).

(** [{ paradaId, nombreParada, proximoBus }] *)
Module Posicion.
Record t : Type := {
  paradaId : value;
  nombreParada : value;
  proximoBus : BusInfo.t
}.
End Posicion.

(** The two objects of [estimaciones_linea]. *)
Inductive estimacionesLinea : Type :=
  | LineaSinEstimaciones (linea : Sujeto.t) (mensaje : string) (consultadoEn : Z)
  | LineaConEstimaciones (linea : Sujeto.t) (totalParadasConBuses : nat)
      (posicionesBuses : list Posicion.t) (consultadoEn : Z).

(** [{ tiempoMinutos, llegadaEstimada, distanciaMetros, destino }] of a
    bus of an estimate. *)
Definition busInfo (b : Bus.t) (destino : value) : BusInfo.t :=
  {| BusInfo.tiempoMinutos := Bus.tiempoMinutos b;
     BusInfo.llegadaEstimada := Bus.llegada b;
     BusInfo.distanciaMetros := Bus.distanciaMetros b;
     BusInfo.destino := destino |}.

(** The callback of [estimaciones.map] in [estimaciones_parada]. *)
Definition estimacionParada (e : Estimacion.t) : EstimacionParada.t :=
  {| EstimacionParada.linea := Estimacion.linea e;
     EstimacionParada.proximoBus := busInfo (Estimacion.proximoBus e) (Estimacion.destino1 e);
     EstimacionParada.segundoBus :=
       if geb (Bus.tiempoSegundos (Estimacion.segundoBus e)) zero
       then Some (busInfo (Estimacion.segundoBus e) (Estimacion.destino2 e))
       else None |}.

(** The [Map] from stop number to stop name; a later stop with the same
    number replaces an earlier one, and [None] is the key [undefined]. *)
Definition paradasMap (ps : list ParadaBus.t) : gmap (option string) value :=
  fold_left (fun (m : gmap (option string) value) p =>
               <[opt_toString (ParadaBus.numero p) := ParadaBus.nombre p]> m)
    ps ∅.

(** The callback of the last [.map] in [estimaciones_linea]. *)
Definition posicion (mapa : gmap (option string) value) (e : Estimacion.t) : Posicion.t :=
  {| Posicion.paradaId := Estimacion.paradaId e;
     Posicion.nombreParada :=
       nullish_or (default VUndefined (mapa !! opt_toString (Estimacion.paradaId e))) VNull;
     Posicion.proximoBus := busInfo (Estimacion.proximoBus e) (Estimacion.destino1 e) |}.

(** [.filter(...).sort(...).map(...)] of [estimaciones_linea]. *)
Definition posicionesBuses (mapa : gmap (option string) value) (ests : list Estimacion.t)
  : list Posicion.t :=
  map (posicion mapa)
    (sort (fun a b => sub (Bus.tiempoSegundos (Estimacion.proximoBus a))
                          (Bus.tiempoSegundos (Estimacion.proximoBus b)))
       (List.filter (fun e => geb (Bus.tiempoSegundos (Estimacion.proximoBus e)) zero) ests)).

(** [try { ... } catch (_) { }]: what [m] gives, or [alt] when it throws. *)
Definition intenta {A} (m : M A) (alt : A) : M A :=
  fun st =>
    match m st with
    | (Ok a, st') => (Ok a, st')
    | (Throw _, st') => (Ok alt, st')
    end.

Definition comillas (s : string) : string := str ["034"%char] +:+ s +:+ str ["034"%char].

Section Herramientas.

Variable server : nat -> request -> result response.
Variable horaLocal : Z -> string.

Definition info_linea (numero_linea : string) (sentido : sentidoRuta)
  : M (respuesta InfoLinea.t) :=
  await linea := getLineaByNumero server (VStr numero_linea) in
  let sentidoNum :=
    match sentido with
    | ida => VNum (of_Z 1)
    | vuelta => VNum (of_Z 2)
    | ambos => VNull
    end in
  await secuencia := getSecuenciaLinea server (VStr numero_linea) sentidoNum in
  match secuencia with
  | [] =>
      ret (err ("No se encontró la línea " +:+ comillas numero_linea
                +:+ ". Usa listar_lineas para ver las líneas disponibles."))
  | _ :: _ =>
      let de (campo : Linea.t -> value) : value :=
        match linea with Some l => campo l | None => VUndefined end in
      ret (ok {| InfoLinea.linea :=
                   {| LineaInfo.numero := nullish_or (de Linea.numero) (VStr numero_linea);
                      LineaInfo.nombre := nullish_or (de Linea.nombre) (VStr "No disponible");
                      LineaInfo.id := de Linea.id |};
                 InfoLinea.rutas := porSentido secuencia;
                 InfoLinea.totalParadas := length secuencia |})
  end.

Definition estimaciones_parada (numero_parada : string) (now : Z)
  : M (respuesta estimacionesParada) :=
  await parada := getParadaByNumero server (VStr numero_parada) in
  await estimaciones := getEstimacionesByParada server horaLocal (VStr numero_parada) now in
  match estimaciones with
  | [] =>
      ret (ok (ParadaSinEstimaciones
                 match parada with
                 | Some p => {| Sujeto.numero := ParadaBus.numero p;
                                Sujeto.nombre := Some (ParadaBus.nombre p);
                                Sujeto.direccion := None;
                                Sujeto.sentido := None |}
                 | None => {| Sujeto.numero := VStr numero_parada; Sujeto.nombre := None;
                              Sujeto.direccion := None; Sujeto.sentido := None |}
                 end
                 "No hay estimaciones disponibles en este momento para esta parada. Puede que no haya autobuses en servicio actualmente o que la parada no tenga buses asignados."
                 now))
  | _ :: _ =>
      ret (ok (ParadaConEstimaciones
                 match parada with
                 | Some p => {| Sujeto.numero := ParadaBus.numero p;
                                Sujeto.nombre := Some (ParadaBus.nombre p);
                                Sujeto.direccion := Some (ParadaBus.direccion p);
                                Sujeto.sentido := Some (ParadaBus.sentido p) |}
                 | None => {| Sujeto.numero := VStr numero_parada; Sujeto.nombre := None;
                              Sujeto.direccion := None; Sujeto.sentido := None |}
                 end
                 (length estimaciones)
                 (map estimacionParada estimaciones)
                 now))
  end.

Definition estimaciones_linea (numero_linea : string) (now : Z)
  : M (respuesta estimacionesLinea) :=
  await linea := getLineaByNumero server (VStr numero_linea) in
  await estimaciones := getEstimacionesByLinea server horaLocal (VStr numero_linea) now in
  let sujeto :=
    match linea with
    | Some l => {| Sujeto.numero := Linea.numero l; Sujeto.nombre := Some (Linea.nombre l);
                   Sujeto.direccion := None; Sujeto.sentido := None |}
    | None => {| Sujeto.numero := VStr numero_linea; Sujeto.nombre := None;
                 Sujeto.direccion := None; Sujeto.sentido := None |}
    end in
  match estimaciones with
  | [] =>
      ret (ok (LineaSinEstimaciones sujeto
                 "No hay estimaciones disponibles en este momento para esta línea." now))
  | _ :: _ =>
      await mapa := intenta (await ps := getParadas server in ret (paradasMap ps)) ∅ in
      ret (ok (LineaConEstimaciones sujeto (length estimaciones)
                 (posicionesBuses mapa estimaciones) now))
  end.

End Herramientas.
End Consultas.

Import Api.
Local Open Scope js_scope.

(* ===================================================================== *)
(** * Sample feeds                                                         *)
(* ===================================================================== *)

Module Ejemplo.

Definition registro (campos : list (string * value)) : record := list_to_map campos.

(** A sequence record: line, direction, position, stop number and name. *)
Definition paso (linea sentido km parada nombre : string) : record :=
  registro [("dc:EtiquetaLinea", VStr linea); ("ayto:Linea", VStr linea);
            ("ayto:SentidoRuta", VStr sentido); ("ayto:PuntoKM", VStr km);
            ("ayto:NParada", VStr parada); ("ayto:NombreParada", VStr nombre)].

(** An estimate record: stop, line and seconds to the next bus. *)
Definition estimacion (parada linea segundos : string) : record :=
  registro [("ayto:paradaId", VStr parada); ("ayto:etiqLinea", VStr linea);
            ("ayto:tiempo1", VStr segundos); ("ayto:destino1", VStr "Centro")].

Definition parada (numero nombre : string) : record :=
  registro [("ayto:numero", VStr numero); ("ayto:parada", VStr nombre)].

Definition respuesta (rs : list record) : response :=
  {| total := VNum (of_Z (Z.of_nat (length rs))); resources := rs |}.

(** A service that answers the sequence queries from a table (nothing is
    found for a query that is not in it) and has one answer for the
    estimates of a stop, for all the estimates and for the search of
    stops. *)
Record feed : Type := {
  secuencias : list (string * list record);
  estimacionesParada : list record;
  estimacionesTodas : list record;
  paradasEncontradas : list record
}.

Definition servidor (f : feed) (n : nat) (req : request) : result response :=
  match endpoint_of req, query req with
  | secuencia, Some q =>
      match List.find (fun e => String.eqb (fst e) q) (secuencias f) with
      | Some e => Ok (respuesta (snd e))
      | None => Ok (respuesta [])
      end
  | estimaciones, Some _ => Ok (respuesta (estimacionesParada f))
  | estimaciones, None => Ok (respuesta (estimacionesTodas f))
  | paradas, _ => Ok (respuesta (paradasEncontradas f))
  | _, _ => Ok (respuesta [])
  end.

Definition reloj (_ : Z) : string := "12:00".

Definition linea15 : list record :=
  [paso "15" "1" "1.2" "539" "Valdecilla"; paso "15" "1" "2.0" "600" "Cuatro Caminos";
   paso "15" "1" "4.7" "1234" "Sardinero"].
Definition linea7 : list record :=
  [paso "7" "1" "0.5" "539" "Valdecilla"; paso "7" "1" "2.5" "200" "Ayuntamiento"].
Definition linea12 : list record :=
  [paso "12" "1" "1.0" "200" "Ayuntamiento"; paso "12" "1" "3.0" "1234" "Sardinero"].

Definition todas : list record :=
  [estimacion "539" "15" "125"; estimacion "200" "7" "60"; estimacion "200" "12" "300"].

(** Stop 539 is on lines 15 and 7, stop 1234 on lines 15 and 12: line 15
    is direct, and lines 7 and 12 meet at stop 200. *)
Definition conDirecta : feed :=
  {| secuencias :=
       [("ayto\:NParada:539",
         [paso "15" "1" "1.2" "539" "Valdecilla"; paso "7" "1" "0.5" "539" "Valdecilla";
          paso "15" "1" "1.2" "539" "Valdecilla"]);
        ("ayto\:NParada:1234",
         [paso "15" "1" "4.7" "1234" "Sardinero"; paso "12" "1" "3.0" "1234" "Sardinero"]);
        ("dc\:EtiquetaLinea:15 OR dc\:EtiquetaLinea:7", linea15 ++ linea7);
        ("dc\:EtiquetaLinea:15 OR dc\:EtiquetaLinea:12", linea15 ++ linea12)];
     estimacionesParada := [estimacion "539" "15" "125"];
     estimacionesTodas := todas;
     paradasEncontradas := [parada "539" "Valdecilla"] |}.

(** Stop 1234 is on line 12 only, twice in the feed: no direct line. *)
Definition sinDirecta : feed :=
  {| secuencias :=
       [("ayto\:NParada:539",
         [paso "15" "1" "1.2" "539" "Valdecilla"; paso "7" "1" "0.5" "539" "Valdecilla"]);
        ("ayto\:NParada:1234",
         [paso "12" "1" "3.0" "1234" "Sardinero"; paso "12" "1" "3.0" "1234" "Sardinero"]);
        ("dc\:EtiquetaLinea:15 OR dc\:EtiquetaLinea:7", linea15 ++ linea7);
        ("dc\:EtiquetaLinea:12", linea12)];
     estimacionesParada := [estimacion "539" "15" "125"];
     estimacionesTodas := todas;
     paradasEncontradas := [parada "539" "Valdecilla"] |}.


(** The call of the examples: from stop 539 to stop 1234 at instant 1000,
    with nothing cached; and its two rounds of requests. *)
Definition llamada (f : feed) : result Plan.t * state :=
  planificarRuta (servidor f) reloj (VStr "539") (VStr "1234") 1000 estado_inicial.

Definition peticionesDe (f : feed) : result datos * state :=
  obtenerDatos (servidor f) reloj (VStr "539") (VStr "1234") 1000
    (snd (registrarLlamada (VStr "539") (VStr "1234") estado_inicial)).

Definition planVacio : Plan.t :=
  {| Plan.origen := VUndefined; Plan.destino := VUndefined; Plan.rutasDirectas := [];
     Plan.rutasConTransbordo := []; Plan.tiempoConsulta := 0 |}.

Definition datosVacios : datos :=
  {| resOrigen := sinRecursos; resDestino := sinRecursos;
     resSeqLineasOrigen := sinRecursos; resSeqLineasDestino := sinRecursos;
     estimacionesOrigen := []; todasEstimaciones := sinRecursos |}.

(** What the call returns, and the data it got, on a feed. *)
Definition planDe (f : feed) : Plan.t :=
  match fst (llamada f) with Ok p => p | Throw _ => planVacio end.

Definition datosDe (f : feed) : datos :=
  match fst (peticionesDe f) with Ok dt => dt | Throw _ => datosVacios end.

Definition planConDirecta : Plan.t := Eval vm_compute in planDe conDirecta.
Definition datosConDirecta : datos := Eval vm_compute in datosDe conDirecta.
Definition estadoConDirecta : state := Eval vm_compute in snd (llamada conDirecta).

Definition planSinDirecta : Plan.t := Eval vm_compute in planDe sinDirecta.
Definition datosSinDirecta : datos := Eval vm_compute in datosDe sinDirecta.
Definition estadoSinDirecta : state := Eval vm_compute in snd (llamada sinDirecta).


Definition activasEjemplo : gset string := list_to_set ["15"; "7"; "12"].

End Ejemplo.

(* ===================================================================== *)
(** * A sample service for the query tools                                 *)
(* ===================================================================== *)

Module Muestra.

Import Ejemplo.

(** What the service holds for each endpoint; the stops can be out of
    reach. *)
Record tablas : Type := {
  deLineas : list record;
  deSecuencia : list record;
  deParadas : result (list record);
  deEstimaciones : list record
}.

Definition servicio (t : tablas) (n : nat) (req : request) : result response :=
  match endpoint_of req with
  | lineas => Ok (respuesta (deLineas t))
  | secuencia => Ok (respuesta (deSecuencia t))
  | paradas => try ps := deParadas t in Ok (respuesta ps)
  | estimaciones => Ok (respuesta (deEstimaciones t))
  end.

Definition linea (numero nombre : string) : record :=
  registro [("ayto:numero", VStr numero); ("dc:name", VStr nombre);
            ("dc:identifier", VStr ("linea-" +:+ numero))].

(** An estimate with the times of the next two buses. *)
Definition estimacion2 (parada linea t1 t2 : string) : record :=
  registro [("ayto:paradaId", VStr parada); ("ayto:etiqLinea", VStr linea);
            ("ayto:tiempo1", VStr t1); ("ayto:tiempo2", VStr t2);
            ("ayto:destino1", VStr "Centro"); ("ayto:destino2", VStr "Centro")].

(** Line 15 with its stops out of order and one stop of the way back; the
    stops cannot be fetched. *)
Definition sinParadas : tablas :=
  {| deLineas := [linea "15" "Valdecilla - Sardinero"];
     deSecuencia :=
       [paso "15" "1" "4.7" "1234" "Sardinero"; paso "15" "2" "0.0" "1234" "Sardinero";
        paso "15" "1" "1.2" "539" "Valdecilla"; paso "15" "1" "2.0" "600" "Cuatro Caminos"];
     deParadas := Throw (HttpError "Error HTTP 503");
     deEstimaciones :=
       [estimacion2 "600" "15" "300" "900"; estimacion2 "1234" "15" "-1" "-1";
        estimacion2 "539" "15" "125" "abc"] |}.

(** The same service with the stops in reach. *)
Definition conParadas : tablas :=
  {| deLineas := deLineas sinParadas;
     deSecuencia := deSecuencia sinParadas;
     deParadas := Ok [parada "539" "Valdecilla"; parada "600" "Cuatro Caminos"];
     deEstimaciones := deEstimaciones sinParadas |}.

(** What the calls of the examples return, and the state they leave. *)
Definition secuencia15 : list Secuencia.t :=
  Eval vm_compute in
    match getSecuenciaLinea (servicio sinParadas) (VStr "15") VNull estado_inicial with
    | (Ok l, _) => l
    | _ => []
    end.

Definition estadoSecuencia15 : state :=
  Eval vm_compute in
    snd (getSecuenciaLinea (servicio sinParadas) (VStr "15") VNull estado_inicial).

Definition sinInfo : Consultas.InfoLinea.t :=
  {| Consultas.InfoLinea.linea :=
       {| Consultas.LineaInfo.numero := VUndefined;
          Consultas.LineaInfo.nombre := VUndefined;
          Consultas.LineaInfo.id := VUndefined |};
     Consultas.InfoLinea.rutas := [];
     Consultas.InfoLinea.totalParadas := 0 |}.

Definition infoLinea15 : Consultas.InfoLinea.t :=
  Eval vm_compute in
    match Consultas.info_linea (servicio sinParadas) "15" Consultas.ambos estado_inicial with
    | (Ok (Consultas.ok d), _) => d
    | _ => sinInfo
    end.

Definition estadoInfoLinea15 : state :=
  Eval vm_compute in
    snd (Consultas.info_linea (servicio sinParadas) "15" Consultas.ambos estado_inicial).

Definition sujeto539 : Consultas.Sujeto.t :=
  {| Consultas.Sujeto.numero := VStr "539";
     Consultas.Sujeto.nombre := Some (VStr "Valdecilla");
     Consultas.Sujeto.direccion := Some VUndefined;
     Consultas.Sujeto.sentido := Some VUndefined |}.

Definition estimaciones539 : list Consultas.EstimacionParada.t :=
  Eval vm_compute in
    match Consultas.estimaciones_parada (servicio conParadas) reloj "539" 1000
            estado_inicial with
    | (Ok (Consultas.ok (Consultas.ParadaConEstimaciones _ _ es _)), _) => es
    | _ => []
    end.

Definition estadoEstimaciones539 : state :=
  Eval vm_compute in
    snd (Consultas.estimaciones_parada (servicio conParadas) reloj "539" 1000
           estado_inicial).

Definition sujeto15 : Consultas.Sujeto.t :=
  {| Consultas.Sujeto.numero := VStr "15";
     Consultas.Sujeto.nombre := Some (VStr "Valdecilla - Sardinero");
     Consultas.Sujeto.direccion := None;
     Consultas.Sujeto.sentido := None |}.

Definition posiciones15 : list Consultas.Posicion.t :=
  Eval vm_compute in
    match Consultas.estimaciones_linea (servicio sinParadas) reloj "15" 1000
            estado_inicial with
    | (Ok (Consultas.ok (Consultas.LineaConEstimaciones _ _ ps _)), _) => ps
    | _ => []
    end.

Definition estadoPosiciones15 : state :=
  Eval vm_compute in
    snd (Consultas.estimaciones_linea (servicio sinParadas) reloj "15" 1000
           estado_inicial).

Definition linea15 : option Linea.t :=
  Eval vm_compute in
    match getLineaByNumero (servicio sinParadas) (VStr "15") estado_inicial with
    | (Ok l, _) => l
    | _ => None
    end.

Definition estadoLinea15 : state :=
  Eval vm_compute in
    snd (getLineaByNumero (servicio sinParadas) (VStr "15") estado_inicial).

Definition estimacionesLinea15 : list Estimacion.t :=
  Eval vm_compute in
    match getEstimacionesByLinea (servicio sinParadas) reloj (VStr "15") 1000
            estadoLinea15 with
    | (Ok l, _) => l
    | _ => []
    end.

Definition estadoEstimacionesLinea15 : state :=
  Eval vm_compute in
    snd (getEstimacionesByLinea (servicio sinParadas) reloj (VStr "15") 1000 estadoLinea15).

(** The search of the two names on the feed of the examples, where both
    find stop 539 first. *)
Definition rutaNombres : Index.respuesta :=
  Eval vm_compute in
    match Index.ruta_desde_nombres (servidor conDirecta) reloj
            "Valdecilla" "Hospital Valdecilla" 1000 estado_inicial with
    | (Ok r, _) => r
    | _ => Index.err "Error"
    end.

Definition estadoRutaNombres : state :=
  Eval vm_compute in
    snd (Index.ruta_desde_nombres (servidor conDirecta) reloj
           "Valdecilla" "Hospital Valdecilla" 1000 estado_inicial).

(** The first transfer of the plan on the feed without a direct line. *)
Definition sinTransbordo : Transbordo.t :=
  {| Transbordo.tipo := "";
     Transbordo.tramo1 :=
       {| Tramo1.linea := VUndefined;
          Tramo1.paradaOrigen := {| Parada.numero := VUndefined; Parada.nombre := VUndefined |};
          Tramo1.paradaTransbordo :=
            {| Parada.numero := VUndefined; Parada.nombre := VUndefined |} |};
     Transbordo.tramo2 :=
       {| Tramo2.linea := VUndefined;
          Tramo2.paradaTransbordo :=
            {| Parada.numero := VUndefined; Parada.nombre := VUndefined |};
          Tramo2.paradaDestino :=
            {| Parada.numero := VUndefined; Parada.nombre := VUndefined |} |} |}.

Definition primerTransbordo : Transbordo.t :=
  Eval vm_compute in
    match Plan.rutasConTransbordo planSinDirecta with
    | r :: _ => r
    | [] => sinTransbordo
    end.

(** A network that serves the stops in three pages: two stops, then a
    page that comes with status 500 and one stop in its body, then a page
    without [resources]. *)
Definition pagina1 : Http.Body.t :=
  {| Http.Body.summary :=
       Some {| Http.Summary.pages := Some (3, 0); Http.Summary.items := VNum (of_Z 3) |};
     Http.Body.resources := Some [parada "539" "Valdecilla"; parada "600" "Cuatro Caminos"] |}.

Definition pagina2 : Http.Body.t :=
  {| Http.Body.summary := None;
     Http.Body.resources := Some [parada "1234" "Sardinero"] |}.

Definition pagina3 : Http.Body.t :=
  {| Http.Body.summary := None; Http.Body.resources := None |}.

Definition red (n : nat) (u : Http.Url.t) : result Http.Response.t :=
  match List.find (fun nv => String.eqb (fst nv) "page") (Http.Url.searchParams u) with
  | None =>
      Ok {| Http.Response.ok := true; Http.Response.status := 200;
            Http.Response.json := Ok pagina1 |}
  | Some (_, page) =>
      if String.eqb page "2"
      then Ok {| Http.Response.ok := false; Http.Response.status := 500;
                 Http.Response.json := Ok pagina2 |}
      else Ok {| Http.Response.ok := true; Http.Response.status := 200;
                 Http.Response.json := Ok pagina3 |}
  end.

(** The same network with every answer after the first one in order. *)
Definition redEnOrden (n : nat) (u : Http.Url.t) : result Http.Response.t :=
  match n, red n u with
  | S _, Ok res =>
      Ok {| Http.Response.ok := true; Http.Response.status := 200;
            Http.Response.json := Http.Response.json res |}
  | _, r => r
  end.

(** Four stops, one of them without coordinates, and the square root to
    six decimals. *)
Definition paradaEn (numero nombre lat lon : string) : record :=
  registro [("ayto:numero", VStr numero); ("ayto:parada", VStr nombre);
            ("wgs84_pos:lat", VStr lat); ("wgs84_pos:long", VStr lon)].

Definition plano : tablas :=
  {| deLineas := [];
     deSecuencia := [];
     deParadas :=
       Ok [paradaEn "41" "Sardinero" "43.4750" "-3.7850"; parada "539" "Valdecilla";
           paradaEn "600" "Cuatro Caminos" "43.4610" "-3.8160";
           paradaEn "200" "Ayuntamiento" "43.4620" "-3.8090"];
     deEstimaciones := [] |}.

Definition raiz6 (x : number) : number :=
  match x with
  | Dec m e =>
      if m <? 0 then NaN
      else mkDec (Z.sqrt (if 0 <=? e + 12 then m * 10 ^ (e + 12)
                          else m / 10 ^ (- (e + 12)))) (-6)
  | Inf false => Inf false
  | _ => NaN
  end.

Definition respuestaPlano : response :=
  Eval vm_compute in
    match servicio plano 0 {| endpoint_of := paradas; query := None |} with
    | Ok res => res
    | Throw _ => sinRecursos
    end.

(** The two stops nearest to the point (43.4628, -3.8044). *)
Definition cercanas : list Cercana.t :=
  Eval vm_compute in
    match getParadasCercanas (servicio plano) raiz6 (Dec 434628 (-4)) (Dec (-38044) (-4)) 2
            estado_inicial with
    | (Ok l, _) => l
    | _ => []
    end.

Definition estadoCercanas : state :=
  Eval vm_compute in
    snd (getParadasCercanas (servicio plano) raiz6 (Dec 434628 (-4)) (Dec (-38044) (-4)) 2
           estado_inicial).

End Muestra.


Import Ejemplo.

(* ===================================================================== *)
(** * Predicates used in the statements                                    *)
(* ===================================================================== *)



(** A record whose position is not a number. *)
Definition registro_malformado : record :=
  {[ "ayto:PuntoKM" := VStr "abc"; "ayto:SentidoRuta" := VStr "1.5" ]}.

(** A computation that leaves the history of calls as it is. *)
Definition sin_llamadas {A} (m : M A) : Prop :=
  forall st, llamadas (snd (m st)) = llamadas st.

(** A line label as the feed is meant to give it: text, or missing. *)
Definition etiqueta (v : value) : Prop :=
  match v with
  | VUndefined | VNull | VStr _ => True
  | VBool _ | VNum _ => False
  end.

(** A record whose line labels are text or missing. *)
Definition bienEtiquetado (r : record) : Prop :=
  etiqueta (field r "dc:EtiquetaLinea") /\ etiqueta (field r "ayto:Linea")
  /\ etiqueta (field r "ayto:etiqLinea").

(** The data of a call whose line labels are text or missing. *)
Definition datosBien (dt : datos) : Prop :=
  Forall bienEtiquetado (resources (resOrigen dt))
  /\ Forall bienEtiquetado (resources (resDestino dt))
  /\ Forall bienEtiquetado (resources (resSeqLineasOrigen dt))
  /\ Forall bienEtiquetado (resources (resSeqLineasDestino dt))
  /\ Forall (fun e => etiqueta (Estimacion.linea e)) (estimacionesOrigen dt)
  /\ Forall bienEtiquetado (resources (todasEstimaciones dt)).

(** A cache that is empty or holds well-labelled records. *)
Definition cacheBien (st : state) : Prop :=
  match data (_cache st) with
  | Some snap => Forall bienEtiquetado (resources snap)
  | None => True
  end.

(** The labels of a record checked by computation. *)
Definition etiquetaB (v : value) : bool :=
  match v with
  | VUndefined | VNull | VStr _ => true
  | _ => false
  end.

(** The same for the three labels of a record. *)
Definition bienEtiquetadoB (r : record) : bool :=
  etiquetaB (field r "dc:EtiquetaLinea")
  && etiquetaB (field r "ayto:Linea")
  && etiquetaB (field r "ayto:etiqLinea").

(** A sample feed all of whose records are well labelled. *)
Definition feedBien (f : feed) : bool :=
  forallb (fun e => forallb bienEtiquetadoB (snd e)) (secuencias f)
  && forallb bienEtiquetadoB (estimacionesParada f)
  && forallb bienEtiquetadoB (estimacionesTodas f)
  && forallb bienEtiquetadoB (paradasEncontradas f).

(** A text in which every Lucene special character is escaped: plain
    characters, and pairs of a backslash and the special character it
    escapes. *)
Inductive escapada : list ascii -> Prop :=
  | escapada_nil : escapada []
  | escapada_normal c l :
      lucene_special c = false -> escapada l -> escapada (c :: l)
  | escapada_especial c l :
      lucene_special c = true -> escapada l -> escapada ("\"%char :: c :: l).

(** The reading of an escaped text: the backslashes that escape are
    dropped. *)
Fixpoint desescapa (l : list ascii) : list ascii :=
  match l with
  | [] => []
  | c :: l' =>
      if Ascii.eqb c "\" then
        match l' with
        | d :: l'' => d :: desescapa l''
        | [] => []
        end
      else c :: desescapa l'
  end.

(** A bus of an estimate whose time is known: a whole number of seconds
    that is not negative, the minutes that are nearest to it (the larger
    on a tie) and the clock time that many seconds from [now]. *)
Definition busConHora (hora : Z -> string) (now : Z) (b : Bus.t) : Prop :=
  exists t, 0 <= t
            /\ Bus.tiempoSegundos b = of_Z t
            /\ Bus.tiempoMinutos b = Some (of_Z ((t + 30) / 60))
            /\ Bus.llegada b = Some (hora (now + 1000 * t)).

(** A bus of an estimate whose time is not known: the seconds are [NaN]
    or negative, and there are neither minutes nor a clock time. *)
Definition busSinHora (b : Bus.t) : Prop :=
  (Bus.tiempoSegundos b = NaN \/ exists t, t < 0 /\ Bus.tiempoSegundos b = of_Z t)
  /\ Bus.tiempoMinutos b = None /\ Bus.llegada b = None.

(** The distance to a bus: none, or a whole number that is not negative. *)
Definition distanciaValida (b : Bus.t) : Prop :=
  Bus.distanciaMetros b = None
  \/ exists k, 0 <= k /\ Bus.distanciaMetros b = Some (of_Z k).

(** A list in which every element is related to all the later ones. *)
Fixpoint ordenada {A} (R : A -> A -> Prop) (l : list A) : Prop :=
  match l with
  | [] => True
  | x :: l' => Forall (R x) l' /\ ordenada R l'
  end.

(** An entry of a sequence that does not come after another: its
    direction number is smaller, or it is the same and its position is
    not greater. *)
Definition antesEnRuta (a b : Secuencia.t) : Prop :=
  leb (Secuencia.sentidoNumerico a) (Secuencia.sentidoNumerico b) = true
  /\ (eqb (Secuencia.sentidoNumerico a) (Secuencia.sentidoNumerico b) = true ->
      leb (Secuencia.puntoKm a) (Secuencia.puntoKm b) = true).

(** The entry of [rutas] for the stop that comes at index [i] of its
    direction. *)
Definition enOrden (i : nat) (s : Secuencia.t) : Consultas.Orden.t :=
  {| Consultas.Orden.orden := Z.of_nat i + 1;
     Consultas.Orden.numeroParada := Secuencia.numeroParada s;
     Consultas.Orden.nombreParada := Secuencia.nombreParada s;
     Consultas.Orden.puntoKm := Secuencia.puntoKm s |}.

(** The stops of a sequence that run in the direction [k]. *)
Definition delSentido (k : string) (secuencia : list Secuencia.t) : list Secuencia.t :=
  List.filter (fun s => String.eqb (Secuencia.sentido s) k) secuencia.

(** A bus that is listed with its minutes and its clock time. *)
Definition conHora (b : Consultas.BusInfo.t) : Prop :=
  exists m h, 0 <= m
              /\ Consultas.BusInfo.tiempoMinutos b = Some (of_Z m)
              /\ Consultas.BusInfo.llegadaEstimada b = Some h.

(** Two listed buses, the first no later than the second in minutes. *)
Definition llegaAntes (a b : Consultas.Posicion.t) : Prop :=
  exists ma mb,
    Consultas.BusInfo.tiempoMinutos (Consultas.Posicion.proximoBus a) = Some (of_Z ma)
    /\ Consultas.BusInfo.tiempoMinutos (Consultas.Posicion.proximoBus b) = Some (of_Z mb)
    /\ 0 <= ma <= mb.

(** A computation that sends at most [hi] requests to the service, and at
    least [lo] of them when it returns. *)
Definition pide {A} (lo hi : nat) (m : M A) : Prop :=
  forall st,
    (length (peticiones (snd (m st))) <= length (peticiones st) + hi)%nat
    /\ (forall a, fst (m st) = Ok a ->
                  (length (peticiones st) + lo <= length (peticiones (snd (m st))))%nat).

(** A sequence record of the stop numbered [k]. *)
Definition enParada (k : string) (s : record) : bool :=
  opt_str_eq (opt_toString (field s "ayto:NParada")) (Some k).


(* ===================================================================== *)
(** * The JavaScript fragment on examples                                  *)
(* ===================================================================== *)

Example parseFloat_examples :
  parseFloat (VStr "4.7") = Dec 47 (-1) /\
  parseFloat (VStr " -12.50abc") = Dec (-125) (-1) /\
  parseFloat (VStr "1e3") = Dec 1 3 /\
  parseFloat (VStr ".5") = Dec 5 (-1) /\
  parseFloat (VStr "abc") = NaN /\
  parseFloat (VStr "") = NaN /\
  parseFloat (VStr ".") = NaN /\
  parseFloat (VStr "Infinity") = Inf false /\
  parseFloat (VNum zero) = zero /\
  parseFloat (VNum (Dec 12345 18)) = Dec 12345 18 /\
  parseFloat (VNum (Dec 12345 (-12))) = Dec 12345 (-12) /\
  parseFloat VUndefined = NaN.
Proof. vm_compute. repeat split. Qed.

Example parseInt_examples :
  parseInt (VStr "1") = Dec 1 0 /\
  parseInt (VStr "2") = Dec 2 0 /\
  parseInt (VStr " 01x") = Dec 1 0 /\
  parseInt (VStr "1.9") = Dec 1 0 /\
  parseInt (VStr "0x1F") = Dec 31 0 /\
  parseInt (VStr "120") = Dec 12 1 /\
  parseInt (VNum (Dec 1 0)) = Dec 1 0 /\
  parseInt (VNum (Dec 15 (-1))) = Dec 1 0 /\
  parseInt (VNum (Dec 1 21)) = Dec 1 0 /\
  parseInt VUndefined = NaN /\
  parseInt (VStr "ida") = NaN.
Proof. vm_compute. repeat split. Qed.

Example toString_examples :
  number_toString (Dec 35 (-1)) = "3.5" /\
  number_toString (Dec (-5) (-3)) = "-0.005" /\
  number_toString (Dec 1200 0) = "1200" /\
  number_toString (Dec 1 21) = "1e+21" /\
  number_toString (Dec 123 19) = "1.23e+21" /\
  number_toString (Dec 15 (-8)) = "1.5e-7" /\
  number_toString (Dec 539 0) = "539".
Proof. vm_compute. repeat split. Qed.

Example toFixed2_examples :
  toFixed2 (Dec 35 (-1)) = "3.50" /\
  toFixed2 (Dec 1005 (-3)) = "1.01" /\
  toFixed2 (Dec 4 (-3)) = "0.00" /\
  toFixed2 (Dec (-4) (-3)) = "-0.00" /\
  toFixed2 (Dec 0 0) = "0.00" /\
  toFixed2 (Dec 12 2) = "1200.00" /\
  toFixed2 (Dec 1 21) = "1e+21" /\
  toFixed2 NaN = "NaN" /\
  toFixed2 (Inf false) = "Infinity".
Proof. vm_compute. repeat split. Qed.

(* ===================================================================== *)
(** * Exceptions and lists                                                 *)
(* ===================================================================== *)

Lemma bindR_Ok {A B} (r : result A) (k : A -> result B) (b : B) :
  bindR r k = Ok b -> exists a, r = Ok a /\ k a = Ok b.
Proof. destruct r as [a|e]; simpl; [eauto | discriminate]. Qed.


Lemma mapR_Ok {A B} (f : A -> result B) (l : list A) (ys : list B) :
  mapR f l = Ok ys -> Forall2 (fun x y => f x = Ok y) l ys.
Proof.
  revert ys; induction l as [|x l IH]; simpl; intros ys H.
  - injection H as <-. constructor.
  - apply bindR_Ok in H as (y & Hy & H).
    apply bindR_Ok in H as (ys' & Hys & H).
    injection H as <-. constructor; auto.
Qed.

Lemma Forall2_mapR {A B} (f : A -> result B) (l : list A) (ys : list B) :
  Forall2 (fun x y => f x = Ok y) l ys -> mapR f l = Ok ys.
Proof. induction 1 as [|x y l ys Hx _ IH]; simpl; [done|]. by rewrite Hx, IH. Qed.

Lemma flat_mapR_Ok {A B} (f : A -> result (list B)) (l : list A) (out : list B) :
  flat_mapR f l = Ok out ->
  exists ls, Forall2 (fun x y => f x = Ok y) l ls /\ out = concat ls.
Proof.
  unfold flat_mapR. intros H. apply bindR_Ok in H as (ls & Hls & H).
  injection H as <-. exists ls. split; [by apply mapR_Ok | done].
Qed.

(** An element of the result of [flat_mapR] comes from one element of the
    list, and every element of the list contributes all it produces. *)
Lemma flat_mapR_elem {A B} (f : A -> result (list B)) (l : list A) (out : list B) (y : B) :
  flat_mapR f l = Ok out ->
  (In y out <-> exists x ys, In x l /\ f x = Ok ys /\ In y ys).
Proof.
  intros H. apply flat_mapR_Ok in H as (ls & Hls & ->).
  induction Hls as [|x ys l ls Hx _ IH]; simpl.
  - split; [tauto | intros (? & ? & [] & _)].
  - rewrite in_app_iff, IH. split.
    + intros [Hy | (x' & ys' & Hin & Hf & Hy)]; [exists x, ys | exists x', ys']; auto.
    + intros (x' & ys' & [<- | Hin] & Hf & Hy).
      * left. congruence.
      * right. eauto.
Qed.

Lemma filterR_Ok {A} (p : A -> result bool) (l out : list A) :
  filterR p l = Ok out ->
  Forall (fun x => exists b, p x = Ok b) l
  /\ out = List.filter (fun x => match p x with Ok b => b | Throw _ => false end) l.
Proof.
  revert out; induction l as [|x l IH]; simpl; intros out H.
  - injection H as <-. auto.
  - apply bindR_Ok in H as (b & Hb & H).
    apply bindR_Ok in H as (r & Hr & H).
    injection H as <-. destruct (IH _ Hr) as [Hall ->].
    rewrite Hb. split; [constructor; eauto | by destruct b].
Qed.

Lemma filterR_elem {A} (p : A -> result bool) (l out : list A) (x : A) :
  filterR p l = Ok out -> (In x out <-> In x l /\ p x = Ok true).
Proof.
  intros H. apply filterR_Ok in H as [Hall ->].
  rewrite filter_In. split; intros [Hin Hp]; split; auto.
  - rewrite Forall_forall in Hall. destruct (Hall x) as [b Hb].
    + by apply list_elem_of_In.
    + rewrite Hb in Hp. by subst.
  - by rewrite Hp.
Qed.

Lemma filterR_imap_Elige {A} (p : nat -> A -> result bool) (l : list A) (n : nat) kept :
  filterR (fun iv => p (fst iv) (snd iv)) (imap (fun i x => (n + i, x)%nat) l) = Ok kept ->
  Elige p n l (map snd kept).
Proof.
  revert n kept; induction l as [|x l IH]; simpl; intros n kept H.
  - injection H as <-. constructor.
  - apply bindR_Ok in H as (b & Hb & H).
    apply bindR_Ok in H as (r & Hr & H).
    injection H as <-. rewrite Nat.add_0_r in Hb.
    assert (Elige p (S n) l (map snd r)) as Hr'.
    { apply IH. rewrite <- Hr. f_equal. apply imap_ext. intros i y _. simpl.
      f_equal. lia. }
    destruct b; simpl; [by apply Elige_si | by apply Elige_no].
Qed.

Lemma filterR_i_Elige {A} (p : nat -> A -> result bool) (l out : list A) :
  filterR_i p l = Ok out -> Elige p 0 l out.
Proof.
  unfold filterR_i. intros H. apply bindR_Ok in H as (kept & Hk & H).
  injection H as <-. by apply (filterR_imap_Elige p l 0).
Qed.


Lemma findIndex_app_first {A} (q : A -> bool) (pre l : list A) (x : A) :
  Forall (fun t => q t = false) pre -> q x = true ->
  findIndex q (pre ++ x :: l) = Some (length pre).
Proof.
  induction 1 as [|t pre Ht _ IH]; simpl; intros Hx.
  - by rewrite Hx.
  - by rewrite Ht, IH.
Qed.

Lemma findIndex_Some_inv {A} (q : A -> bool) (pre l : list A) (x : A) :
  findIndex q (pre ++ x :: l) = Some (length pre) ->
  Forall (fun t => q t = false) pre /\ q x = true.
Proof.
  induction pre as [|t pre IH]; simpl.
  - destruct (q x); [auto|]. destruct (findIndex q l); discriminate.
  - destruct (q t) eqn:Ht; [discriminate|].
    destruct (findIndex q (pre ++ x :: l)) as [j|] eqn:Hj; simpl; [|discriminate].
    intros [= ->]. destruct (IH eq_refl). auto.
Qed.


(* ===================================================================== *)
(** * Values and keys                                                      *)
(* ===================================================================== *)

Lemma strict_eq_VStr_r (a : value) (s : string) :
  strict_eq a (VStr s) = true -> a = VStr s.
Proof.
  destruct a; simpl; try discriminate.
  intros H. apply String.eqb_eq in H. by subst.
Qed.

Lemma strict_eq_VStr_l (b : value) (s : string) :
  strict_eq (VStr s) b = true -> b = VStr s.
Proof.
  destruct b; simpl; try discriminate.
  intros H. apply String.eqb_eq in H. by subst.
Qed.

Lemma strict_eq_VStr_refl (s : string) : strict_eq (VStr s) (VStr s) = true.
Proof. simpl. apply String.eqb_refl. Qed.


Lemma opt_toUpperCase_Some (v : value) (u : string) :
  opt_toUpperCase v = Ok (Some u) -> exists s, v = VStr s /\ u = toUpperCase s.
Proof. destruct v; simpl; intros H; inversion H; eauto. Qed.

Lemma has_true (activas : gset string) (u : option string) :
  has activas u = true -> exists l, u = Some l /\ l ∈ activas.
Proof.
  destruct u as [l|]; simpl; [|discriminate].
  intros H. apply bool_decide_eq_true in H. eauto.
Qed.

Lemma esActiva_true (activas : gset string) (linea : value) :
  esActiva activas linea = true <-> activa activas linea.
Proof.
  unfold activa. destruct linea; simpl; split; try discriminate;
    try (intros (l & Hl & _); discriminate).
  - intros H. apply bool_decide_eq_true in H. eauto.
  - intros (l & [= ->] & H). by apply bool_decide_eq_true.
Qed.

Lemma activa_has (activas : gset string) (linea : value) :
  activa activas linea <->
  exists u, opt_toUpperCase linea = Ok u /\ has activas u = true.
Proof.
  split.
  - intros (l & -> & Hl). exists (Some (toUpperCase l)). simpl.
    split; [done | by apply bool_decide_eq_true].
  - intros (u & Hu & Hh). apply has_true in Hh as (l & -> & Hl).
    apply opt_toUpperCase_Some in Hu as (s & -> & ->). by exists s.
Qed.

(** ** What the set of active lines contains *)

(** X3. A label is in the set of active lines exactly when it is not empty
    and is the upper-case form of the label of some estimate record. *)
Lemma lineasActivas_spec (todas : response) (activas : gset string) (L : string) :
  lineasActivas todas = Ok activas ->
  (L ∈ activas <->
   L <> "" /\
   exists r l, In r (resources todas)
               /\ field r "ayto:etiqLinea" = VStr l /\ toUpperCase l = L).
Proof.
  unfold lineasActivas. intros H. apply bindR_Ok in H as (us & Hus & H).
  injection H as <-. apply mapR_Ok in Hus.
  rewrite elem_of_list_to_set, list_elem_of_In, in_flat_map.
  split.
  - intros (u & Hu & HL). destruct u as [l|]; [|destruct HL].
    destruct (String.eqb l "") eqn:El; [destruct HL|].
    destruct HL as [<-|[]]. split.
    { intros ->. by rewrite String.eqb_refl in El. }
    clear El. induction Hus as [|r u' rs us Hr _ IH]; [destruct Hu|].
    destruct Hu as [->|Hu].
    + apply opt_toUpperCase_Some in Hr as (s & Hs & ->). exists r, s. simpl. auto.
    + destruct (IH Hu) as (r' & l' & ? & ? & ?). exists r', l'. simpl. auto.
  - intros (Hne & r & l & Hr & Hf & <-). exists (Some (toUpperCase l)). split.
    + induction Hus as [|r' u' rs us Hr' _ IH]; [destruct Hr|].
      destruct Hr as [->|Hr]; [|right; auto].
      left. rewrite Hf in Hr'. simpl in Hr'. congruence.
    + destruct (String.eqb (toUpperCase l) "") eqn:El; [|by left].
      apply String.eqb_eq in El. contradiction.
Qed.

Lemma Forall2_In_izq {A B} (R : A -> B -> Prop) (l : list A) (k : list B) (x : A) :
  Forall2 R l k -> In x l -> exists y, In y k /\ R x y.
Proof.
  induction 1 as [|a b l k Hab _ IH]; simpl; [tauto|].
  intros [<-|Hin]; [eauto|]. destruct (IH Hin) as (y & ? & ?). eauto.
Qed.

(* ===================================================================== *)
(** * Direct routes                                                        *)
(* ===================================================================== *)

Lemma rutaDirecta_campos o d so ests lo ld r :
  rutaDirecta o d so ests lo ld = Ok r ->
  Directa.linea r = Entry.linea lo
  /\ Directa.sentido r = sentidoLabel (Entry.sentido lo)
  /\ Directa.distanciaKm r = distancia lo ld.
Proof.
  unfold rutaDirecta. intros H. apply bindR_Ok in H as (est & _ & H).
  injection H as <-. auto.
Qed.

Lemma rutasDirectas_elem o d so ests Lo Ld directas r :
  rutasDirectas o d so ests Lo Ld = Ok directas ->
  (In r directas <->
   exists lo ld, In lo Lo /\ In ld Ld /\ enlaza lo ld = true
                 /\ rutaDirecta o d so ests lo ld = Ok r).
Proof.
  intros H. unfold rutasDirectas in H.
  rewrite (flat_mapR_elem _ _ _ r H). split.
  - intros (lo & ys & Hlo & Hys & Hr).
    rewrite (flat_mapR_elem _ _ _ r Hys) in Hr.
    destruct Hr as (ld & zs & Hld & Hzs & Hr).
    destruct (enlaza lo ld) eqn:E.
    + apply bindR_Ok in Hzs as (r' & Hr' & Hzs). injection Hzs as <-.
      destruct Hr as [<-|[]]. exists lo, ld. auto.
    + injection Hzs as <-. destruct Hr.
  - intros (lo & ld & Hlo & Hld & E & Hr).
    apply flat_mapR_Ok in H as (ls & Hls & _).
    destruct (Forall2_In_izq _ _ _ _ Hls Hlo) as (ys & _ & Hys).
    exists lo, ys. split; [done|]. split; [done|].
    rewrite (flat_mapR_elem _ _ _ r Hys).
    exists ld, [r]. split; [done|]. rewrite E, Hr. simpl. auto.
Qed.

(** ** The key of a direct route *)

Lemma mismaRuta_VStr_l (t v : Directa.t) (l : string) :
  Directa.linea v = VStr l -> mismaRuta t v = true ->
  Directa.linea t = VStr l /\ Directa.sentido t = Directa.sentido v.
Proof.
  unfold mismaRuta. intros Hv H. apply andb_true_iff in H as [H1 H2].
  rewrite Hv in H1. apply strict_eq_VStr_r in H1. apply String.eqb_eq in H2. auto.
Qed.

Lemma mismaRuta_refl (v : Directa.t) (l : string) :
  Directa.linea v = VStr l -> mismaRuta v v = true.
Proof.
  unfold mismaRuta. intros ->. by rewrite strict_eq_VStr_refl, String.eqb_refl.
Qed.

Lemma mismaRuta_cambia (t v c : Directa.t) (l : string) :
  Directa.linea c = VStr l -> mismaRuta v c = true -> mismaRuta t v = mismaRuta t c.
Proof.
  intros Hc Hv. destruct (mismaRuta_VStr_l _ _ _ Hc Hv) as [Hl Hs].
  unfold mismaRuta. by rewrite Hl, Hc, Hs.
Qed.

Lemma mismaRuta_clave (t v : Directa.t) (l : string) :
  Directa.linea v = VStr l -> mismaRuta t v = false -> clave t <> clave v.
Proof.
  intros Hl Hf Hk. unfold clave in Hk. injection Hk as H1 H2.
  unfold mismaRuta in Hf. by rewrite H1, H2, Hl, strict_eq_VStr_refl, String.eqb_refl in Hf.
Qed.

(** Routes on string-labelled lines that differ pairwise in the test of
    the code have pairwise different keys. *)
Lemma claves_distintas (l : list Directa.t) :
  Forall (fun v => exists s, Directa.linea v = VStr s) l ->
  ForallOrdPairs (fun v w => mismaRuta v w = false) l ->
  NoDup (map clave l).
Proof.
  intros Hstr Hp. induction Hp as [|v l Hv _ IH]; simpl; [constructor|].
  apply Forall_cons in Hstr as [_ Hstr]. constructor; [|by apply IH].
  rewrite list_elem_of_fmap. intros (w & Hk & Hw).
  rewrite Forall_forall in Hv, Hstr. destruct (Hstr w Hw) as [s Hs].
  by apply (mismaRuta_clave v w s Hs (Hv w Hw)).
Qed.

(** ** Deduplication and the active-line filter *)

Section Unicas.

Variable activas : gset string.
Variable directas : list Directa.t.

(** The callback of the [filter] that builds [rutasDirectasUnicas]. *)
Let conserva (i : nat) (v : Directa.t) : result bool :=
  match findIndex (fun t => mismaRuta t v) directas with
  | Some j =>
      if Nat.eqb j i then
        try u := opt_toUpperCase (Directa.linea v) in Ok (has activas u)
      else Ok false
  | None => Ok false
  end%js.

Lemma conserva_true (pre post : list Directa.t) (v : Directa.t) :
  directas = pre ++ v :: post ->
  conserva (length pre) v = Ok true ->
  Forall (fun t => mismaRuta t v = false) pre /\ activa activas (Directa.linea v).
Proof.
  intros Hd. unfold conserva.
  destruct (findIndex _ directas) as [j|] eqn:Hj; [|discriminate].
  destruct (Nat.eqb j (length pre)) eqn:Ej; [|discriminate].
  apply Nat.eqb_eq in Ej. subst j. intros H.
  apply bindR_Ok in H as (u & Hu & H). injection H as Hh.
  rewrite Hd in Hj. apply findIndex_Some_inv in Hj as [Hpre _].
  split; [done|]. apply activa_has. eauto.
Qed.

Lemma conserva_primera (pre post : list Directa.t) (v : Directa.t) :
  directas = pre ++ v :: post ->
  Forall (fun t => mismaRuta t v = false) pre ->
  activa activas (Directa.linea v) ->
  conserva (length pre) v = Ok true.
Proof.
  intros Hd Hpre (l & Hl & Hact). unfold conserva.
  rewrite Hd, (findIndex_app_first _ pre post v Hpre (mismaRuta_refl v l Hl)).
  rewrite Nat.eqb_refl, Hl. simpl. f_equal. by apply bool_decide_eq_true.
Qed.

(** Every route kept is the first of [directas] with its key, and is
    active; no two routes kept have the same key. *)
Lemma Elige_unicas (n : nat) (l out : list Directa.t) :
  Elige conserva n l out ->
  forall pre, directas = pre ++ l -> n = length pre ->
  Forall (fun v => exists mid post,
            directas = (pre ++ mid) ++ v :: post
            /\ Forall (fun t => mismaRuta t v = false) (pre ++ mid)
            /\ activa activas (Directa.linea v)) out
  /\ ForallOrdPairs (fun v w => mismaRuta v w = false) out.
Proof.
  induction 1 as [n|n x l out Hx _ IH|n x l out Hx _ IH]; intros pre Hd Hn.
  - split; constructor.
  - subst n. destruct (conserva_true pre l x Hd Hx) as [Hpre Hact].
    destruct (IH (pre ++ [x])) as [IH1 IH2].
    { by rewrite <- app_assoc. } { rewrite length_app. simpl. lia. }
    split.
    + constructor.
      * exists [], l. by rewrite app_nil_r.
      * eapply Forall_impl; [exact IH1|]. intros v (mid & post & H1 & H2 & H3).
        exists (x :: mid), post.
        rewrite <- (app_assoc pre [x] mid) in H1, H2. simpl in H1, H2. auto.
    + constructor; [|done]. rewrite Forall_forall in IH1 |- *.
      intros w Hw. destruct (IH1 w Hw) as (mid & post & _ & Hall & _).
      rewrite Forall_forall in Hall. apply Hall.
      rewrite !elem_of_app, list_elem_of_singleton. auto.
  - subst n. destruct (IH (pre ++ [x])) as [IH1 IH2].
    { by rewrite <- app_assoc. } { rewrite length_app. simpl. lia. }
    split; [|done].
    eapply Forall_impl; [exact IH1|]. intros v (mid & post & H1 & H2 & H3).
    exists (x :: mid), post.
        rewrite <- (app_assoc pre [x] mid) in H1, H2. simpl in H1, H2. auto.
Qed.

(** A candidate of an active line is represented among the routes kept. *)
Lemma Elige_representa (n : nat) (l out : list Directa.t) :
  Elige conserva n l out ->
  forall pre, directas = pre ++ l -> n = length pre ->
  forall c, In c l -> activa activas (Directa.linea c) ->
  Forall (fun t => mismaRuta t c = false) pre ->
  exists f, In f out /\ mismaRuta f c = true.
Proof.
  induction 1 as [n|n x l out Hx _ IH|n x l out Hx _ IH];
    intros pre Hd Hn c Hc Hact Hpre.
  - destruct Hc.
  - destruct (mismaRuta x c) eqn:Exc.
    + exists x. simpl. auto.
    + destruct Hc as [->|Hc].
      { destruct Hact as (s & Hs & _). by rewrite (mismaRuta_refl c s Hs) in Exc. }
      assert (directas = (pre ++ [x]) ++ l) as Hd' by (by rewrite <- app_assoc).
      assert (S n = length (pre ++ [x])) as Hn' by (rewrite length_app; simpl; lia).
      assert (Forall (fun t => mismaRuta t c = false) (pre ++ [x])) as Hpre'
        by (apply Forall_app; split; [done | by constructor]).
      destruct (IH _ Hd' Hn' c Hc Hact Hpre') as (f & Hf & Hfc).
      exists f. simpl. auto.
  - destruct (mismaRuta x c) eqn:Exc.
    + exfalso. subst n. destruct Hact as (s & Hs & Hin).
      destruct (mismaRuta_VStr_l _ _ _ Hs Exc) as [Hxl _].
      assert (conserva (length pre) x = Ok true) as Hok.
      { apply (conserva_primera pre l x Hd).
        - eapply Forall_impl; [exact Hpre|]. intros t Ht. simpl in Ht.
          by rewrite (mismaRuta_cambia t x c s Hs Exc).
        - exists s. auto. }
      congruence.
    + destruct Hc as [->|Hc].
      { destruct Hact as (s & Hs & _). by rewrite (mismaRuta_refl c s Hs) in Exc. }
      assert (directas = (pre ++ [x]) ++ l) as Hd' by (by rewrite <- app_assoc).
      assert (S n = length (pre ++ [x])) as Hn' by (rewrite length_app; simpl; lia).
      assert (Forall (fun t => mismaRuta t c = false) (pre ++ [x])) as Hpre'
        by (apply Forall_app; split; [done | by constructor]).
      destruct (IH _ Hd' Hn' c Hc Hact Hpre') as (f & Hf & Hfc).
      exists f. auto.
Qed.

Lemma rutasDirectasUnicas_Elige (unicas : list Directa.t) :
  rutasDirectasUnicas activas directas = Ok unicas -> Elige conserva 0 directas unicas.
Proof. intros H. by apply filterR_i_Elige in H. Qed.

End Unicas.

(* ===================================================================== *)
(** * Routes with one transfer                                             *)
(* ===================================================================== *)

Lemma rutasTransbordo_elem o d so sd seqs mapa Lo Ld r :
  In r (rutasTransbordo o d so sd seqs mapa Lo Ld) ->
  exists pi li ld seqOrigen,
    In pi (paradasIntermedias seqs Lo)
    /\ In ld Ld /\ enlaza li ld = true
    /\ seqOrigenDe seqs Lo pi = Some seqOrigen
    /\ r = rutaTransbordo o d Lo pi li ld seqOrigen.
Proof.
  unfold rutasTransbordo. rewrite in_flat_map. intros (pi & Hpi & H).
  destruct (opt_str_eq pi (Some so) || opt_str_eq pi (Some sd)); [destruct H|].
  apply in_flat_map in H as (li & _ & H).
  apply in_flat_map in H as (ld & Hld & H).
  destruct (enlaza li ld) eqn:E; [|destruct H].
  destruct (seqOrigenDe seqs Lo pi) as [seqOrigen|] eqn:Es; [|destruct H].
  destruct H as [<-|[]]. exists pi, li, ld, seqOrigen. auto.
Qed.


Lemma rutasTransbordoActivas_filter activas rs tact :
  rutasTransbordoActivas activas rs = Ok tact ->
  tact = List.filter (ambasActivas activas) rs.
Proof.
  unfold rutasTransbordoActivas. intros H. apply filterR_Ok in H as [Hall ->].
  apply filter_ext_in. intros r Hr. rewrite Forall_forall in Hall.
  destruct (Hall r) as [b Hb]; [by apply list_elem_of_In|].
  rewrite Hb. revert Hb. unfold ambasActivas.
  destruct (Tramo1.linea (Transbordo.tramo1 r)) as [| | | |l1]; simpl;
    try discriminate; try (by intros [= <-]).
  destruct (bool_decide (toUpperCase l1 ∈ activas)); [|by intros [= <-]].
  destruct (Tramo2.linea (Transbordo.tramo2 r)); simpl;
    try discriminate; by intros [= <-].
Qed.

(* ===================================================================== *)
(** * One call of [planificarRuta]                                         *)
(* ===================================================================== *)

Lemma toString_Ok (v : value) (s : string) : toString v = Ok s -> s = to_string v.
Proof. destruct v; simpl; intros H; inversion H; done. Qed.

(** The steps of the computation that follows the requests. *)
Lemma planificar_Ok o d now dt plan :
  planificar o d now dt = Ok plan ->
  exists activas directas,
    lineasActivas (todasEstimaciones dt) = Ok activas
    /\ rutasDirectas o d (to_string o) (estimacionesOrigen dt)
         (lineasOrigen dt) (lineasDestino dt) = Ok directas
    /\ rutasDirectasUnicas activas directas = Ok (Plan.rutasDirectas plan)
    /\ Plan.rutasConTransbordo plan =
       firstn 5 (List.filter (ambasActivas activas)
                   (busquedaTransbordo o d (to_string o) (to_string d) dt
                      (Plan.rutasDirectas plan)))
    /\ Plan.origen plan = o /\ Plan.destino plan = d.
Proof.
  unfold planificar. intros H.
  apply bindR_Ok in H as (so & Hso & H). pose proof (toString_Ok _ _ Hso) as ->.
  apply bindR_Ok in H as (sd & Hsd & H). pose proof (toString_Ok _ _ Hsd) as ->.
  apply bindR_Ok in H as (activas & Hact & H).
  apply bindR_Ok in H as (directas & Hdir & H).
  apply bindR_Ok in H as (unicas & Huni & H).
  apply bindR_Ok in H as (tact & Htact & H).
  injection H as <-. simpl.
  pose proof (rutasTransbordoActivas_filter _ _ _ Htact) as Hf.
  exists activas, directas. rewrite <- Hf. repeat split; auto.
Qed.

Section Llamada.

Variable server : nat -> request -> result response.
Variable horaLocal : Z -> string.
Variables (o d : value) (now : Z) (st st' : state) (plan : Plan.t).

Hypothesis Hplan : planificarRuta server horaLocal o d now st = (Ok plan, st').

(** A call that returns a plan got its data from the service and computed
    the plan from them. *)
Lemma planificarRuta_Ok :
  exists dt,
    obtenerDatos server horaLocal o d now (snd (registrarLlamada o d st)) = (Ok dt, st')
    /\ planificar o d now dt = Ok plan.
Proof.
  revert Hplan. unfold planificarRuta, bind, lift. simpl.
  destruct (obtenerDatos _ _ _ _ _ _) as [[dt|e] st1]; [|discriminate].
  intros [= H1 H2]. subst. eauto.
Qed.

End Llamada.

(* ===================================================================== *)
(** * Decimals                                                             *)
(* ===================================================================== *)

Lemma strip_spec (fuel : nat) (m e m' e' : Z) :
  strip fuel m e = (m', e') -> e <= e' /\ m = m' * 10 ^ (e' - e).
Proof.
  revert m e; induction fuel as [|f IH]; simpl; intros m e H.
  - injection H as <- <-. rewrite Z.sub_diag. lia.
  - destruct (m mod 10 =? 0) eqn:E.
    + apply Z.eqb_eq in E. apply IH in H as [Hle Hm]. split; [lia|].
      replace (e' - e) with (1 + (e' - (e + 1))) by lia.
      rewrite Z.pow_add_r, Z.pow_1_r by lia.
      rewrite (Z.div_mod m 10) at 1 by lia. rewrite E, Hm. lia.
    + injection H as <- <-. rewrite Z.sub_diag. lia.
Qed.

Lemma strip_normal (fuel : nat) (m e m' e' : Z) :
  m <> 0 -> Z.log2 (Z.abs m) <= Z.of_nat fuel ->
  strip fuel m e = (m', e') -> m' mod 10 <> 0.
Proof.
  revert m e; induction fuel as [|f IH]; simpl; intros m e Hm Hlog H.
  - injection H as <- <-.
    assert (Z.abs m < 2) as Hlt.
    { destruct (Z.lt_ge_cases (Z.abs m) 2) as [|Hge]; [done|].
      pose proof (Z.log2_le_mono 2 (Z.abs m) Hge) as Hl.
      change (Z.log2 2) with 1 in Hl. lia. }
    assert (m = 1 \/ m = -1) as [-> | ->] by lia; done.
  - destruct (m mod 10 =? 0) eqn:E; [|injection H as <- <-; by apply Z.eqb_neq in E].
    apply Z.eqb_eq in E.
    assert (m = 10 * (m / 10)) as Hm10 by (rewrite (Z.div_mod m 10) at 1; lia).
    apply IH in H; [done|lia|].
    assert (Z.abs m = 10 * Z.abs (m / 10)) as Habs by lia.
    assert (0 < Z.abs (m / 10)) as Hpos by lia.
    assert (Z.log2 (Z.abs (m / 10)) + 3 <= Z.log2 (Z.abs m)) as Hl.
    { rewrite Habs.
      transitivity (Z.log2 (2 ^ 3 * Z.abs (m / 10))).
      - rewrite Z.mul_comm, Z.log2_mul_pow2 by lia. lia.
      - apply Z.log2_le_mono. lia. }
    lia.
Qed.


(** [mkDec] yields a decimal in lowest terms with the same value. *)
Lemma mkDec_spec (m e : Z) :
  (m = 0 /\ mkDec m e = Dec 0 0)
  \/ (m <> 0 /\ exists m' e', mkDec m e = Dec m' e' /\ m' mod 10 <> 0
                              /\ e <= e' /\ m = m' * 10 ^ (e' - e)).
Proof.
  unfold mkDec. destruct (m =? 0) eqn:E.
  - apply Z.eqb_eq in E. auto.
  - apply Z.eqb_neq in E. right. split; [done|].
    destruct (strip _ m e) as [m' e'] eqn:Hs. exists m', e'.
    split; [done|]. split.
    + eapply strip_normal; [done | | exact Hs]. rewrite Z2Nat.id; [lia|].
      apply Z.log2_nonneg.
    + by apply strip_spec in Hs.
Qed.



(** ** Digits *)
























Lemma flat_mapR_flat_map {A B} (f : A -> result (list B)) (l : list A) (out : list B) :
  flat_mapR f l = Ok out ->
  out = flat_map (fun x => match f x with Ok ys => ys | Throw _ => [] end) l.
Proof.
  intros H. apply flat_mapR_Ok in H as (ls & Hls & ->).
  induction Hls as [|x ys l ls Hx _ IH]; simpl; [done|]. by rewrite Hx, IH.
Qed.

(** The candidates are listed origin entry by origin entry and, for each,
    destination entry by destination entry. *)
Lemma rutasDirectas_orden o d so ests Lo Ld directas :
  rutasDirectas o d so ests Lo Ld = Ok directas ->
  directas =
  flat_map (fun lo =>
    flat_map (fun ld =>
      if enlaza lo ld then
        match rutaDirecta o d so ests lo ld with Ok r => [r] | Throw _ => [] end
      else []) Ld) Lo.
Proof.
  intros H. pose proof H as H'. unfold rutasDirectas in H'.
  apply flat_mapR_Ok in H' as (ls & Hls & _).
  rewrite (flat_mapR_flat_map _ _ _ H).
  clear H. induction Hls as [|lo ys Lo' ls Hlo _ IH]; simpl; [done|].
  rewrite IH. f_equal. rewrite Hlo. rewrite (flat_mapR_flat_map _ _ _ Hlo).
  apply flat_map_ext. intros ld. destruct (enlaza lo ld); [|done].
  by destruct (rutaDirecta o d so ests lo ld).
Qed.

Section SoloPlan.

Variable server : nat -> request -> result response.
Variable horaLocal : Z -> string.
Variables (o d : value) (now : Z) (st st' : state) (plan : Plan.t).

Hypothesis Hplan : planificarRuta server horaLocal o d now st = (Ok plan, st').

(** C2. When the plan returned holds a direct route it holds no transfer
    route: the transfer search is skipped. *)
Theorem transbordo_solo_sin_directas :
  Plan.rutasDirectas plan <> [] -> Plan.rutasConTransbordo plan = [].
Proof.
  intros Hne.
  destruct (planificarRuta_Ok _ _ _ _ _ _ _ _ Hplan) as (dt & _ & Hp).
  destruct (planificar_Ok _ _ _ _ _ Hp)
    as (activas & directas & _ & _ & _ & Ht & _).
  rewrite Ht. unfold busquedaTransbordo.
  destruct (Plan.rutasDirectas plan); [done | reflexivity].
Qed.


End SoloPlan.

Section Planes.

Variable server : nat -> request -> result response.
Variable horaLocal : Z -> string.
Variables (o d : value) (now : Z) (st st' : state) (plan : Plan.t) (dt : datos).

Hypothesis Hplan : planificarRuta server horaLocal o d now st = (Ok plan, st').
Hypothesis Hdatos :
  obtenerDatos server horaLocal o d now (snd (registrarLlamada o d st)) = (Ok dt, st').

Lemma planificar_de_llamada : planificar o d now dt = Ok plan.
Proof.
  destruct (planificarRuta_Ok _ _ _ _ _ _ _ _ Hplan) as (dt' & Hdt' & Hp).
  rewrite Hdatos in Hdt'. by injection Hdt' as <-.
Qed.

(** C1. If an origin entry [lo] and a destination entry [ld] have the same
    line and the same direction with [lo.puntoKm <= ld.puntoKm], and the
    line of [lo] is in the set of active lines computed from the estimates
    snapshot, the plan returned holds a direct route with the line of [lo]
    and the direction label of [lo]. *)
Theorem directa_para_linea_activa (activas : gset string) (lo ld : Entry.t) (l : string) :
  In lo (lineasOrigen dt) -> In ld (lineasDestino dt) ->
  strict_eq (Entry.linea lo) (Entry.linea ld) = true ->
  strict_eq (Entry.sentido lo) (Entry.sentido ld) = true ->
  leb (Entry.puntoKm lo) (Entry.puntoKm ld) = true ->
  lineasActivas (todasEstimaciones dt) = Ok activas ->
  Entry.linea lo = VStr l -> toUpperCase l ∈ activas ->
  exists r, In r (Plan.rutasDirectas plan)
            /\ Directa.linea r = Entry.linea lo
            /\ Directa.sentido r = sentidoLabel (Entry.sentido lo).
Proof.
  intros Hlo Hld E1 E2 E3 Hact Hl Hin.
  destruct (planificar_Ok _ _ _ _ _ planificar_de_llamada)
    as (activas' & directas & Hact' & Hdir & Huni & _).
  rewrite Hact in Hact'. injection Hact' as <-.
  assert (enlaza lo ld = true) as E by (unfold enlaza; by rewrite E1, E2, E3).
  (* the loops did not raise, so the pair produced a candidate [c] *)
  assert (exists c, rutaDirecta o d (to_string o) (estimacionesOrigen dt) lo ld = Ok c)
    as [c Hc].
  { pose proof Hdir as H. unfold rutasDirectas in H.
    apply flat_mapR_Ok in H as (ls & Hls & _).
    destruct (Forall2_In_izq _ _ _ _ Hls Hlo) as (ys & _ & Hys).
    apply flat_mapR_Ok in Hys as (zs & Hzs & _).
    destruct (Forall2_In_izq _ _ _ _ Hzs Hld) as (z & _ & Hz).
    rewrite E in Hz. apply bindR_Ok in Hz as (c & Hc & _). eauto. }
  assert (In c directas) as Hcin.
  { apply (rutasDirectas_elem _ _ _ _ _ _ _ c Hdir). exists lo, ld. auto. }
  destruct (rutaDirecta_campos _ _ _ _ _ _ _ Hc) as (Hcl & Hcs & _).
  apply rutasDirectasUnicas_Elige in Huni.
  destruct (Elige_representa activas directas _ _ _ Huni [] eq_refl eq_refl c Hcin)
    as (f & Hf & Hfc).
  { exists l. split; [congruence | done]. }
  { constructor. }
  exists f. split; [done|].
  destruct (mismaRuta_VStr_l f c l) as [Hfl Hfs]; [congruence | done |].
  split; congruence.
Qed.


(** C3. No two direct routes returned have the same (line, direction)
    pair, and each of them is the first candidate with its pair in the
    list of candidates, which follows the origin entries and, for each of
    them, the destination entries. *)
Theorem directas_sin_repetidos :
  exists directas,
    rutasDirectas o d (to_string o) (estimacionesOrigen dt)
      (lineasOrigen dt) (lineasDestino dt) = Ok directas
    /\ directas =
       flat_map (fun lo =>
         flat_map (fun ld =>
           if enlaza lo ld then
             match rutaDirecta o d (to_string o) (estimacionesOrigen dt) lo ld with
             | Ok r => [r]
             | Throw _ => []
             end
           else []) (lineasDestino dt)) (lineasOrigen dt)
    /\ NoDup (map clave (Plan.rutasDirectas plan))
    /\ Forall (fun v => exists pre post,
                 directas = pre ++ v :: post
                 /\ Forall (fun t => clave t <> clave v) pre)
         (Plan.rutasDirectas plan).
Proof.
  destruct (planificar_Ok _ _ _ _ _ planificar_de_llamada)
    as (activas & directas & _ & Hdir & Huni & _).
  exists directas. split; [done|]. split; [by apply rutasDirectas_orden|].
  apply rutasDirectasUnicas_Elige in Huni.
  destruct (Elige_unicas activas directas _ _ _ Huni [] eq_refl eq_refl) as [H1 H2].
  split.
  - apply claves_distintas; [|done].
    eapply Forall_impl; [exact H1|]. intros v (_ & _ & _ & _ & (l & Hl & _)). eauto.
  - eapply Forall_impl; [exact H1|]. intros v (mid & post & Hd & Hpre & (l & Hl & _)).
    exists mid, post. split; [done|].
    eapply Forall_impl; [exact Hpre|]. intros t Ht. by apply (mismaRuta_clave t v l).
Qed.

(** C4. Every direct route returned runs on an active line; when no pair
    of entries that yields a candidate is on an active line, no direct
    route is returned. *)
Theorem directas_solo_activas :
  exists activas,
    lineasActivas (todasEstimaciones dt) = Ok activas
    /\ Forall (fun r => exists l, Directa.linea r = VStr l /\ toUpperCase l ∈ activas)
         (Plan.rutasDirectas plan)
    /\ ((forall lo ld l,
           In lo (lineasOrigen dt) -> In ld (lineasDestino dt) ->
           enlaza lo ld = true -> Entry.linea lo = VStr l ->
           toUpperCase l ∉ activas) ->
        Plan.rutasDirectas plan = []).
Proof.
  destruct (planificar_Ok _ _ _ _ _ planificar_de_llamada)
    as (activas & directas & Hact & Hdir & Huni & _).
  exists activas. split; [done|].
  apply rutasDirectasUnicas_Elige in Huni.
  destruct (Elige_unicas activas directas _ _ _ Huni [] eq_refl eq_refl) as [H1 _].
  split.
  - eapply Forall_impl; [exact H1|]. by intros v (_ & _ & _ & _ & Hv).
  - intros Hno. destruct (Plan.rutasDirectas plan) as [|v rest] eqn:Ep; [done|].
    exfalso. apply Forall_inv in H1 as (mid & post & Hd & _ & (l & Hl & Hin)).
    assert (In v directas) as Hv by (rewrite Hd; apply in_elt).
    apply (rutasDirectas_elem _ _ _ _ _ _ _ v Hdir) in Hv
      as (lo & ld & Hlo & Hld & E & Hr).
    destruct (rutaDirecta_campos _ _ _ _ _ _ _ Hr) as (Hvl & _).
    apply (Hno lo ld l); auto. congruence.
Qed.


(** C9. At most five transfer routes are returned; both legs of each run
    on active lines; they are the first five, in discovery order, of the
    transfer candidates whose two legs run on active lines. *)
Theorem transbordos_cinco_activos :
  exists activas,
    lineasActivas (todasEstimaciones dt) = Ok activas
    /\ (length (Plan.rutasConTransbordo plan) <= 5)%nat
    /\ Forall (fun r =>
                 activa activas (Tramo1.linea (Transbordo.tramo1 r))
                 /\ activa activas (Tramo2.linea (Transbordo.tramo2 r)))
         (Plan.rutasConTransbordo plan)
    /\ Plan.rutasConTransbordo plan =
       firstn 5 (List.filter (ambasActivas activas)
                   (busquedaTransbordo o d (to_string o) (to_string d) dt
                      (Plan.rutasDirectas plan))).
Proof.
  destruct (planificar_Ok _ _ _ _ _ planificar_de_llamada)
    as (activas & directas & Hact & _ & _ & Ht & _).
  exists activas. split; [done|]. split; [|split; [|done]].
  - rewrite Ht. apply firstn_le_length.
  - rewrite Ht, Forall_forall. intros r Hr. apply list_elem_of_In in Hr.
    assert (In r (List.filter (ambasActivas activas)
                    (busquedaTransbordo o d (to_string o) (to_string d) dt
                       (Plan.rutasDirectas plan)))) as Hr'.
    { revert Hr. generalize (List.filter (ambasActivas activas)
                    (busquedaTransbordo o d (to_string o) (to_string d) dt
                       (Plan.rutasDirectas plan))).
      intros l. rewrite <- (firstn_skipn 5 l) at 2. rewrite in_app_iff. auto. }
    apply filter_In in Hr' as [_ Hr']. unfold ambasActivas in Hr'.
    apply andb_true_iff in Hr' as [H1 H2]. by rewrite <- !esActiva_true.
Qed.



End Planes.

(* ===================================================================== *)
(** * The estimates cache                                                  *)
(* ===================================================================== *)

Section Cache.

Variable server : nat -> request -> result response.

Let req : request := {| endpoint_of := estimaciones; query := None |}.

Lemma fetchAllPages_estimaciones (st : state) :
  fetchAllPages server estimaciones None st
  = (server (length (peticiones st)) req,
     {| _cache := _cache st; peticiones := peticiones st ++ [req];
        llamadas := llamadas st |}).
Proof. reflexivity. Qed.

(** A fresh snapshot is handed back and nothing else happens. *)
Lemma cache_vigente (now : Z) (st : state) (snap : response) :
  data (_cache st) = Some snap -> now - ts (_cache st) < CACHE_TTL_MS ->
  getTodasEstimacionesCached server now st = (Ok snap, st).
Proof.
  intros Hd Ht. unfold getTodasEstimacionesCached. rewrite Hd.
  by apply Z.ltb_lt in Ht as ->.
Qed.

(** Without a fresh snapshot the collection is requested once; what comes
    back is stored with the time of the call and returned. *)
Lemma cache_vencida (now : Z) (st : state) :
  data (_cache st) = None \/ CACHE_TTL_MS <= now - ts (_cache st) ->
  getTodasEstimacionesCached server now st
  = match server (length (peticiones st)) req with
    | Ok snap =>
        (Ok snap,
         {| _cache := {| data := Some snap; ts := now |};
            peticiones := peticiones st ++ [req];
            llamadas := llamadas st |})
    | Throw e =>
        (Throw e,
         {| _cache := _cache st; peticiones := peticiones st ++ [req];
            llamadas := llamadas st |})
    end.
Proof.
  intros H. unfold getTodasEstimacionesCached.
  assert (bind (fetchAllPages server estimaciones None)
            (fun result => bind (set_cache {| data := Some result; ts := now |})
                             (fun _ => ret result)) st
          = match server (length (peticiones st)) req with
            | Ok snap =>
                (Ok snap,
                 {| _cache := {| data := Some snap; ts := now |};
                    peticiones := peticiones st ++ [req];
                    llamadas := llamadas st |})
            | Throw e =>
                (Throw e,
                 {| _cache := _cache st; peticiones := peticiones st ++ [req];
                    llamadas := llamadas st |})
            end) as Hre.
  { unfold bind. rewrite fetchAllPages_estimaciones.
    by destruct (server (length (peticiones st)) req). }
  destruct (data (_cache st)) as [snap|] eqn:Hd; [|exact Hre].
  destruct H as [H|H]; [discriminate|].
  apply Z.ltb_ge in H. rewrite H. exact Hre.
Qed.

(** C7. With the cache state and the clock explicit: a call made while a
    snapshot less than 30 s old is stored returns it, sends no request
    and changes nothing; any other call sends exactly one request and,
    when the request succeeds, stores the answer with the time of the call
    and returns it.  Hence two successive calls less than 30 s apart send
    at most one request between them (the first having returned), and a
    call 30 s or more after the stored fetch sends exactly one. *)
Theorem cache_de_estimaciones (now : Z) (st : state) :
  (forall snap,
      data (_cache st) = Some snap -> now - ts (_cache st) < 30000 ->
      getTodasEstimacionesCached server now st = (Ok snap, st))
  /\ (data (_cache st) = None \/ 30000 <= now - ts (_cache st) ->
      (forall snap,
          server (length (peticiones st)) req = Ok snap ->
          getTodasEstimacionesCached server now st
          = (Ok snap,
             {| _cache := {| data := Some snap; ts := now |};
                peticiones := peticiones st ++ [req];
                llamadas := llamadas st |}))
      /\ (forall r st1,
             getTodasEstimacionesCached server now st = (r, st1) ->
             peticiones st1 = peticiones st ++ [req]))
  /\ (forall now2 snap1 st1 r2 st2,
         getTodasEstimacionesCached server now st = (Ok snap1, st1) ->
         now2 - now < 30000 ->
         getTodasEstimacionesCached server now2 st1 = (r2, st2) ->
         (length (peticiones st2) <= length (peticiones st) + 1)%nat
         /\ (peticiones st1 <> peticiones st -> r2 = Ok snap1 /\ st2 = st1)).
Proof.
  split; [|split].
  - intros snap. apply cache_vigente.
  - intros H. split.
    + intros snap Hs. rewrite (cache_vencida now st H). by rewrite Hs.
    + intros r st1. rewrite (cache_vencida now st H).
      destruct (server (length (peticiones st)) req); by intros [= _ <-].
  - intros now2 snap1 st1 r2 st2 H1 Hlt H2.
    destruct (data (_cache st)) as [snap|] eqn:Hd.
    + destruct (Z.lt_ge_cases (now - ts (_cache st)) 30000) as [Hf|Hf].
      * (* the first call is served from the cache *)
        rewrite (cache_vigente now st snap Hd Hf) in H1. injection H1 as <- <-.
        split; [|congruence].
        destruct (Z.lt_ge_cases (now2 - ts (_cache st)) 30000) as [Hf2|Hf2].
        -- rewrite (cache_vigente now2 st snap Hd Hf2) in H2. injection H2 as _ <-. lia.
        -- rewrite (cache_vencida now2 st (or_intror Hf2)) in H2.
           destruct (server (length (peticiones st)) req); injection H2 as _ <-;
             simpl; rewrite length_app; simpl; lia.
      * (* the first call refreshes, the second is served from the cache *)
        rewrite (cache_vencida now st (or_intror Hf)) in H1.
        destruct (server (length (peticiones st)) req) as [s|e]; [|discriminate].
        injection H1 as <- <-.
        rewrite cache_vigente with (snap := s) in H2; [|done|unfold CACHE_TTL_MS; simpl; lia].
        injection H2 as <- <-. simpl. rewrite length_app. simpl. split; [lia|done].
    + rewrite (cache_vencida now st (or_introl Hd)) in H1.
      destruct (server (length (peticiones st)) req) as [s|e]; [|discriminate].
      injection H1 as <- <-.
      rewrite cache_vigente with (snap := s) in H2; [|done|unfold CACHE_TTL_MS; simpl; lia].
      injection H2 as <- <-. simpl. rewrite length_app. simpl. split; [lia|done].
Qed.

End Cache.

(* ===================================================================== *)
(** * Normalisation of a raw sequence record                               *)
(* ===================================================================== *)

(** Text whose first character is neither blank, nor a sign, nor a digit,
    nor a dot, nor the [I] of [Infinity], is not a number. *)
Lemma parseFloat_sin_prefijo (c : ascii) (s : string) :
  is_ws c = false -> c <> "-"%char -> c <> "+"%char -> c <> "."%char -> c <> "I"%char ->
  digit_val c = None ->
  parseFloat (VStr (String c s)) = NaN.
Proof.
  intros Hws Hm Hp Hd HI Hdig. unfold parseFloat, parseFloat_chars, to_string, chars.
  change (list_ascii_of_string (String c s)) with (c :: list_ascii_of_string s).
  assert (skip_ws (c :: list_ascii_of_string s) = c :: list_ascii_of_string s) as ->
    by (simpl; by rewrite Hws).
  assert (read_sign (c :: list_ascii_of_string s) = (false, c :: list_ascii_of_string s))
    as ->.
  { unfold read_sign. apply Ascii.eqb_neq in Hm, Hp. by rewrite Hm, Hp. }
  assert (starts_with (list_ascii_of_string "Infinity") (c :: list_ascii_of_string s)
          = false) as ->.
  { change (list_ascii_of_string "Infinity")
      with ("I"%char :: list_ascii_of_string "nfinity").
    cbn [starts_with]. apply andb_false_intro1, Ascii.eqb_neq. congruence. }
  cbn [read_digits]. rewrite Hdig. apply Ascii.eqb_neq in Hd. by rewrite Hd.
Qed.

(** C5, as the code has it.  For every raw record: [seqToEntry] keeps the
    raw direction, and the direction label (computed by [getSecuenciaLinea]
    and, for a direct route, from the entry) is ["ida"] exactly when
    [parseInt] of the raw value is 1, so for the text ["1"] and the number
    1, and ["vuelta"] otherwise, also when the value is missing; a numeric
    field that is missing ([undefined] or [null]) comes out as 0, and one
    that is present comes out as [parseFloat] of it, which is [NaN] for
    text with no numeric prefix. *)
Theorem normalizacion_de_secuencia (r : record) :
  Entry.sentido (seqToEntry r) = field r "ayto:SentidoRuta"
  /\ Secuencia.sentido (secuenciaParada r) = sentidoLabel (field r "ayto:SentidoRuta")
  /\ (forall v, sentidoLabel v = if eqb (parseInt v) (Dec 1 0) then "ida" else "vuelta")
  /\ sentidoLabel (VStr "1") = "ida" /\ sentidoLabel (VNum (Dec 1 0)) = "ida"
  /\ sentidoLabel (VStr "2") = "vuelta" /\ sentidoLabel VUndefined = "vuelta"
  /\ sentidoLabel VNull = "vuelta"
  /\ Entry.puntoKm (seqToEntry r)
     = match field r "ayto:PuntoKM" with
       | VUndefined | VNull => zero
       | v => parseFloat v
       end
  /\ Secuencia.puntoKm (secuenciaParada r) = Entry.puntoKm (seqToEntry r)
  /\ Secuencia.coordX (secuenciaParada r)
     = match field r "ayto:PosX" with
       | VUndefined | VNull => zero
       | v => parseFloat v
       end
  /\ Secuencia.coordY (secuenciaParada r)
     = match field r "ayto:PosY" with
       | VUndefined | VNull => zero
       | v => parseFloat v
       end
  /\ (forall c s,
         is_ws c = false -> c <> "-"%char -> c <> "+"%char -> c <> "."%char ->
         c <> "I"%char -> digit_val c = None ->
         parseFloat (VStr (String c s)) = NaN).
Proof.
  repeat split; try reflexivity; try apply parseFloat_sin_prefijo.
  - simpl. by destruct (field r "ayto:PuntoKM").
  - simpl. by destruct (field r "ayto:PosX").
  - simpl. by destruct (field r "ayto:PosY").
Qed.

(** C5 fails as stated: a malformed position comes out as [NaN], not as 0,
    and a direction value other than 1 can be labelled ["ida"]. *)
Lemma malformado_no_es_cero :
  field registro_malformado "ayto:PuntoKM" = VStr "abc"
  /\ Entry.puntoKm (seqToEntry registro_malformado) = NaN
  /\ Entry.puntoKm (seqToEntry registro_malformado) <> zero
  /\ Secuencia.puntoKm (secuenciaParada registro_malformado) = NaN
  /\ Secuencia.sentido (secuenciaParada registro_malformado) = "ida".
Proof. vm_compute. repeat split. discriminate. Qed.

(* ===================================================================== *)
(** * Who calls [planificarRuta]                                           *)
(* ===================================================================== *)

Lemma sin_llamadas_ret {A} (a : A) : sin_llamadas (ret a).
Proof. by intros st. Qed.

Lemma sin_llamadas_lift {A} (r : result A) : sin_llamadas (lift r).
Proof. by intros st. Qed.

Lemma sin_llamadas_bind {A B} (m : M A) (k : A -> M B) :
  sin_llamadas m -> (forall a, sin_llamadas (k a)) -> sin_llamadas (bind m k).
Proof.
  intros Hm Hk st. unfold bind. specialize (Hm st).
  destruct (m st) as [[a|e] st1]; simpl in *; [|done].
  by rewrite Hk.
Qed.

Section Llamadas.

Variable server : nat -> request -> result response.
Variable horaLocal : Z -> string.

Lemma sin_llamadas_fetchAllPages ep q : sin_llamadas (fetchAllPages server ep q).
Proof. by intros st. Qed.

Lemma sin_llamadas_cache now : sin_llamadas (getTodasEstimacionesCached server now).
Proof.
  intros st. unfold getTodasEstimacionesCached.
  assert (sin_llamadas
            (bind (fetchAllPages server estimaciones None)
               (fun result => bind (set_cache {| data := Some result; ts := now |})
                                (fun _ => ret result)))) as Hre.
  { apply sin_llamadas_bind; [apply sin_llamadas_fetchAllPages|]. intros a.
    apply sin_llamadas_bind; [by intros s|]. intros _. apply sin_llamadas_ret. }
  destruct (data (_cache st)); [|apply Hre].
  destruct (now - ts (_cache st) <? CACHE_TTL_MS); [done | apply Hre].
Qed.

Lemma sin_llamadas_obtenerDatos o d now :
  sin_llamadas (obtenerDatos server horaLocal o d now).
Proof.
  unfold obtenerDatos, getEstimacionesByParada.
  repeat first
    [ apply sin_llamadas_ret | apply sin_llamadas_lift
    | apply sin_llamadas_fetchAllPages | apply sin_llamadas_cache
    | apply sin_llamadas_bind; [|intros ?]
    | match goal with |- sin_llamadas (match ?l with _ => _ end) => destruct l end ].
Qed.

Lemma sin_llamadas_buscarParadas texto : sin_llamadas (buscarParadas server texto).
Proof.
  unfold buscarParadas.
  apply sin_llamadas_bind; [apply sin_llamadas_fetchAllPages|].
  intros ?. apply sin_llamadas_ret.
Qed.

(** One call of [planificarRuta] adds itself, and nothing else, to the
    history of calls. *)
Lemma planificarRuta_llamadas o d now st :
  llamadas (snd (planificarRuta server horaLocal o d now st)) = llamadas st ++ [(o, d)].
Proof.
  unfold planificarRuta, bind at 1. simpl.
  set (st1 := {| _cache := _cache st; peticiones := peticiones st;
                 llamadas := llamadas st ++ [(o, d)] |}).
  change (llamadas st ++ [(o, d)]) with (llamadas st1).
  apply (sin_llamadas_bind (obtenerDatos server horaLocal o d now)
           (fun dt => lift (planificar o d now dt))).
  - apply sin_llamadas_obtenerDatos.
  - intros dt. apply sin_llamadas_lift.
Qed.

(** X2. The tool [planificar_ruta] rejects equal stops without calling
    [planificarRuta], and otherwise calls it once, with distinct stops. *)
Lemma planificar_ruta_distintas (parada_origen parada_destino : string) now st :
  (parada_origen = parada_destino ->
   Index.planificar_ruta server horaLocal parada_origen parada_destino now st
   = (Ok (Index.err "La parada de origen y destino son la misma."), st))
  /\ (parada_origen <> parada_destino ->
      llamadas (snd (Index.planificar_ruta server horaLocal
                       parada_origen parada_destino now st))
      = llamadas st ++ [(VStr parada_origen, VStr parada_destino)]).
Proof.
  unfold Index.planificar_ruta. split.
  - intros <-. by rewrite String.eqb_refl.
  - intros Hne. apply String.eqb_neq in Hne. rewrite Hne.
    unfold bind at 1.
    pose proof (planificarRuta_llamadas (VStr parada_origen) (VStr parada_destino) now st)
      as H.
    destruct (planificarRuta server horaLocal (VStr parada_origen)
                (VStr parada_destino) now st) as [[p|e] st1]; simpl in *; done.
Qed.

End Llamadas.

(* ===================================================================== *)
(** * A well-typed feed makes [planificarRuta] return                      *)
(* ===================================================================== *)

Lemma bind_paso {A B} (m : M A) (k : A -> M B) (st st1 : state) (a : A) :
  m st = (Ok a, st1) -> bind m k st = k a st1.
Proof. intros H. unfold bind. by rewrite H. Qed.

Lemma mapR_total {A B} (f : A -> result B) (l : list A) :
  Forall (fun x => exists y, f x = Ok y) l -> exists ys, mapR f l = Ok ys.
Proof.
  induction 1 as [|x l (y & Hy) _ (ys & IH)]; simpl; [eauto|].
  rewrite Hy, IH. simpl. eauto.
Qed.

Lemma filterR_total {A} (p : A -> result bool) (l : list A) :
  Forall (fun x => exists b, p x = Ok b) l -> exists out, filterR p l = Ok out.
Proof.
  induction 1 as [|x l (b & Hb) _ (out & IH)]; simpl; [eauto|].
  rewrite Hb, IH. simpl. eauto.
Qed.

Lemma flat_mapR_total {A B} (f : A -> result (list B)) (l : list A) :
  Forall (fun x => exists ys, f x = Ok ys) l -> exists out, flat_mapR f l = Ok out.
Proof.
  intros H. unfold flat_mapR. destruct (mapR_total f l H) as (ls & ->). simpl. eauto.
Qed.

Lemma etiqueta_toUpperCase (v : value) : etiqueta v -> exists u, opt_toUpperCase v = Ok u.
Proof. destruct v; simpl; intros H; try destruct H; eauto. Qed.

Lemma etiqueta_lineaDe (r : record) : bienEtiquetado r -> etiqueta (lineaDe r).
Proof.
  intros (H1 & H2 & _). unfold lineaDe.
  destruct (field r "dc:EtiquetaLinea"); simpl in *; done.
Qed.

Lemma etiqueta_seqToEntry (r : record) :
  bienEtiquetado r -> etiqueta (Entry.linea (seqToEntry r)).
Proof. apply etiqueta_lineaDe. Qed.

Lemma etiqueta_lineas (rs : list record) :
  Forall bienEtiquetado rs ->
  Forall (fun e => etiqueta (Entry.linea e)) (map seqToEntry rs).
Proof.
  intros H. apply Forall_map. eapply Forall_impl; [exact H|].
  intros r Hr. by apply etiqueta_seqToEntry.
Qed.

Lemma uniq_In {A} (same : A -> A -> bool) (l : list A) (x : A) :
  In x (uniq same l) -> In x l.
Proof.
  unfold uniq.
  assert (forall acc, In x (fold_left (fun acc x => if existsb (same x) acc then acc
                                                   else acc ++ [x]) l acc) ->
                      In x acc \/ In x l) as H.
  { induction l as [|y l IH]; simpl; intros acc Hx; [auto|].
    apply IH in Hx as [Hx|Hx]; [|auto].
    destruct (existsb (same y) acc); [auto|].
    apply in_app_iff in Hx as [Hx|[<-|[]]]; auto. }
  intros Hx. by destruct (H [] Hx).
Qed.

Lemma lineasUnicas_texto (entries : list Entry.t) :
  Forall (fun e => etiqueta (Entry.linea e)) entries ->
  Forall (fun v => exists s, v = VStr s) (lineasUnicas entries).
Proof.
  intros H. apply Forall_forall. intros v Hv. apply list_elem_of_In in Hv.
  unfold lineasUnicas in Hv. apply uniq_In in Hv.
  apply list_elem_of_In, list_elem_of_filter in Hv as [Ht Hv].
  apply list_elem_of_fmap in Hv as (e & -> & He).
  rewrite Forall_forall in H. specialize (H e He).
  destruct (Entry.linea e); simpl in *; try done; eauto.
Qed.

Lemma qLineas_total (ls : list value) :
  Forall (fun v => exists s, v = VStr s) ls -> exists q, qLineas ls = Ok q.
Proof.
  intros H. unfold qLineas.
  destruct (mapR_total (fun l => try e := luceneEscape_value l in
                                 Ok ("dc\:EtiquetaLinea:" +:+ e)) ls) as (qs & ->).
  - eapply Forall_impl; [exact H|]. intros v (s & ->). simpl. eauto.
  - simpl. eauto.
Qed.

Section Total.

Variable server : nat -> request -> result response.
Variable horaLocal : Z -> string.

(** Every request succeeds and brings well-labelled records. *)
Hypothesis Hserver :
  forall n req, exists resp,
    server n req = Ok resp /\ Forall bienEtiquetado (resources resp).

Lemma fetchAllPages_total ep q st :
  exists resp st',
    fetchAllPages server ep q st = (Ok resp, st')
    /\ Forall bienEtiquetado (resources resp) /\ _cache st' = _cache st.
Proof.
  unfold fetchAllPages.
  destruct (Hserver (length (peticiones st)) {| endpoint_of := ep; query := q |})
    as (resp & -> & Hr).
  eauto 6.
Qed.

Lemma cache_total now st :
  cacheBien st ->
  exists resp st',
    getTodasEstimacionesCached server now st = (Ok resp, st')
    /\ Forall bienEtiquetado (resources resp).
Proof.
  intros Hc. unfold getTodasEstimacionesCached, cacheBien in *.
  assert (exists resp st',
             bind (fetchAllPages server estimaciones None)
               (fun result => bind (set_cache {| data := Some result; ts := now |})
                                (fun _ => ret result)) st = (Ok resp, st')
             /\ Forall bienEtiquetado (resources resp)) as Hre.
  { unfold bind. destruct (fetchAllPages_total estimaciones None st)
      as (resp & st1 & -> & Hr & _). simpl. eauto. }
  destruct (data (_cache st)) as [snap|]; [|exact Hre].
  destruct (now - ts (_cache st) <? CACHE_TTL_MS); [eauto | exact Hre].
Qed.

Lemma obtenerDatos_total (so sd : string) now st :
  cacheBien st ->
  exists dt st',
    obtenerDatos server horaLocal (VStr so) (VStr sd) now st = (Ok dt, st')
    /\ datosBien dt.
Proof.
  intros Hc. unfold obtenerDatos.
  rewrite (bind_paso _ _ st st so eq_refl).
  destruct (fetchAllPages_total secuencia (Some ("ayto\:NParada:" +:+ luceneEscape so)) st)
    as (resO & st1 & H1 & HO & Hc1).
  rewrite (bind_paso _ _ _ _ _ H1).
  rewrite (bind_paso _ _ st1 st1 sd eq_refl).
  destruct (fetchAllPages_total secuencia (Some ("ayto\:NParada:" +:+ luceneEscape sd)) st1)
    as (resD & st2 & H2 & HD & Hc2).
  rewrite (bind_paso _ _ _ _ _ H2). cbv zeta.
  destruct (qLineas_total (lineasUnicas (map seqToEntry (resources resO))))
    as (qO & HqO); [by apply lineasUnicas_texto, etiqueta_lineas|].
  destruct (qLineas_total (lineasUnicas (map seqToEntry (resources resD))))
    as (qD & HqD); [by apply lineasUnicas_texto, etiqueta_lineas|].
  rewrite (bind_paso _ _ st2 st2 qO) by (unfold lift; by rewrite HqO).
  rewrite (bind_paso _ _ st2 st2 qD) by (unfold lift; by rewrite HqD).
  assert (exists seqO st3,
             match lineasUnicas (map seqToEntry (resources resO)) with
             | [] => ret sinRecursos
             | _ :: _ => fetchAllPages server secuencia (Some qO)
             end st2 = (Ok seqO, st3)
             /\ Forall bienEtiquetado (resources seqO) /\ _cache st3 = _cache st2)
    as (seqO & st3 & H3 & HsO & Hc3).
  { generalize (lineasUnicas (map seqToEntry (resources resO))).
    intros [|v l]; [|apply fetchAllPages_total].
    exists sinRecursos, st2. repeat split. constructor. }
  rewrite (bind_paso _ _ _ _ _ H3).
  assert (exists seqD st4,
             match lineasUnicas (map seqToEntry (resources resD)) with
             | [] => ret sinRecursos
             | _ :: _ => fetchAllPages server secuencia (Some qD)
             end st3 = (Ok seqD, st4)
             /\ Forall bienEtiquetado (resources seqD) /\ _cache st4 = _cache st3)
    as (seqD & st4 & H4 & HsD & Hc4).
  { generalize (lineasUnicas (map seqToEntry (resources resD))).
    intros [|v l]; [|apply fetchAllPages_total].
    exists sinRecursos, st3. repeat split. constructor. }
  rewrite (bind_paso _ _ _ _ _ H4).
  destruct (fetchAllPages_total estimaciones
              (Some ("ayto\:paradaId:" +:+ luceneEscape so)) st4)
    as (resE & st5 & H5 & HE & Hc5).
  assert (getEstimacionesByParada server horaLocal (VStr so) now st4
          = (Ok (map (mapEstimacion horaLocal now) (resources resE)), st5)) as H5'.
  { unfold getEstimacionesByParada. rewrite (bind_paso _ _ st4 st4 so eq_refl).
    by rewrite (bind_paso _ _ _ _ _ H5). }
  rewrite (bind_paso _ _ _ _ _ H5').
  destruct (cache_total now st5) as (todas & st6 & H6 & HT).
  { unfold cacheBien in *. by rewrite Hc5, Hc4, Hc3, Hc2, Hc1. }
  rewrite (bind_paso _ _ _ _ _ H6).
  eexists. eexists. split; [reflexivity|].
  repeat split; simpl; try done.
  apply Forall_map. eapply Forall_impl; [exact HE|]. by intros r (_ & _ & Hr).
Qed.

End Total.

Lemma filterR_i_total {A} (p : nat -> A -> result bool) (l : list A) :
  Forall (fun v => forall i, exists b, p i v = Ok b) l ->
  exists out, filterR_i p l = Ok out.
Proof.
  intros H. unfold filterR_i.
  destruct (filterR_total (fun iv => p (fst iv) (snd iv)) (imap pair l)) as (kept & ->);
    [|simpl; eauto].
  apply Forall_forall. intros iv Hiv.
  apply elem_of_lookup_imap_1 in Hiv as (i & v & -> & Hv). simpl.
  rewrite Forall_forall in H. apply H. by apply list_elem_of_lookup_2 in Hv.
Qed.

Lemma strict_eq_etiqueta (a b : value) :
  strict_eq a b = true -> etiqueta b -> etiqueta a.
Proof. destruct a, b; simpl; try discriminate; done. Qed.

Lemma planificar_total (so sd : string) (now : Z) (dt : datos) :
  datosBien dt -> exists plan, planificar (VStr so) (VStr sd) now dt = Ok plan.
Proof.
  intros (HO & HD & HsO & HsD & HE & HT). unfold planificar.
  change (toString (VStr so)) with (Ok so). change (toString (VStr sd)) with (Ok sd).
  cbn [bindR].
  pose proof (etiqueta_lineas _ HO) as HLo. pose proof (etiqueta_lineas _ HD) as HLd.
  fold (lineasOrigen dt) in HLo. fold (lineasDestino dt) in HLd.
  (* the set of active lines *)
  assert (exists activas, lineasActivas (todasEstimaciones dt) = Ok activas) as (activas & ->).
  { unfold lineasActivas.
    destruct (mapR_total (fun r => opt_toUpperCase (field r "ayto:etiqLinea"))
                (resources (todasEstimaciones dt))) as (us & ->); [|simpl; eauto].
    eapply Forall_impl; [exact HT|]. intros r (_ & _ & Hr). by apply etiqueta_toUpperCase. }
  cbn [bindR].
  (* the candidates *)
  assert (exists directas,
             rutasDirectas (VStr so) (VStr sd) so (estimacionesOrigen dt)
               (lineasOrigen dt) (lineasDestino dt) = Ok directas) as (directas & Hdir).
  { unfold rutasDirectas. apply flat_mapR_total.
    eapply Forall_impl; [exact HLo|]. intros lo Hlo. apply flat_mapR_total.
    apply Forall_forall. intros ld _. destruct (enlaza lo ld); [|eauto].
    unfold rutaDirecta.
    destruct (filterR_total
                (fun e =>
                   if opt_str_eq (opt_toString (Estimacion.paradaId e)) (Some so) then
                     try a := opt_toUpperCase (Estimacion.linea e) in
                     try b := opt_toUpperCase (Entry.linea lo) in Ok (opt_str_eq a b)
                   else Ok false) (estimacionesOrigen dt)) as (est & Hest).
    { eapply Forall_impl; [exact HE|]. intros e He.
      destruct (opt_str_eq _ _); [|eauto].
      destruct (etiqueta_toUpperCase _ He) as (a & ->).
      destruct (etiqueta_toUpperCase _ Hlo) as (b & ->). simpl. eauto. }
    unfold estOrigen. rewrite Hest. simpl. eauto. }
  rewrite Hdir. cbn [bindR].
  (* deduplication and filter *)
  assert (exists unicas, rutasDirectasUnicas activas directas = Ok unicas) as (unicas & ->).
  { unfold rutasDirectasUnicas. apply filterR_i_total.
    apply Forall_forall. intros v Hv i. apply list_elem_of_In in Hv.
    apply (rutasDirectas_elem _ _ _ _ _ _ _ v Hdir) in Hv as (lo & ld & Hlo & _ & _ & Hr).
    destruct (rutaDirecta_campos _ _ _ _ _ _ _ Hr) as (Hl & _).
    destruct (findIndex _ directas) as [j|]; [|eauto].
    destruct (Nat.eqb j i); [|eauto].
    rewrite Forall_forall in HLo.
    destruct (etiqueta_toUpperCase (Directa.linea v)) as (u & ->); [|simpl; eauto].
    rewrite Hl. apply HLo. by apply list_elem_of_In. }
  cbn [bindR].
  (* transfers *)
  assert (exists tact,
             rutasTransbordoActivas activas
               (busquedaTransbordo (VStr so) (VStr sd) so sd dt unicas) = Ok tact)
    as (tact & ->); [|simpl; eauto].
  unfold rutasTransbordoActivas. apply filterR_total.
  apply Forall_forall. intros r Hr. apply list_elem_of_In in Hr.
  unfold busquedaTransbordo in Hr. destruct unicas; [|destruct Hr].
  apply rutasTransbordo_elem in Hr as (pi & li & ld & seqOrigen & _ & Hld & E & Hs & ->).
  simpl.
  assert (etiqueta (lineaDe seqOrigen)) as H1.
  { apply etiqueta_lineaDe. unfold seqOrigenDe in Hs. apply find_some in Hs as [Hs _].
    rewrite Forall_forall in HsO. apply HsO. by apply list_elem_of_In. }
  assert (etiqueta (Entry.linea li)) as H2.
  { unfold enlaza in E. apply andb_true_iff in E as [E _].
    apply andb_true_iff in E as [E _]. apply (strict_eq_etiqueta _ _ E).
    rewrite Forall_forall in HLd. apply HLd. by apply list_elem_of_In. }
  destruct (etiqueta_toUpperCase _ H1) as (a & ->).
  destruct (etiqueta_toUpperCase _ H2) as (b & ->). simpl.
  destruct (has activas a); eauto.
Qed.

Section Devuelve.

Variable server : nat -> request -> result response.
Variable horaLocal : Z -> string.

(** X1. When every request succeeds and brings records whose line labels are
    text or missing, as does the snapshot in the cache if there is one,
    [planificarRuta] returns a plan for any two stop numbers. *)
Theorem planificarRuta_devuelve (so sd : string) (now : Z) (st : state) :
  (forall n req, exists resp,
      server n req = Ok resp /\ Forall bienEtiquetado (resources resp)) ->
  cacheBien st ->
  exists plan st',
    planificarRuta server horaLocal (VStr so) (VStr sd) now st = (Ok plan, st').
Proof.
  intros Hserver Hc. unfold planificarRuta.
  rewrite (bind_paso (registrarLlamada (VStr so) (VStr sd)) _ st _ tt eq_refl).
  destruct (obtenerDatos_total server horaLocal Hserver so sd now
              {| _cache := _cache st; peticiones := peticiones st;
                 llamadas := llamadas st ++ [(VStr so, VStr sd)] |} Hc)
    as (dt & st' & Hdt & Hbien).
  rewrite (bind_paso _ _ _ _ _ Hdt).
  destruct (planificar_total so sd now dt Hbien) as (plan & Hp).
  unfold lift. rewrite Hp. eauto.
Qed.

End Devuelve.

(* ===================================================================== *)
(** * The statements at work on the sample feeds                           *)
(* ===================================================================== *)

Ltac ejecuta := vm_compute; reflexivity.

Lemma llamada_conDirecta : llamada conDirecta = (Ok planConDirecta, estadoConDirecta).
Proof. ejecuta. Qed.

Lemma peticiones_conDirecta :
  peticionesDe conDirecta = (Ok datosConDirecta, estadoConDirecta).
Proof. ejecuta. Qed.

Lemma llamada_sinDirecta : llamada sinDirecta = (Ok planSinDirecta, estadoSinDirecta).
Proof. ejecuta. Qed.

Lemma peticiones_sinDirecta :
  peticionesDe sinDirecta = (Ok datosSinDirecta, estadoSinDirecta).
Proof. ejecuta. Qed.


Lemma activas_ejemplo :
  lineasActivas (todasEstimaciones datosConDirecta) = Ok activasEjemplo
  /\ lineasActivas (todasEstimaciones datosSinDirecta) = Ok activasEjemplo.
Proof. split; ejecuta. Qed.

(** Line 15 is direct and active: the plan holds it, outbound. *)
Lemma ejemplo_linea_15_directa :
  llamada conDirecta = (Ok planConDirecta, estadoConDirecta)
  /\ exists r, In r (Plan.rutasDirectas planConDirecta)
               /\ Directa.linea r = VStr "15" /\ Directa.sentido r = "ida".
Proof.
  split; [exact llamada_conDirecta|].
  destruct (directa_para_linea_activa (servidor conDirecta) reloj
              (VStr "539") (VStr "1234") 1000 estado_inicial estadoConDirecta
              planConDirecta datosConDirecta llamada_conDirecta peticiones_conDirecta
              activasEjemplo
              (seqToEntry (paso "15" "1" "1.2" "539" "Valdecilla"))
              (seqToEntry (paso "15" "1" "4.7" "1234" "Sardinero")) "15")
    as (r & Hr & Hl & Hs).
  - vm_compute. left. reflexivity.
  - vm_compute. left. reflexivity.
  - ejecuta.
  - ejecuta.
  - ejecuta.
  - exact (proj1 activas_ejemplo).
  - ejecuta.
  - apply (bool_decide_unpack _). vm_compute. exact I.
  - exists r. split; [exact Hr|]. split; [rewrite Hl | rewrite Hs]; ejecuta.
Defined.

(** Lines 7 and 12 meet at stop 200, but line 15 is direct: no transfer
    is returned. *)
Lemma ejemplo_sin_transbordo :
  llamada conDirecta = (Ok planConDirecta, estadoConDirecta)
  /\ Plan.rutasDirectas planConDirecta <> []
  /\ Plan.rutasConTransbordo planConDirecta = [].
Proof.
  split; [exact llamada_conDirecta|].
  assert (Plan.rutasDirectas planConDirecta <> []) as Hne by (vm_compute; discriminate).
  split; [exact Hne|].
  exact (transbordo_solo_sin_directas (servidor conDirecta) reloj
           (VStr "539") (VStr "1234") 1000 estado_inicial estadoConDirecta
           planConDirecta llamada_conDirecta Hne).
Defined.

(** Stop 539 lists line 15 twice: of the two candidates, the first is the
    one route kept. *)
Lemma ejemplo_una_sola_ruta :
  llamada conDirecta = (Ok planConDirecta, estadoConDirecta)
  /\ length (Plan.rutasDirectas planConDirecta) = 1%nat
  /\ exists directas,
      rutasDirectas (VStr "539") (VStr "1234") "539" (estimacionesOrigen datosConDirecta)
        (lineasOrigen datosConDirecta) (lineasDestino datosConDirecta) = Ok directas
      /\ length directas = 2%nat
      /\ NoDup (map clave (Plan.rutasDirectas planConDirecta))
      /\ Forall (fun v => exists pre post,
                   directas = pre ++ v :: post
                   /\ Forall (fun t => clave t <> clave v) pre)
           (Plan.rutasDirectas planConDirecta).
Proof.
  split; [exact llamada_conDirecta|]. split; [ejecuta|].
  destruct (directas_sin_repetidos (servidor conDirecta) reloj
              (VStr "539") (VStr "1234") 1000 estado_inicial estadoConDirecta
              planConDirecta datosConDirecta llamada_conDirecta peticiones_conDirecta)
    as (directas & Hd & Horden & Hpares & Hprimera).
  exists directas. split; [exact Hd|]. split; [rewrite Horden; ejecuta|].
  split; [exact Hpares | exact Hprimera].
Defined.

(** The route returned runs on line 15, which is active. *)
Lemma ejemplo_ruta_activa :
  llamada conDirecta = (Ok planConDirecta, estadoConDirecta)
  /\ exists activas,
      lineasActivas (todasEstimaciones datosConDirecta) = Ok activas
      /\ Forall (fun r => exists l, Directa.linea r = VStr l /\ toUpperCase l ∈ activas)
           (Plan.rutasDirectas planConDirecta)
      /\ ((forall lo ld l,
             In lo (lineasOrigen datosConDirecta) -> In ld (lineasDestino datosConDirecta) ->
             enlaza lo ld = true -> Entry.linea lo = VStr l ->
             toUpperCase l ∉ activas) ->
          Plan.rutasDirectas planConDirecta = []).
Proof.
  split; [exact llamada_conDirecta|].
  exact (directas_solo_activas (servidor conDirecta) reloj
           (VStr "539") (VStr "1234") 1000 estado_inicial estadoConDirecta
           planConDirecta datosConDirecta llamada_conDirecta peticiones_conDirecta).
Defined.



(** Without a direct line the two transfers through stop 200 come back,
    both on active lines. *)
Lemma ejemplo_dos_transbordos :
  llamada sinDirecta = (Ok planSinDirecta, estadoSinDirecta)
  /\ length (Plan.rutasConTransbordo planSinDirecta) = 2%nat
  /\ exists activas,
      lineasActivas (todasEstimaciones datosSinDirecta) = Ok activas
      /\ (length (Plan.rutasConTransbordo planSinDirecta) <= 5)%nat
      /\ Forall (fun r =>
                   activa activas (Tramo1.linea (Transbordo.tramo1 r))
                   /\ activa activas (Tramo2.linea (Transbordo.tramo2 r)))
           (Plan.rutasConTransbordo planSinDirecta)
      /\ Plan.rutasConTransbordo planSinDirecta =
         firstn 5 (List.filter (ambasActivas activas)
                     (busquedaTransbordo (VStr "539") (VStr "1234") "539" "1234"
                        datosSinDirecta (Plan.rutasDirectas planSinDirecta))).
Proof.
  split; [exact llamada_sinDirecta|]. split; [ejecuta|].
  exact (transbordos_cinco_activos (servidor sinDirecta) reloj
           (VStr "539") (VStr "1234") 1000 estado_inicial estadoSinDirecta
           planSinDirecta datosSinDirecta llamada_sinDirecta peticiones_sinDirecta).
Defined.


(** On an empty cache the call at instant 1000 requests the collection
    and stores it; the call at 11000 is served from the cache; the call at
    41000 sends one more request. *)
Lemma ejemplo_cache :
  let req := {| endpoint_of := estimaciones; query := None |} in
  let snap := respuesta todas in
  let st1 := {| _cache := {| data := Some snap; ts := 1000 |};
                peticiones := [req]; llamadas := [] |} in
  getTodasEstimacionesCached (servidor conDirecta) 1000 estado_inicial = (Ok snap, st1)
  /\ getTodasEstimacionesCached (servidor conDirecta) 11000 st1 = (Ok snap, st1)
  /\ forall r st3,
       getTodasEstimacionesCached (servidor conDirecta) 41000 st1 = (r, st3) ->
       peticiones st3 = [req; req].
Proof.
  intros req snap st1.
  destruct (cache_de_estimaciones (servidor conDirecta) 1000 estado_inicial)
    as (_ & Hvencida & _).
  destruct (Hvencida (or_introl eq_refl)) as [Hpide _].
  destruct (cache_de_estimaciones (servidor conDirecta) 11000 st1) as (Hvigente & _ & _).
  destruct (cache_de_estimaciones (servidor conDirecta) 41000 st1) as (_ & Hvencida2 & _).
  destruct Hvencida2 as [_ Huna]; [right; simpl; lia|].
  split; [apply Hpide; reflexivity|].
  split; [apply Hvigente; [reflexivity | simpl; lia]|].
  intros r st3 H. exact (Huna r st3 H).
Defined.

Lemma etiquetaB_etiqueta (v : value) : etiquetaB v = true -> etiqueta v.
Proof. by destruct v. Qed.

Lemma bienEtiquetadoB_Forall (rs : list record) :
  forallb bienEtiquetadoB rs = true -> Forall bienEtiquetado rs.
Proof.
  intros H. apply Forall_forall. intros r Hr.
  apply list_elem_of_In in Hr.
  pose proof (proj1 (forallb_forall _ _) H r Hr) as Hb.
  unfold bienEtiquetadoB in Hb.
  apply andb_prop in Hb as [Hb H3]. apply andb_prop in Hb as [H1 H2].
  unfold bienEtiquetado. auto using etiquetaB_etiqueta.
Qed.

(** The sample service never fails, and on a feed whose records are well
    labelled so are the records of every answer. *)
Lemma servidor_bien (f : feed) (n : nat) (req : request) :
  feedBien f = true ->
  exists resp,
    servidor f n req = Ok resp /\ Forall bienEtiquetado (resources resp).
Proof.
  intros Hf. unfold feedBien in Hf.
  apply andb_prop in Hf as [Hf H4]. apply andb_prop in Hf as [Hf H3].
  apply andb_prop in Hf as [H1 H2].
  assert (forall rs, forallb bienEtiquetadoB rs = true ->
                     exists resp, Ok (respuesta rs) = Ok resp
                                  /\ Forall bienEtiquetado (resources resp)) as Hok.
  { intros rs Hrs. exists (respuesta rs). split; [done|].
    by apply bienEtiquetadoB_Forall. }
  destruct req as [ep q]. unfold servidor. cbn [endpoint_of query].
  destruct ep, q as [q|]; try (by apply Hok).
  destruct (List.find _ (secuencias f)) as [e|] eqn:Efind; [|by apply Hok].
  apply Hok. apply List.find_some in Efind as [Hin _].
  exact (proj1 (forallb_forall _ _) H1 e Hin).
Qed.

Lemma ejemplo_devuelve :
  exists plan st',
    planificarRuta (servidor conDirecta) reloj (VStr "600") (VStr "200") 0 estado_inicial
    = (Ok plan, st').
Proof.
  exact (planificarRuta_devuelve (servidor conDirecta) reloj "600" "200" 0 estado_inicial
           (fun n req => servidor_bien conDirecta n req eq_refl) I).
Defined.

(** The set of active lines of the sample feed holds ["15"] because an
    estimate record carries that label. *)
Lemma ejemplo_lineas_activas :
  lineasActivas (todasEstimaciones datosConDirecta) = Ok activasEjemplo
  /\ ("15" ∈ activasEjemplo <->
      "15" <> "" /\
      exists r l, In r (resources (todasEstimaciones datosConDirecta))
                  /\ field r "ayto:etiqLinea" = VStr l /\ toUpperCase l = "15").
Proof.
  split; [exact (proj1 activas_ejemplo)|].
  exact (lineasActivas_spec (todasEstimaciones datosConDirecta) activasEjemplo "15"
           (proj1 activas_ejemplo)).
Defined.

(* ===================================================================== *)
(** * The tool [ruta_desde_nombres] and equal stops                        *)
(* ===================================================================== *)

(** C6 does not hold for [ruta_desde_nombres]: two place names whose
    search puts the same stop first make it call [planificarRuta] with
    that stop as origin and as destination, and the answer is a plan from
    the stop to itself. *)
Theorem ruta_desde_nombres_llama_con_iguales :
  exists busquedaOrigen busquedaDestino ruta resumen st',
    Index.ruta_desde_nombres (servidor conDirecta) reloj
      "Valdecilla" "Hospital Valdecilla" 1000 estado_inicial
    = (Ok (Index.ok (Index.RutaDesdeNombres busquedaOrigen busquedaDestino ruta resumen)),
       st')
    /\ llamadas st' = [(VStr "539", VStr "539")]
    /\ Plan.origen ruta = Plan.destino ruta
    /\ length (Plan.rutasDirectas ruta) = 2%nat.
Proof.
  eexists. eexists. eexists. eexists. eexists. split; [ejecuta|]. repeat split.
Qed.

(* ===================================================================== *)
(** * [luceneEscape]                                                       *)
(* ===================================================================== *)

Lemma chars_str (l : list ascii) : chars (str l) = l.
Proof. apply list_ascii_of_string_of_list_ascii. Qed.

Lemma str_chars (s : string) : str (chars s) = s.
Proof. apply string_of_list_ascii_of_string. Qed.

Lemma chars_inj (s t : string) : chars s = chars t -> s = t.
Proof. intros H. rewrite <- (str_chars s), <- (str_chars t). by rewrite H. Qed.

Lemma luceneEscape_chars (s : string) :
  chars (luceneEscape s)
  = flat_map (fun c => if lucene_special c then ["\"%char; c] else [c]) (chars s).
Proof. unfold luceneEscape. apply chars_str. Qed.

Lemma barra_especial : lucene_special "\" = true.
Proof. reflexivity. Qed.

Lemma no_especial_no_barra (c : ascii) : lucene_special c = false -> Ascii.eqb c "\" = false.
Proof.
  intros H. destruct (Ascii.eqb c "\") eqn:E; [|done].
  apply Ascii.eqb_eq in E. subst. by rewrite barra_especial in H.
Qed.

Lemma desescapa_escape (l : list ascii) :
  desescapa (flat_map (fun c => if lucene_special c then ["\"%char; c] else [c]) l) = l.
Proof.
  induction l as [|c l IH]; [done|].
  cbn [flat_map]. destruct (lucene_special c) eqn:E.
  - cbn [app desescapa]. rewrite Ascii.eqb_refl. by rewrite IH.
  - cbn [app desescapa]. rewrite (no_especial_no_barra c E). by rewrite IH.
Qed.

Lemma escape_length (l : list ascii) :
  (length l <=
   length (flat_map (fun c => if lucene_special c then ["\"%char; c] else [c]) l))%nat.
Proof.
  induction l as [|c l IH]; [done|].
  cbn [flat_map]. rewrite length_app. destruct (lucene_special c); simpl; lia.
Qed.

(** X4. [luceneEscape] loses nothing: two texts with the same escaped form
    are the same text. *)
Theorem luceneEscape_inyectiva (s t : string) :
  luceneEscape s = luceneEscape t -> s = t.
Proof.
  intros H. apply chars_inj.
  rewrite <- (desescapa_escape (chars s)), <- (desescapa_escape (chars t)).
  by rewrite <- !luceneEscape_chars, H.
Qed.

(** X5. The escaped form of a text is made of plain characters and of
    pairs of a backslash and a special character: no special character is
    left without its backslash, and reading the pairs back gives the
    text. *)
Theorem luceneEscape_escapada (s : string) :
  escapada (chars (luceneEscape s))
  /\ desescapa (chars (luceneEscape s)) = chars s.
Proof.
  rewrite luceneEscape_chars. split; [|apply desescapa_escape].
  induction (chars s) as [|c l IH]; [constructor|].
  cbn [flat_map]. destruct (lucene_special c) eqn:E; cbn [app].
  - by apply escapada_especial.
  - by apply escapada_normal.
Qed.

(** X6. [luceneEscape] returns its argument as it is exactly when no
    character of it is special; the wildcards are not. *)
Theorem luceneEscape_identidad (s : string) :
  (luceneEscape s = s <-> Forall (fun c => lucene_special c = false) (chars s))
  /\ lucene_special "*" = false /\ lucene_special "?" = false.
Proof.
  split; [|done]. split.
  - intros H. apply (f_equal chars) in H. rewrite luceneEscape_chars in H.
    induction (chars s) as [|c l IH]; [constructor|].
    cbn [flat_map] in H. destruct (lucene_special c) eqn:E; cbn [app] in H.
    + exfalso. injection H as Hc Hl.
      pose proof (escape_length l) as Hlen.
      apply (f_equal (@length ascii)) in Hl. simpl in Hl. lia.
    + injection H as Hl. constructor; auto.
  - intros H. apply chars_inj. rewrite luceneEscape_chars.
    induction H as [|c l Hc _ IH]; [done|].
    cbn [flat_map]. rewrite Hc. cbn [app]. by rewrite IH.
Qed.

Lemma luceneEscape_inyectiva_ejemplo : "ayto:15" = "ayto:15".
Proof. exact (luceneEscape_inyectiva "ayto:15" "ayto:15" eq_refl). Defined.

(* ===================================================================== *)
(** * [mapEstimacion]                                                      *)
(* ===================================================================== *)

(** ** Whole numbers *)

Lemma of_Z_Dec (z : Z) : exists m e, of_Z z = Dec m e /\ 0 <= e /\ z = m * 10 ^ e.
Proof.
  unfold of_Z.
  destruct (mkDec_spec z 0) as [[-> ->]|(_ & m & e & -> & _ & He & Hz)].
  - exists 0, 0. split; [done|]. lia.
  - exists m, e. rewrite Z.sub_0_r in Hz. auto.
Qed.

Lemma of_Z_inj (a b : Z) : of_Z a = of_Z b -> a = b.
Proof.
  intros H.
  destruct (of_Z_Dec a) as (m & e & Ha & _ & ->).
  destruct (of_Z_Dec b) as (m' & e' & Hb & _ & ->).
  rewrite Ha, Hb in H. by injection H as -> ->.
Qed.

Lemma of_Z_no_NaN (z : Z) : of_Z z <> NaN.
Proof. destruct (of_Z_Dec z) as (m & e & -> & _). done. Qed.

Lemma parseInt_chars_entero (l : list ascii) :
  parseInt_chars l = NaN \/ exists z, parseInt_chars l = of_Z z.
Proof.
  unfold parseInt_chars.
  destruct (read_sign (skip_ws l)) as [neg l1].
  destruct (if _ : bool then _ else _) as [[v n] r].
  destruct (n =? 0); eauto.
Qed.

Lemma parseInt_entero (v : value) : parseInt v = NaN \/ exists z, parseInt v = of_Z z.
Proof. apply parseInt_chars_entero. Qed.

Lemma geb_of_Z (z : Z) : geb (of_Z z) zero = (0 <=? z).
Proof.
  destruct (of_Z_Dec z) as (m & e & -> & He & ->).
  unfold geb, leb, zero, align. rewrite Z.min_l by lia.
  rewrite Z.mul_0_l, Z.sub_0_r. done.
Qed.

Lemma round_div60_of_Z (z : Z) : round_div60 (of_Z z) = of_Z ((z + 30) / 60).
Proof.
  destruct (of_Z_Dec z) as (m & e & -> & He & ->).
  unfold round_div60. apply Z.leb_le in He as ->. f_equal.
  replace (2 * m * 10 ^ e + 60) with ((m * 10 ^ e + 30) * 2) by lia.
  replace 120 with (60 * 2) by lia.
  apply Z.div_mul_cancel_r; lia.
Qed.

Lemma trunc_of_Z (z : Z) : trunc (of_Z z) = z.
Proof.
  destruct (of_Z_Dec z) as (m & e & -> & He & ->).
  unfold trunc. by apply Z.leb_le in He as ->.
Qed.

(** ** The two buses of an estimate *)

Section Estimacion.

Variable horaLocal : Z -> string.

Lemma bus_con_o_sin_hora (now : Z) (t d : number) :
  (t = NaN \/ exists z, t = of_Z z) ->
  (d = NaN \/ exists z, d = of_Z z) ->
  let b :=
    {| Bus.tiempoSegundos := t;
       Bus.tiempoMinutos := if geb t zero then Some (round_div60 t) else None;
       Bus.distanciaMetros := if geb d zero then Some d else None;
       Bus.llegada :=
         if geb t zero then Some (calcularHoraLlegada horaLocal now t) else None |} in
  (busConHora horaLocal now b \/ busSinHora b) /\ distanciaValida b.
Proof.
  intros Ht Hd b. subst b. unfold busConHora, busSinHora, distanciaValida.
  cbn [Bus.tiempoSegundos Bus.tiempoMinutos Bus.llegada Bus.distanciaMetros].
  split.
  - destruct Ht as [->|[z ->]].
    + right. cbn. auto.
    + rewrite geb_of_Z. destruct (0 <=? z) eqn:E.
      * apply Z.leb_le in E. left. exists z.
        unfold calcularHoraLlegada. by rewrite round_div60_of_Z, trunc_of_Z.
      * apply Z.leb_gt in E. right. split; [|done]. right. by exists z.
  - destruct Hd as [->|[z ->]]; [by left|].
    rewrite geb_of_Z. destruct (0 <=? z) eqn:E; [|by left].
    apply Z.leb_le in E. right. by exists z.
Qed.

Lemma buses_de_estimacion (now : Z) (r : record) :
  let e := mapEstimacion horaLocal now r in
  (busConHora horaLocal now (Estimacion.proximoBus e) \/ busSinHora (Estimacion.proximoBus e))
  /\ distanciaValida (Estimacion.proximoBus e)
  /\ (busConHora horaLocal now (Estimacion.segundoBus e) \/ busSinHora (Estimacion.segundoBus e))
  /\ distanciaValida (Estimacion.segundoBus e).
Proof.
  intros e. subst e. unfold mapEstimacion. cbn [Estimacion.proximoBus Estimacion.segundoBus].
  pose proof (bus_con_o_sin_hora now _ _
                (parseInt_entero (nullish_or (field r "ayto:tiempo1") (VNum (of_Z (-1)))))
                (parseInt_entero (nullish_or (field r "ayto:distancia1") (VNum (of_Z (-1))))))
    as [H1 H2].
  pose proof (bus_con_o_sin_hora now _ _
                (parseInt_entero (nullish_or (field r "ayto:tiempo2") (VNum (of_Z (-1)))))
                (parseInt_entero (nullish_or (field r "ayto:distancia2") (VNum (of_Z (-1))))))
    as [H3 H4].
  auto.
Qed.


(** A bus whose seconds pass the test [>= 0] has a time. *)
Lemma bus_con_hora (now : Z) (b : Bus.t) :
  busConHora horaLocal now b \/ busSinHora b ->
  geb (Bus.tiempoSegundos b) zero = true -> busConHora horaLocal now b.
Proof.
  intros [H|[[Hs|(t & Ht & Hs)] _]] Hg; [done| |].
  - by rewrite Hs in Hg.
  - rewrite Hs, geb_of_Z in Hg. apply Z.leb_le in Hg. lia.
Qed.

(** X8. A record without the time of the next bus ([undefined] or [null])
    gives an estimate whose next bus is at -1 seconds, with neither
    minutes nor clock time; the same for the distance. *)
Theorem mapEstimacion_sin_tiempo (now : Z) (r : record) :
  field r "ayto:tiempo1" = VUndefined \/ field r "ayto:tiempo1" = VNull ->
  field r "ayto:distancia1" = VUndefined \/ field r "ayto:distancia1" = VNull ->
  let b := Estimacion.proximoBus (mapEstimacion horaLocal now r) in
  Bus.tiempoSegundos b = of_Z (-1)
  /\ Bus.tiempoMinutos b = None /\ Bus.llegada b = None /\ Bus.distanciaMetros b = None.
Proof.
  intros Ht Hd b. subst b. unfold mapEstimacion. cbn [Estimacion.proximoBus].
  assert (forall v, v = VUndefined \/ v = VNull ->
                    parseInt (nullish_or v (VNum (of_Z (-1)))) = of_Z (-1)) as Hm.
  { by intros v [-> | ->]. }
  rewrite (Hm _ Ht), (Hm _ Hd).
  cbn [Bus.tiempoSegundos Bus.tiempoMinutos Bus.llegada Bus.distanciaMetros].
  rewrite geb_of_Z. done.
Qed.

End Estimacion.

Lemma mapEstimacion_sin_tiempo_ejemplo :
  let b := Estimacion.proximoBus (mapEstimacion reloj 0 ∅) in
  Bus.tiempoSegundos b = of_Z (-1)
  /\ Bus.tiempoMinutos b = None /\ Bus.llegada b = None /\ Bus.distanciaMetros b = None.
Proof.
  exact (mapEstimacion_sin_tiempo reloj 0 ∅ (or_introl eq_refl) (or_introl eq_refl)).
Defined.

(* ===================================================================== *)
(** * The normal form of a line label                                      *)
(* ===================================================================== *)

Lemma upper_char_idem (c : ascii) : upper_char (upper_char c) = upper_char c.
Proof. destruct c as [[] [] [] [] [] [] [] []]; reflexivity. Qed.

Lemma is_ws_upper_char (c : ascii) : is_ws (upper_char c) = is_ws c.
Proof. destruct c as [[] [] [] [] [] [] [] []]; reflexivity. Qed.

Lemma skip_ws_upper (l : list ascii) :
  skip_ws (map upper_char l) = map upper_char (skip_ws l).
Proof.
  induction l as [|c l IH]; [done|].
  cbn [map skip_ws]. rewrite is_ws_upper_char. by destruct (is_ws c).
Qed.

Lemma toUpperCase_idem (s : string) : toUpperCase (toUpperCase s) = toUpperCase s.
Proof.
  unfold toUpperCase. rewrite chars_str, map_map. f_equal.
  apply map_ext. intros c. apply upper_char_idem.
Qed.

Lemma trim_toUpperCase (s : string) : trim (toUpperCase s) = toUpperCase (trim s).
Proof.
  unfold trim, toUpperCase. rewrite !chars_str. f_equal.
  by rewrite skip_ws_upper, <- map_rev, skip_ws_upper, <- map_rev.
Qed.

(** What [skip_ws] drops is white space, and what it leaves does not start
    with white space. *)
Lemma skip_ws_split (l : list ascii) :
  exists w, l = w ++ skip_ws l /\ forallb is_ws w = true.
Proof.
  induction l as [|c l (w & Hl & Hw)]; [by exists []|].
  cbn [skip_ws]. destruct (is_ws c) eqn:E.
  - exists (c :: w). cbn. rewrite E, Hw. split; [by f_equal|done].
  - by exists [].
Qed.

Lemma skip_ws_head (c : ascii) (l : list ascii) : is_ws c = false -> skip_ws (c :: l) = c :: l.
Proof. intros H. cbn. by rewrite H. Qed.

Lemma skip_ws_idem (l : list ascii) : skip_ws (skip_ws l) = skip_ws l.
Proof.
  induction l as [|c l IH]; [done|].
  cbn [skip_ws]. destruct (is_ws c) eqn:E; [done|]. by apply skip_ws_head.
Qed.

(** Dropping the white space at the end leaves the front as it is. *)
Lemma skip_ws_trim_end (l : list ascii) :
  skip_ws (rev (skip_ws (rev (skip_ws l)))) = rev (skip_ws (rev (skip_ws l))).
Proof.
  set (u := skip_ws l).
  destruct (skip_ws_split (rev u)) as (w & Hu & _).
  apply (f_equal (@rev ascii)) in Hu. rewrite rev_involutive, rev_app_distr in Hu.
  destruct (rev (skip_ws (rev u))) as [|c t] eqn:Et; [done|].
  apply skip_ws_head.
  assert (skip_ws u = u) as Hfix by apply skip_ws_idem.
  rewrite Hu in Hfix. cbn [app skip_ws] in Hfix.
  destruct (is_ws c) eqn:E; [|done].
  exfalso. destruct (skip_ws_split (t ++ rev w)) as (w' & Hs & _).
  rewrite Hfix in Hs. apply (f_equal (@length ascii)) in Hs.
  rewrite (length_app w') in Hs. cbn [length] in Hs. lia.
Qed.

Lemma trim_idem (s : string) : trim (trim s) = trim s.
Proof.
  unfold trim. rewrite chars_str.
  by rewrite (skip_ws_trim_end (chars s)), rev_involutive, skip_ws_idem.
Qed.

Lemma normalizado_insensible (s : string) :
  normalizado (VStr (toUpperCase s)) = normalizado (VStr s)
  /\ normalizado (VStr (trim s)) = normalizado (VStr s).
Proof.
  unfold normalizado. cbn [toString bindR to_string]. split; f_equal.
  - by rewrite toUpperCase_idem.
  - by rewrite <- trim_toUpperCase, trim_idem.
Qed.

Section Normaliza.

Variable server : nat -> request -> result response.
Variable horaLocal : Z -> string.

(** X9. The three queries by line label do not tell upper case from lower
    case, nor see the white space around the label: the label, its
    upper-case form and its trimmed form are asked for in the same way. *)
Theorem consultas_de_linea_insensibles (s : string) (sentido : value) (now : Z) :
  let consultas (numero : value) :=
    (getLineaByNumero server numero,
     getSecuenciaLinea server numero sentido,
     getEstimacionesByLinea server horaLocal numero now) in
  consultas (VStr (toUpperCase s)) = consultas (VStr s)
  /\ consultas (VStr (trim s)) = consultas (VStr s).
Proof.
  intros consultas. subst consultas.
  unfold getLineaByNumero, getSecuenciaLinea, getEstimacionesByLinea, consultaSecuencia.
  destruct (normalizado_insensible s) as [-> ->]. done.
Qed.

End Normaliza.

(* ===================================================================== *)
(** * [sort] and the order of numbers                                      *)
(* ===================================================================== *)

Lemma insert_sorted_Permutation {A} (cmp : A -> A -> number) (x : A) (l : list A) :
  Permutation (insert_sorted cmp x l) (x :: l).
Proof.
  induction l as [|y l IH]; [done|].
  cbn [insert_sorted]. destruct (is_positive (cmp x y)); [|done].
  rewrite IH. apply perm_swap.
Qed.

Lemma sort_Permutation {A} (cmp : A -> A -> number) (l : list A) :
  Permutation (sort cmp l) l.
Proof.
  induction l as [|x l IH]; [done|].
  cbn [sort fold_right]. rewrite insert_sorted_Permutation. by constructor.
Qed.

Lemma sort_In {A} (cmp : A -> A -> number) (l : list A) (x : A) :
  In x (sort cmp l) <-> In x l.
Proof.
  split; apply Permutation_in; [|symmetry]; apply sort_Permutation.
Qed.

Lemma ordenada_map {A B} (f : A -> B) (R : B -> B -> Prop) (l : list A) :
  ordenada R (map f l) <-> ordenada (fun a b => R (f a) (f b)) l.
Proof.
  induction l as [|x l IH]; [done|].
  cbn [map ordenada]. rewrite IH, Forall_map. done.
Qed.

Lemma insert_sorted_ordenada {A} (cmp : A -> A -> number) (R : A -> A -> Prop)
    (x : A) (l : list A) :
  (forall y, In y l -> is_positive (cmp x y) = false -> R x y) ->
  (forall y, In y l -> is_positive (cmp x y) = true -> R y x) ->
  (forall y z, In y l -> In z l -> R x y -> R y z -> R x z) ->
  ordenada R l -> ordenada R (insert_sorted cmp x l).
Proof.
  intros H1 H2 H3. induction l as [|y l IH]; intros Hl.
  - cbn. auto.
  - destruct Hl as [Hy Hl]. cbn [insert_sorted].
    destruct (is_positive (cmp x y)) eqn:E.
    + cbn [ordenada]. split.
      * apply Forall_forall. intros z Hz. apply list_elem_of_In in Hz.
        apply (Permutation_in _ (insert_sorted_Permutation cmp x l)) in Hz.
        destruct Hz as [<-|Hz].
        -- apply H2; [by left|done].
        -- rewrite Forall_forall in Hy. apply Hy. by apply list_elem_of_In.
      * apply IH; [| | |done].
        -- intros z Hz. apply H1. by right.
        -- intros z Hz. apply H2. by right.
        -- intros z w Hz Hw. apply H3; by right.
    + assert (R x y) as Hxy by (apply H1; [by left|done]).
      cbn [ordenada]. split; [|by split].
      constructor; [done|].
      apply Forall_forall. intros z Hz.
      rewrite Forall_forall in Hy. pose proof (Hy z Hz) as Hyz.
      apply list_elem_of_In in Hz.
      apply (H3 y z); [by left|by right|done|done].
Qed.

(** A comparator that agrees with a transitive relation gives a list
    ordered by it. *)
Lemma sort_ordenada {A} (cmp : A -> A -> number) (R : A -> A -> Prop) (l : list A) :
  (forall x y, In x l -> In y l -> is_positive (cmp x y) = false -> R x y) ->
  (forall x y, In x l -> In y l -> is_positive (cmp x y) = true -> R y x) ->
  (forall x y z, In x l -> In y l -> In z l -> R x y -> R y z -> R x z) ->
  ordenada R (sort cmp l).
Proof.
  induction l as [|x l IH]; intros H1 H2 H3; [done|].
  cbn [sort fold_right]. apply insert_sorted_ordenada.
  - intros y Hy. apply sort_In in Hy. apply H1; [by left|by right].
  - intros y Hy. apply sort_In in Hy. apply H2; [by left|by right].
  - intros y z Hy Hz. apply sort_In in Hy. apply sort_In in Hz.
    apply H3; [by left|by right|by right].
  - apply IH.
    + intros a b Ha Hb. apply H1; by right.
    + intros a b Ha Hb. apply H2; by right.
    + intros a b c Ha Hb Hc. apply H3; by right.
Qed.

(** ** The order of numbers *)

Lemma pow10_pos (n : Z) : 0 <= n -> 0 < 10 ^ n.
Proof. intros H. apply Z.pow_pos_nonneg; lia. Qed.

(** Two decimals are compared at any exponent below both. *)
Lemma leb_Dec_scale (c m1 e1 m2 e2 : Z) :
  c <= e1 -> c <= e2 ->
  leb (Dec m1 e1) (Dec m2 e2) = (m1 * 10 ^ (e1 - c) <=? m2 * 10 ^ (e2 - c)).
Proof.
  intros H1 H2. unfold leb, align. set (k := Z.min e1 e2).
  assert (c <= k) as Hk by (unfold k; lia).
  replace (e1 - c) with ((e1 - k) + (k - c)) by lia.
  replace (e2 - c) with ((e2 - k) + (k - c)) by lia.
  rewrite !Z.pow_add_r by (unfold k; lia). rewrite !Z.mul_assoc.
  pose proof (pow10_pos (k - c) ltac:(lia)) as Hp.
  apply eq_true_iff_eq. rewrite !Z.leb_le.
  split; intros H; [by apply Z.mul_le_mono_nonneg_r; [lia|]|].
  by apply Z.mul_le_mono_pos_r in H.
Qed.

Lemma eqb_Dec_scale (c m1 e1 m2 e2 : Z) :
  c <= e1 -> c <= e2 ->
  eqb (Dec m1 e1) (Dec m2 e2) = (m1 * 10 ^ (e1 - c) =? m2 * 10 ^ (e2 - c)).
Proof.
  intros H1 H2. unfold eqb, align. set (k := Z.min e1 e2).
  assert (c <= k) as Hk by (unfold k; lia).
  replace (e1 - c) with ((e1 - k) + (k - c)) by lia.
  replace (e2 - c) with ((e2 - k) + (k - c)) by lia.
  rewrite !Z.pow_add_r by (unfold k; lia). rewrite !Z.mul_assoc.
  pose proof (pow10_pos (k - c) ltac:(lia)) as Hp.
  apply eq_true_iff_eq. rewrite !Z.eqb_eq.
  split; intros H; [by rewrite H|].
  apply Z.mul_cancel_r in H; [done|lia].
Qed.

Lemma leb_of_Z (a b : Z) : leb (of_Z a) (of_Z b) = (a <=? b).
Proof.
  destruct (of_Z_Dec a) as (m & e & -> & He & ->).
  destruct (of_Z_Dec b) as (m' & e' & -> & He' & ->).
  rewrite (leb_Dec_scale 0) by done. by rewrite !Z.sub_0_r.
Qed.

Lemma eqb_of_Z (a b : Z) : eqb (of_Z a) (of_Z b) = (a =? b).
Proof.
  destruct (of_Z_Dec a) as (m & e & -> & He & ->).
  destruct (of_Z_Dec b) as (m' & e' & -> & He' & ->).
  rewrite (eqb_Dec_scale 0) by done. by rewrite !Z.sub_0_r.
Qed.

Lemma leb_trans (x y z : number) :
  leb x y = true -> leb y z = true -> leb x z = true.
Proof.
  destruct x as [|[]|m1 e1], y as [|[]|m2 e2], z as [|[]|m3 e3]; try done.
  set (c := Z.min e1 (Z.min e2 e3)).
  rewrite (leb_Dec_scale c m1 e1 m2 e2), (leb_Dec_scale c m2 e2 m3 e3),
    (leb_Dec_scale c m1 e1 m3 e3) by (unfold c; lia).
  rewrite !Z.leb_le. lia.
Qed.

Lemma leb_total (x y : number) :
  x <> NaN -> y <> NaN -> leb x y = false -> leb y x = true.
Proof.
  destruct x as [|[]|m1 e1], y as [|[]|m2 e2]; try done.
  intros _ _.
  rewrite (leb_Dec_scale (Z.min e1 e2) m1 e1 m2 e2),
    (leb_Dec_scale (Z.min e1 e2) m2 e2 m1 e1) by lia.
  rewrite Z.leb_gt, Z.leb_le. lia.
Qed.

Lemma eqb_leb (x y : number) : eqb x y = true -> leb x y = true /\ leb y x = true.
Proof.
  destruct x as [|[]|m1 e1], y as [|[]|m2 e2]; try done.
  rewrite (eqb_Dec_scale (Z.min e1 e2) m1 e1 m2 e2),
    (leb_Dec_scale (Z.min e1 e2) m1 e1 m2 e2),
    (leb_Dec_scale (Z.min e1 e2) m2 e2 m1 e1) by lia.
  rewrite Z.eqb_eq, !Z.leb_le. lia.
Qed.

Lemma is_positive_mkDec (z k : Z) : is_positive (mkDec z k) = (0 <? z).
Proof.
  destruct (mkDec_spec z k) as [[-> ->]|(Hne & m & e & -> & _ & He & ->)]; [done|].
  cbn [is_positive]. pose proof (pow10_pos (e - k) ltac:(lia)) as Hp.
  apply eq_true_iff_eq. rewrite !Z.ltb_lt. nia.
Qed.

(** [x - y > 0] is [!(x <= y)] when neither is [NaN]. *)
Lemma is_positive_sub (x y : number) :
  x <> NaN -> y <> NaN -> is_positive (sub x y) = negb (leb x y).
Proof.
  destruct x as [|[]|m1 e1], y as [|[]|m2 e2]; try done.
  intros _ _. unfold sub, leb, align. rewrite is_positive_mkDec.
  apply eq_true_iff_eq. rewrite negb_true_iff, Z.ltb_lt, Z.leb_gt. lia.
Qed.

(* ===================================================================== *)
(** * [getSecuenciaLinea]                                                  *)
(* ===================================================================== *)

Section Secuencia.

Variable server : nat -> request -> result response.

Lemma getSecuenciaLinea_Ok (numeroLinea sentido : value) (st st' : state)
    (out : list Secuencia.t) :
  getSecuenciaLinea server numeroLinea sentido st = (Ok out, st') ->
  exists q res,
    consultaSecuencia numeroLinea sentido = Ok q
    /\ server (length (peticiones st)) {| endpoint_of := secuencia; query := Some q |}
       = Ok res
    /\ out = map secuenciaParada (sort comparaSecuencia (resources res))
    /\ peticiones st'
       = peticiones st ++ [{| endpoint_of := secuencia; query := Some q |}].
Proof.
  unfold getSecuenciaLinea, bind, lift, fetchAllPages, ret.
  destruct (consultaSecuencia numeroLinea sentido) as [q|e]; [|done].
  destruct (server _ _) as [res|e] eqn:Hres; [|done].
  intros [= <- <-]. by exists q, res.
Qed.

(** X10. [getSecuenciaLinea] sends one request and returns one entry for
    each record of the answer: none is lost and none comes twice. *)
Theorem getSecuenciaLinea_completa (numeroLinea sentido : value) (st st' : state)
    (out : list Secuencia.t) :
  getSecuenciaLinea server numeroLinea sentido st = (Ok out, st') ->
  exists q res,
    consultaSecuencia numeroLinea sentido = Ok q
    /\ server (length (peticiones st)) {| endpoint_of := secuencia; query := Some q |}
       = Ok res
    /\ Permutation out (map secuenciaParada (resources res))
    /\ peticiones st'
       = peticiones st ++ [{| endpoint_of := secuencia; query := Some q |}].
Proof.
  intros H. apply getSecuenciaLinea_Ok in H as (q & res & Hq & Hres & -> & Hst).
  exists q, res. repeat split; [done|done| |done].
  apply Permutation_map, sort_Permutation.
Qed.

(** The keys the comparator reads are the ones the entries show, when the
    direction number of the entry is a number. *)
Lemma comparaSecuencia_claves (a b : record) :
  Secuencia.sentidoNumerico (secuenciaParada a) <> NaN ->
  Secuencia.sentidoNumerico (secuenciaParada b) <> NaN ->
  comparaSecuencia a b
  = if negb (eqb (Secuencia.sentidoNumerico (secuenciaParada a))
                 (Secuencia.sentidoNumerico (secuenciaParada b)))
    then sub (Secuencia.sentidoNumerico (secuenciaParada a))
             (Secuencia.sentidoNumerico (secuenciaParada b))
    else sub (Secuencia.puntoKm (secuenciaParada a))
             (Secuencia.puntoKm (secuenciaParada b)).
Proof.
  unfold comparaSecuencia, secuenciaParada.
  cbn [Secuencia.sentidoNumerico Secuencia.puntoKm].
  intros Ha Hb.
  assert (forall v, parseInt v <> NaN -> nullish_or v (VNum zero) = v) as Hn.
  { intros v Hv. destruct v; try done; by destruct Hv. }
  by rewrite (Hn _ Ha), (Hn _ Hb).
Qed.

Lemma eqb_sym (x y : number) : eqb x y = eqb y x.
Proof.
  destruct x as [|s|m1 e1], y as [|t|m2 e2]; try done.
  - cbn. by destruct s, t.
  - unfold eqb, align. rewrite (Z.min_comm e2 e1). apply Z.eqb_sym.
Qed.

Lemma eqb_trans_leb (x y z : number) :
  leb x y = true -> leb y z = true -> eqb x z = true -> eqb x y = true.
Proof.
  destruct x as [|[]|m1 e1], y as [|[]|m2 e2], z as [|[]|m3 e3]; try done.
  set (c := Z.min e1 (Z.min e2 e3)).
  rewrite (leb_Dec_scale c m1 e1 m2 e2), (leb_Dec_scale c m2 e2 m3 e3),
    (eqb_Dec_scale c m1 e1 m3 e3), (eqb_Dec_scale c m1 e1 m2 e2) by (unfold c; lia).
  rewrite !Z.leb_le, !Z.eqb_eq. lia.
Qed.

Lemma eqb_trans (x y z : number) : eqb x y = true -> eqb y z = true -> eqb x z = true.
Proof.
  destruct x as [|s1|m1 e1], y as [|s2|m2 e2], z as [|s3|m3 e3]; try done.
  - cbn. by destruct s1, s2, s3.
  - set (c := Z.min e1 (Z.min e2 e3)).
    rewrite (eqb_Dec_scale c m1 e1 m2 e2), (eqb_Dec_scale c m2 e2 m3 e3),
      (eqb_Dec_scale c m1 e1 m3 e3) by (unfold c; lia).
    rewrite !Z.eqb_eq. lia.
Qed.

Lemma antesEnRuta_trans (a b c : Secuencia.t) :
  antesEnRuta a b -> antesEnRuta b c -> antesEnRuta a c.
Proof.
  intros [H1 H2] [H3 H4]. split; [by eapply leb_trans|].
  intros E.
  pose proof (eqb_trans_leb _ _ _ H1 H3 E) as Eab.
  assert (eqb (Secuencia.sentidoNumerico b) (Secuencia.sentidoNumerico c) = true) as Ebc.
  { rewrite eqb_sym in Eab. by eapply eqb_trans. }
  eapply leb_trans; eauto.
Qed.

(** X11. When the direction numbers and the positions of the entries are
    numbers, [getSecuenciaLinea] returns them by direction number and,
    within a direction, by position along the route. *)
Theorem getSecuenciaLinea_ordenada (numeroLinea sentido : value) (st st' : state)
    (out : list Secuencia.t) :
  getSecuenciaLinea server numeroLinea sentido st = (Ok out, st') ->
  Forall (fun e => Secuencia.sentidoNumerico e <> NaN /\ Secuencia.puntoKm e <> NaN) out ->
  ordenada antesEnRuta out.
Proof.
  intros H Hnum. apply getSecuenciaLinea_Ok in H as (q & res & _ & _ & -> & _).
  apply ordenada_map.
  assert (forall r, In r (resources res) ->
                    Secuencia.sentidoNumerico (secuenciaParada r) <> NaN
                    /\ Secuencia.puntoKm (secuenciaParada r) <> NaN) as Hk.
  { intros r Hr. rewrite Forall_forall in Hnum. apply Hnum.
    apply list_elem_of_In, in_map, sort_In, Hr. }
  clear Hnum. apply sort_ordenada.
  - intros a b Ha Hb. destruct (Hk a Ha) as [Hsa Hka], (Hk b Hb) as [Hsb Hkb].
    rewrite (comparaSecuencia_claves a b Hsa Hsb).
    destruct (eqb _ _) eqn:E; cbn [negb]; intros Hp.
    + rewrite is_positive_sub in Hp by done. apply negb_false_iff in Hp.
      split; [by apply eqb_leb in E as [? _]|done].
    + rewrite is_positive_sub in Hp by done. apply negb_false_iff in Hp.
      split; [done|]. intros E'. unfold antesEnRuta in *. congruence.
  - intros a b Ha Hb. destruct (Hk a Ha) as [Hsa Hka], (Hk b Hb) as [Hsb Hkb].
    rewrite (comparaSecuencia_claves a b Hsa Hsb).
    destruct (eqb _ _) eqn:E; cbn [negb]; intros Hp.
    + rewrite is_positive_sub in Hp by done. apply negb_true_iff in Hp.
      split; [by apply eqb_leb in E as [_ ?]|]. intros _. by apply leb_total.
    + rewrite is_positive_sub in Hp by done. apply negb_true_iff in Hp.
      split; [by apply leb_total|]. rewrite eqb_sym. congruence.
  - intros a b c _ _ _. apply antesEnRuta_trans.
Qed.

End Secuencia.

(* ===================================================================== *)
(** * Tool [info_linea]                                                    *)
(* ===================================================================== *)

(** ** The object [porSentido] *)

Lemma grupo_cons (k0 : string) (g0 : list Consultas.Orden.t)
    (acc : list (string * list Consultas.Orden.t)) (k : string) :
  Consultas.grupo ((k0, g0) :: acc) k
  = if String.eqb k0 k then Some g0 else Consultas.grupo acc k.
Proof. unfold Consultas.grupo. cbn. by destruct (String.eqb k0 k). Qed.

Lemma grupo_clave (acc : list (string * list Consultas.Orden.t)) (k : string) :
  existsb (fun kv => String.eqb (fst kv) k) acc
  = match Consultas.grupo acc k with Some _ => true | None => false end.
Proof.
  induction acc as [|[k0 g0] acc IH]; [done|].
  rewrite grupo_cons. cbn. by destruct (String.eqb k0 k).
Qed.

Lemma grupo_In_clave (acc : list (string * list Consultas.Orden.t)) (k : string) :
  In k (map fst acc) <-> Consultas.grupo acc k <> None.
Proof.
  induction acc as [|[k0 g0] acc IH]; [by cbn|].
  rewrite grupo_cons. cbn. destruct (String.eqb k0 k) eqn:E.
  - apply String.eqb_eq in E. split; [done|auto].
  - apply String.eqb_neq in E. rewrite <- IH. split; [|auto]. by intros [?|?].
Qed.

Lemma grupo_In (acc : list (string * list Consultas.Orden.t)) (k : string)
    (g : list Consultas.Orden.t) :
  NoDup (map fst acc) -> (In (k, g) acc <-> Consultas.grupo acc k = Some g).
Proof.
  induction acc as [|[k0 g0] acc IH]; intros Hnd; [by cbn|].
  apply NoDup_cons in Hnd as [Hk0 Hnd]. rewrite grupo_cons. cbn.
  destruct (String.eqb k0 k) eqn:E.
  - apply String.eqb_eq in E. subst k0. split.
    + intros [[= ->]|Hin]; [done|]. exfalso. apply Hk0.
      apply list_elem_of_In. by apply (in_map fst) in Hin.
    + intros [= ->]. by left.
  - apply String.eqb_neq in E. rewrite <- (IH Hnd). split; [|auto].
    intros [[= ? ?]|?]; [done|done].
Qed.

Lemma grupo_reemplaza (k : string) (v : list Consultas.Orden.t)
    (acc : list (string * list Consultas.Orden.t)) (k' : string) :
  Consultas.grupo (map (fun kv => if String.eqb (fst kv) k then (k, v) else kv) acc) k'
  = if String.eqb k k'
    then match Consultas.grupo acc k with Some _ => Some v | None => None end
    else Consultas.grupo acc k'.
Proof.
  induction acc as [|[k0 g0] acc IH]; [by destruct (String.eqb k k')|].
  cbn [map fst]. destruct (String.eqb k0 k) eqn:E0.
  - apply String.eqb_eq in E0. subst k0. rewrite !grupo_cons, String.eqb_refl.
    destruct (String.eqb k k') eqn:E; [done|]. exact IH.
  - rewrite !grupo_cons, E0, IH. destruct (String.eqb k k') eqn:E.
    + apply String.eqb_eq in E. subst k'. by rewrite E0.
    + done.
Qed.

Lemma grupo_app_uno (k : string) (v : list Consultas.Orden.t)
    (acc : list (string * list Consultas.Orden.t)) (k' : string) :
  Consultas.grupo (acc ++ [(k, v)]) k'
  = match Consultas.grupo acc k' with
    | Some g => Some g
    | None => if String.eqb k k' then Some v else None
    end.
Proof.
  induction acc as [|[k0 g0] acc IH].
  - cbn [app]. by rewrite grupo_cons.
  - cbn [app]. rewrite !grupo_cons. by destruct (String.eqb k0 k').
Qed.

Lemma grupo_pon (k : string) (v : list Consultas.Orden.t)
    (acc : list (string * list Consultas.Orden.t)) (k' : string) :
  Consultas.grupo (Consultas.pon k v acc) k'
  = if String.eqb k k' then Some v else Consultas.grupo acc k'.
Proof.
  unfold Consultas.pon. rewrite grupo_clave.
  destruct (Consultas.grupo acc k) as [g|] eqn:Hg.
  - rewrite grupo_reemplaza, Hg. done.
  - rewrite grupo_app_uno. destruct (String.eqb k k') eqn:E.
    + apply String.eqb_eq in E. subst k'. by rewrite Hg.
    + by destruct (Consultas.grupo acc k').
Qed.

Lemma claves_pon (k : string) (v : list Consultas.Orden.t)
    (acc : list (string * list Consultas.Orden.t)) :
  NoDup (map fst acc) -> NoDup (map fst (Consultas.pon k v acc)).
Proof.
  intros Hnd. unfold Consultas.pon. rewrite grupo_clave.
  destruct (Consultas.grupo acc k) as [g|] eqn:Hg.
  - replace (map fst (map (fun kv => if String.eqb (fst kv) k then (k, v) else kv) acc))
      with (map fst acc); [done|].
    rewrite map_map. apply map_ext_in. intros [k0 g0] _. cbn.
    destruct (String.eqb k0 k) eqn:E; [|done]. by apply String.eqb_eq in E.
  - rewrite map_app. cbn. apply NoDup_app. split; [done|]. split; [|apply NoDup_singleton].
    intros x Hx Hk. apply list_elem_of_In in Hk as [<-|[]].
    apply list_elem_of_In, grupo_In_clave in Hx. done.
Qed.

(** The number of stops an object [porSentido] holds. *)
Lemma paradas_pon (k : string) (v : list Consultas.Orden.t)
    (acc : list (string * list Consultas.Orden.t)) :
  NoDup (map fst acc) ->
  (list_sum (map (fun kv => length (snd kv)) (Consultas.pon k v acc))
   + length (default [] (Consultas.grupo acc k))
   = list_sum (map (fun kv => length (snd kv)) acc) + length v)%nat.
Proof.
  intros Hnd. unfold Consultas.pon. rewrite grupo_clave.
  destruct (Consultas.grupo acc k) as [g|] eqn:Hg; cbn [default].
  - induction acc as [|[k0 g0] acc IH]; [done|].
    apply NoDup_cons in Hnd as [Hk0 Hnd]. rewrite grupo_cons in Hg.
    cbn [map fst snd list_sum fold_right]. destruct (String.eqb k0 k) eqn:E.
    + apply String.eqb_eq in E. subst k0. injection Hg as ->.
      replace (map (fun kv => if String.eqb (fst kv) k then (k, v) else kv) acc) with acc.
      * cbn. unfold id. lia.
      * symmetry. rewrite <- (map_id acc) at 2. apply map_ext_in. intros [k1 g1] Hin. cbn.
        destruct (String.eqb k1 k) eqn:E1; [|done].
        apply String.eqb_eq in E1. subst k1. exfalso. apply Hk0.
        apply list_elem_of_In. by apply (in_map fst) in Hin.
    + specialize (IH Hnd Hg). cbn in *. unfold id, list_sum in *. lia.
  - rewrite map_app, list_sum_app. cbn. lia.
Qed.

Lemma delSentido_app (k : string) (l1 l2 : list Secuencia.t) :
  delSentido k (l1 ++ l2) = delSentido k l1 ++ delSentido k l2.
Proof. apply List.filter_app. Qed.

(** What [porSentido] holds once the entries of [l0] are in. *)
Lemma porSentido_inv (l l0 : list Secuencia.t)
    (acc : list (string * list Consultas.Orden.t)) :
  NoDup (map fst acc) ->
  (forall k, Consultas.grupo acc k
             = match delSentido k l0 with
               | [] => None
               | _ :: _ => Some (imap enOrden (delSentido k l0))
               end) ->
  list_sum (map (fun kv => length (snd kv)) acc) = length l0 ->
  let final := fold_left Consultas.agrega l acc in
  NoDup (map fst final)
  /\ (forall k, Consultas.grupo final k
                = match delSentido k (l0 ++ l) with
                  | [] => None
                  | _ :: _ => Some (imap enOrden (delSentido k (l0 ++ l)))
                  end)
  /\ list_sum (map (fun kv => length (snd kv)) final) = length (l0 ++ l).
Proof.
  revert l0 acc. induction l as [|s l IH]; intros l0 acc Hnd Hg Hsum.
  - cbn. by rewrite app_nil_r.
  - cbn [fold_left]. replace (l0 ++ s :: l) with ((l0 ++ [s]) ++ l) by by rewrite <- app_assoc.
    assert (default [] (Consultas.grupo acc (Secuencia.sentido s))
            = imap enOrden (delSentido (Secuencia.sentido s) l0)) as Hactual.
    { rewrite Hg. by destruct (delSentido _ l0). }
    apply IH.
    + by apply claves_pon.
    + intros k. unfold Consultas.agrega. rewrite grupo_pon, Hactual, length_imap.
      rewrite delSentido_app. cbn [delSentido List.filter].
      destruct (String.eqb (Secuencia.sentido s) k) eqn:E.
      * apply String.eqb_eq in E. subst k.
        rewrite imap_app. cbn [imap]. rewrite Nat.add_0_r.
        by destruct (delSentido (Secuencia.sentido s) l0).
      * rewrite app_nil_r. apply Hg.
    + unfold Consultas.agrega.
      pose proof (paradas_pon (Secuencia.sentido s)
                    (default [] (Consultas.grupo acc (Secuencia.sentido s))
                     ++ [{| Consultas.Orden.orden :=
                              Z.of_nat (length (default [] (Consultas.grupo acc
                                                              (Secuencia.sentido s)))) + 1;
                            Consultas.Orden.numeroParada := Secuencia.numeroParada s;
                            Consultas.Orden.nombreParada := Secuencia.nombreParada s;
                            Consultas.Orden.puntoKm := Secuencia.puntoKm s |}])
                    acc Hnd) as Hp.
      rewrite !length_app in *. cbn [length] in *. lia.
Qed.

(** [rutas] has one key for each direction that has stops, and under it
    those stops in the order of the sequence, numbered from 1. *)
Lemma porSentido_spec (l : list Secuencia.t) :
  NoDup (map fst (Consultas.porSentido l))
  /\ (forall k g, In (k, g) (Consultas.porSentido l)
                  <-> delSentido k l <> [] /\ g = imap enOrden (delSentido k l))
  /\ list_sum (map (fun kv => length (snd kv)) (Consultas.porSentido l)) = length l.
Proof.
  destruct (porSentido_inv l [] [] (NoDup_nil_2) (fun _ => eq_refl) eq_refl)
    as (Hnd & Hg & Hsum).
  cbn [app] in Hg, Hsum. fold (Consultas.porSentido l) in Hnd, Hg, Hsum.
  split; [done|]. split; [|done].
  intros k g. rewrite (grupo_In _ k g Hnd), Hg.
  destruct (delSentido k l) as [|x f]; [by split; [|intros [? _]]|].
  split; [by intros [= <-]|]. by intros [_ ->].
Qed.

(** ** The tool *)

Lemma sentidoLabel_dos (x : value) : sentidoLabel x = "ida" \/ sentidoLabel x = "vuelta".
Proof. unfold sentidoLabel. destruct (eqb _ _); auto. Qed.

Section InfoLinea.

Variable server : nat -> request -> result response.

Lemma info_linea_Ok (numero_linea : string) (sentido : Consultas.sentidoRuta)
    (st st' : state) (r : Consultas.respuesta Consultas.InfoLinea.t) :
  Consultas.info_linea server numero_linea sentido st = (Ok r, st') ->
  exists linea st1 sentidoNum secuencia,
    getLineaByNumero server (VStr numero_linea) st = (Ok linea, st1)
    /\ getSecuenciaLinea server (VStr numero_linea) sentidoNum st1 = (Ok secuencia, st')
    /\ match secuencia with
       | [] => exists m, r = Consultas.err m
       | _ :: _ =>
           exists d, r = Consultas.ok d
                     /\ Consultas.InfoLinea.rutas d = Consultas.porSentido secuencia
                     /\ Consultas.InfoLinea.totalParadas d = length secuencia
                     /\ (linea = None ->
                         Consultas.InfoLinea.linea d
                         = {| Consultas.LineaInfo.numero := VStr numero_linea;
                              Consultas.LineaInfo.nombre := VStr "No disponible";
                              Consultas.LineaInfo.id := VUndefined |})
       end.
Proof.
  unfold Consultas.info_linea. unfold bind at 1.
  destruct (getLineaByNumero server (VStr numero_linea) st) as [[linea|e] st1]; [|done].
  unfold bind at 1.
  destruct (getSecuenciaLinea server (VStr numero_linea) _ st1)
    as [[secuencia|e] st2] eqn:Hsec; [|done].
  intros H. exists linea, st1. eexists. exists secuencia.
  destruct secuencia as [|s l]; cbn in H; injection H as <- <-.
  - split; [done|]. split; [exact Hsec|]. eauto.
  - split; [done|]. split; [exact Hsec|]. eexists. split; [done|].
    cbn. split; [done|]. split; [done|]. by intros ->.
Qed.

(** X12. In an answer of [info_linea], [rutas] has one key for each
    direction ("ida", "vuelta") in which the sequence has stops; under it
    come those stops in the order of the sequence, numbered from 1 with
    no gap; and [totalParadas] counts the stops of all the directions. *)
Theorem info_linea_rutas (numero_linea : string) (sentido : Consultas.sentidoRuta)
    (st st' : state) (d : Consultas.InfoLinea.t) :
  Consultas.info_linea server numero_linea sentido st = (Ok (Consultas.ok d), st') ->
  exists sentidoNum secuencia st1,
    getSecuenciaLinea server (VStr numero_linea) sentidoNum st1 = (Ok secuencia, st')
    /\ Consultas.InfoLinea.totalParadas d = length secuencia
    /\ NoDup (map fst (Consultas.InfoLinea.rutas d))
    /\ (forall k g,
           In (k, g) (Consultas.InfoLinea.rutas d)
           <-> (k = "ida" \/ k = "vuelta")
               /\ delSentido k secuencia <> []
               /\ g = imap enOrden (delSentido k secuencia))
    /\ list_sum (map (fun kv => length (snd kv)) (Consultas.InfoLinea.rutas d))
       = Consultas.InfoLinea.totalParadas d.
Proof.
  intros H. apply info_linea_Ok in H as (linea & st1 & sn & secuencia & _ & Hsec & H).
  exists sn, secuencia, st1. split; [done|].
  destruct secuencia as [|s0 l0] eqn:El; [by destruct H|]. rewrite <- El in *.
  destruct H as (d' & [= <-] & Hr & Ht & _).
  destruct (porSentido_spec secuencia) as (Hnd & Hin & Hsum).
  rewrite Hr, Ht. split; [done|]. split; [done|]. split; [|done].
  intros k g. rewrite Hin. split; [|by intros (_ & ? & ?)].
  intros [Hne ->]. split; [|done].
  destruct (delSentido k secuencia) as [|e f] eqn:Ef; [done|].
  assert (In e (delSentido k secuencia)) as He by (rewrite Ef; by left).
  apply filter_In in He as [He Hk]. apply String.eqb_eq in Hk. subst k.
  apply getSecuenciaLinea_Ok in Hsec as (_ & res & _ & _ & Hout & _).
  rewrite Hout in He. apply in_map_iff in He as (r & <- & _).
  apply sentidoLabel_dos.
Qed.

(** X13. [info_linea] answers with an error exactly when the sequence of
    the line comes back empty, whether the line is known or not; a line
    that has stops but is not in the list of lines is shown under the
    number asked for, with the name "No disponible". *)
Theorem info_linea_error (numero_linea : string) (sentido : Consultas.sentidoRuta)
    (st st' : state) (r : Consultas.respuesta Consultas.InfoLinea.t) :
  Consultas.info_linea server numero_linea sentido st = (Ok r, st') ->
  exists linea st1 sentidoNum secuencia,
    getLineaByNumero server (VStr numero_linea) st = (Ok linea, st1)
    /\ getSecuenciaLinea server (VStr numero_linea) sentidoNum st1 = (Ok secuencia, st')
    /\ (secuencia = [] <-> exists m, r = Consultas.err m)
    /\ (forall d, r = Consultas.ok d -> linea = None ->
                  Consultas.InfoLinea.linea d
                  = {| Consultas.LineaInfo.numero := VStr numero_linea;
                       Consultas.LineaInfo.nombre := VStr "No disponible";
                       Consultas.LineaInfo.id := VUndefined |}).
Proof.
  intros H. apply info_linea_Ok in H as (linea & st1 & sn & secuencia & Hl & Hsec & H).
  exists linea, st1, sn, secuencia. split; [done|]. split; [done|].
  destruct secuencia as [|s0 l0].
  - destruct H as [m ->]. split; [split; eauto|]. intros d [=].
  - destruct H as (d & -> & _ & _ & Hd). split.
    + split; [done|]. by intros [m [=]].
    + intros d' [= <-]. exact Hd.
Qed.

End InfoLinea.

(* ===================================================================== *)
(** * Tools [estimaciones_parada] and [estimaciones_linea]                 *)
(* ===================================================================== *)

Lemma ordenada_impl {A} (R R' : A -> A -> Prop) (l : list A) :
  (forall a b, In a l -> In b l -> R a b -> R' a b) -> ordenada R l -> ordenada R' l.
Proof.
  induction l as [|x l IH]; intros HR; [done|].
  cbn [ordenada]. intros [Hx Hl]. split.
  - rewrite Forall_forall in *. intros y Hy. apply HR; [by left| |by apply Hx].
    right. by apply list_elem_of_In.
  - apply IH; [|done]. intros a b Ha Hb. apply HR; by right.
Qed.

Section Estimaciones.

Variable server : nat -> request -> result response.
Variable horaLocal : Z -> string.

Lemma getEstimacionesByParada_Ok (paradaId : value) (now : Z) (st st' : state)
    (ests : list Estimacion.t) :
  getEstimacionesByParada server horaLocal paradaId now st = (Ok ests, st') ->
  exists res, ests = map (mapEstimacion horaLocal now) (resources res).
Proof.
  unfold getEstimacionesByParada, bind, lift, fetchAllPages, ret.
  destruct (toString paradaId) as [s|e]; [|done].
  destruct (server _ _) as [res|e]; [|done].
  intros [= <- _]. by exists res.
Qed.

Lemma getEstimacionesByLinea_Ok (linea : value) (now : Z) (st st' : state)
    (ests : list Estimacion.t) :
  getEstimacionesByLinea server horaLocal linea now st = (Ok ests, st') ->
  exists res, ests = map (mapEstimacion horaLocal now) (resources res).
Proof.
  unfold getEstimacionesByLinea, bind, lift, fetchAllPages, ret.
  destruct (normalizado linea) as [s|e]; [|done].
  destruct (server _ _) as [res|e]; [|done].
  intros [= <- _]. by exists res.
Qed.

Lemma conHora_busInfo (now : Z) (b : Bus.t) (destino : value) :
  busConHora horaLocal now b -> conHora (Consultas.busInfo b destino).
Proof.
  intros (t & Ht & _ & Hm & Hl). exists ((t + 30) / 60), (horaLocal (now + 1000 * t)).
  split; [apply Z.div_pos; lia|]. by split.
Qed.

(** X14. In an answer of [estimaciones_parada] that lists estimates,
    [totalLineas] is their number, and a second bus is listed only with
    its minutes and its clock time: without a time that is not negative
    it is [null]. *)
Theorem estimaciones_parada_segundoBus (numero_parada : string) (now : Z)
    (st st' : state) (parada : Consultas.Sujeto.t) (totalLineas : nat)
    (estimaciones : list Consultas.EstimacionParada.t) (consultadoEn : Z) :
  Consultas.estimaciones_parada server horaLocal numero_parada now st
  = (Ok (Consultas.ok (Consultas.ParadaConEstimaciones
                         parada totalLineas estimaciones consultadoEn)), st') ->
  totalLineas = length estimaciones
  /\ (0 < totalLineas)%nat
  /\ Forall (fun e => match Consultas.EstimacionParada.segundoBus e with
                      | Some b => conHora b
                      | None => True
                      end) estimaciones.
Proof.
  unfold Consultas.estimaciones_parada. unfold bind at 1.
  destruct (getParadaByNumero server (VStr numero_parada) st) as [[p|e] st1]; [|done].
  unfold bind at 1.
  destruct (getEstimacionesByParada server horaLocal (VStr numero_parada) now st1)
    as [[ests|e] st2] eqn:Hests; [|done].
  apply getEstimacionesByParada_Ok in Hests as [res ->].
  destruct (map (mapEstimacion horaLocal now) (resources res)) as [|e0 l0] eqn:El;
    [unfold ret; intros [=]|].
  rewrite <- El. unfold ret. intros H. injection H as Hp Hn He Ht Hs.
  subst parada totalLineas estimaciones.
  split; [by rewrite !length_map|]. split; [rewrite El; cbn [length]; lia|].
  rewrite !Forall_map. apply Forall_forall. intros r _.
  unfold Consultas.estimacionParada. cbn [Consultas.EstimacionParada.segundoBus].
  destruct (geb _ zero) eqn:Hg; [|done].
  apply (conHora_busInfo now).
  destruct (buses_de_estimacion horaLocal now r) as (_ & _ & H & _).
  by apply bus_con_hora.
Qed.

(** The estimates of a line that have a time, by that time. *)
Lemma posiciones_ordenadas (now : Z) (mapa : gmap (option string) value)
    (rs : list record) :
  let ps := Consultas.posicionesBuses mapa (map (mapEstimacion horaLocal now) rs) in
  (length ps <= length rs)%nat
  /\ Forall (fun p => conHora (Consultas.Posicion.proximoBus p)) ps
  /\ ordenada llegaAntes ps.
Proof.
  intros ps. subst ps. unfold Consultas.posicionesBuses.
  set (cmp := fun a b : Estimacion.t =>
                sub (Bus.tiempoSegundos (Estimacion.proximoBus a))
                    (Bus.tiempoSegundos (Estimacion.proximoBus b))).
  set (f := List.filter _ _).
  assert (forall e, In e f -> busConHora horaLocal now (Estimacion.proximoBus e)) as Hf.
  { intros e He. apply filter_In in He as [He Hg].
    apply in_map_iff in He as (r & <- & _).
    destruct (buses_de_estimacion horaLocal now r) as (H & _).
    by apply bus_con_hora. }
  split; [|split].
  - rewrite length_map, (Permutation_length (sort_Permutation cmp f)).
    unfold f. etrans; [apply filter_length_le|]. by rewrite length_map.
  - rewrite Forall_map. apply Forall_forall. intros e He.
    apply list_elem_of_In, sort_In in He.
    cbn [Consultas.posicion Consultas.Posicion.proximoBus].
    by apply (conHora_busInfo now), Hf.
  - apply ordenada_map.
    apply (ordenada_impl
             (fun a b => leb (Bus.tiempoSegundos (Estimacion.proximoBus a))
                             (Bus.tiempoSegundos (Estimacion.proximoBus b)) = true)).
    + intros a b Ha Hb Hab. apply sort_In in Ha, Hb.
      destruct (Hf a Ha) as (ta & Hta & Hsa & Hma & _).
      destruct (Hf b Hb) as (tb & Htb & Hsb & Hmb & _).
      rewrite Hsa, Hsb, leb_of_Z in Hab. apply Z.leb_le in Hab.
      exists ((ta + 30) / 60), ((tb + 30) / 60).
      cbn [Consultas.posicion Consultas.Posicion.proximoBus Consultas.busInfo
           Consultas.BusInfo.tiempoMinutos].
      split; [done|]. split; [done|]. split; [apply Z.div_pos; lia|].
      apply Z.div_le_mono; lia.
    + apply sort_ordenada.
      * intros a b Ha Hb Hp.
        destruct (Hf a Ha) as (ta & _ & Hsa & _), (Hf b Hb) as (tb & _ & Hsb & _).
        unfold cmp in Hp. rewrite Hsa, Hsb in *.
        rewrite is_positive_sub in Hp by apply of_Z_no_NaN.
        by apply negb_false_iff in Hp.
      * intros a b Ha Hb Hp.
        destruct (Hf a Ha) as (ta & _ & Hsa & _), (Hf b Hb) as (tb & _ & Hsb & _).
        unfold cmp in Hp. rewrite Hsa, Hsb in *.
        rewrite is_positive_sub in Hp by apply of_Z_no_NaN.
        apply negb_true_iff in Hp. apply leb_total; [apply of_Z_no_NaN..|done].
      * intros a b c _ _ _. apply leb_trans.
Qed.

Lemma estimaciones_linea_Ok (numero_linea : string) (now : Z) (st st' : state)
    (linea : Consultas.Sujeto.t) (n : nat) (ps : list Consultas.Posicion.t) (t : Z) :
  Consultas.estimaciones_linea server horaLocal numero_linea now st
  = (Ok (Consultas.ok (Consultas.LineaConEstimaciones linea n ps t)), st') ->
  exists res mapa,
    resources res <> []
    /\ n = length (resources res)
    /\ ps = Consultas.posicionesBuses mapa (map (mapEstimacion horaLocal now) (resources res)).
Proof.
  unfold Consultas.estimaciones_linea. unfold bind at 1.
  destruct (getLineaByNumero server (VStr numero_linea) st) as [[l|e] st1]; [|done].
  unfold bind at 1.
  destruct (getEstimacionesByLinea server horaLocal (VStr numero_linea) now st1)
    as [[ests|e] st2] eqn:Hests; [|done].
  apply getEstimacionesByLinea_Ok in Hests as [res ->].
  destruct (map (mapEstimacion horaLocal now) (resources res)) as [|e0 l0] eqn:El;
    [unfold ret; intros [=]|].
  rewrite <- El. unfold bind at 1.
  destruct (Consultas.intenta _ _ st2) as [[mapa|e] st3]; [|done].
  unfold ret. intros H. injection H as Hp Hn He Ht Hs. subst linea n ps.
  exists res, mapa. split; [by destruct (resources res)|].
  by rewrite length_map.
Qed.

(** X15. In an answer of [estimaciones_linea] that lists buses, every bus
    listed has its minutes and its clock time, the buses come by
    increasing minutes, and there are no more of them than
    [totalParadasConBuses], which also counts the stops whose bus has no
    time. *)
Theorem estimaciones_linea_ordenadas (numero_linea : string) (now : Z) (st st' : state)
    (linea : Consultas.Sujeto.t) (totalParadasConBuses : nat)
    (posicionesBuses : list Consultas.Posicion.t) (consultadoEn : Z) :
  Consultas.estimaciones_linea server horaLocal numero_linea now st
  = (Ok (Consultas.ok (Consultas.LineaConEstimaciones
                         linea totalParadasConBuses posicionesBuses consultadoEn)), st') ->
  (length posicionesBuses <= totalParadasConBuses)%nat
  /\ Forall (fun p => conHora (Consultas.Posicion.proximoBus p)) posicionesBuses
  /\ ordenada llegaAntes posicionesBuses.
Proof.
  intros H. apply estimaciones_linea_Ok in H as (res & mapa & _ & -> & ->).
  apply posiciones_ordenadas.
Qed.

(** X16. [estimaciones_linea] does not fail when the list of stops cannot
    be fetched: once the line and its estimates are in, a failed request
    for the stops leaves the same buses listed, each with the stop name
    [null]. *)
Theorem estimaciones_linea_sin_paradas (numero_linea : string) (now : Z)
    (st st1 st2 : state) (linea : option Linea.t) (ests : list Estimacion.t) (e : error) :
  getLineaByNumero server (VStr numero_linea) st = (Ok linea, st1) ->
  getEstimacionesByLinea server horaLocal (VStr numero_linea) now st1 = (Ok ests, st2) ->
  ests <> [] ->
  server (length (peticiones st2)) {| endpoint_of := paradas; query := None |} = Throw e ->
  exists sujeto st',
    Consultas.estimaciones_linea server horaLocal numero_linea now st
    = (Ok (Consultas.ok (Consultas.LineaConEstimaciones
                           sujeto (length ests) (Consultas.posicionesBuses ∅ ests) now)),
       st')
    /\ Forall (fun p => Consultas.Posicion.nombreParada p = VNull)
         (Consultas.posicionesBuses ∅ ests).
Proof.
  intros Hl Hests Hne Hfail. unfold Consultas.estimaciones_linea.
  rewrite (bind_paso _ _ _ _ _ Hl), (bind_paso _ _ _ _ _ Hests).
  destruct ests as [|e0 l0]; [done|].
  assert (exists st3,
             Consultas.intenta
               (bind (getParadas server) (fun ps => ret (Consultas.paradasMap ps))) ∅ st2
             = (Ok ∅, st3)) as [st3 Hm].
  { unfold Consultas.intenta, bind, getParadas, bind, fetchAllPages.
    rewrite Hfail. eauto. }
  rewrite (bind_paso _ _ _ _ _ Hm). unfold ret. eexists _, _. split; [reflexivity|].
  unfold Consultas.posicionesBuses. rewrite Forall_map. apply Forall_forall. intros x _.
  cbn [Consultas.posicion Consultas.Posicion.nombreParada]. by rewrite lookup_empty.
Qed.

End Estimaciones.

(* ===================================================================== *)
(** * The query tools on the sample service                                *)
(* ===================================================================== *)

Lemma secuencia15_llamada :
  getSecuenciaLinea (Muestra.servicio Muestra.sinParadas) (VStr "15") VNull estado_inicial
  = (Ok Muestra.secuencia15, Muestra.estadoSecuencia15).
Proof. ejecuta. Qed.

Lemma infoLinea15_llamada :
  Consultas.info_linea (Muestra.servicio Muestra.sinParadas) "15" Consultas.ambos
    estado_inicial
  = (Ok (Consultas.ok Muestra.infoLinea15), Muestra.estadoInfoLinea15).
Proof. ejecuta. Qed.

Lemma estimaciones539_llamada :
  Consultas.estimaciones_parada (Muestra.servicio Muestra.conParadas) reloj "539" 1000
    estado_inicial
  = (Ok (Consultas.ok (Consultas.ParadaConEstimaciones
                         Muestra.sujeto539 3 Muestra.estimaciones539 1000)),
     Muestra.estadoEstimaciones539).
Proof. ejecuta. Qed.

Lemma posiciones15_llamada :
  Consultas.estimaciones_linea (Muestra.servicio Muestra.sinParadas) reloj "15" 1000
    estado_inicial
  = (Ok (Consultas.ok (Consultas.LineaConEstimaciones
                         Muestra.sujeto15 3 Muestra.posiciones15 1000)),
     Muestra.estadoPosiciones15).
Proof. ejecuta. Qed.

Lemma linea15_llamada :
  getLineaByNumero (Muestra.servicio Muestra.sinParadas) (VStr "15") estado_inicial
  = (Ok Muestra.linea15, Muestra.estadoLinea15).
Proof. ejecuta. Qed.

Lemma estimacionesLinea15_llamada :
  getEstimacionesByLinea (Muestra.servicio Muestra.sinParadas) reloj (VStr "15") 1000
    Muestra.estadoLinea15
  = (Ok Muestra.estimacionesLinea15, Muestra.estadoEstimacionesLinea15).
Proof. ejecuta. Qed.

Lemma ejemplo_secuencia_completa :
  exists q res,
    consultaSecuencia (VStr "15") VNull = Ok q
    /\ Muestra.servicio Muestra.sinParadas (length (peticiones estado_inicial))
         {| endpoint_of := secuencia; query := Some q |} = Ok res
    /\ Permutation Muestra.secuencia15 (map secuenciaParada (resources res))
    /\ peticiones Muestra.estadoSecuencia15
       = peticiones estado_inicial ++ [{| endpoint_of := secuencia; query := Some q |}].
Proof.
  exact (getSecuenciaLinea_completa (Muestra.servicio Muestra.sinParadas) (VStr "15") VNull
           estado_inicial Muestra.estadoSecuencia15 Muestra.secuencia15
           secuencia15_llamada).
Defined.

Lemma ejemplo_secuencia_ordenada : ordenada antesEnRuta Muestra.secuencia15.
Proof.
  apply (getSecuenciaLinea_ordenada (Muestra.servicio Muestra.sinParadas) (VStr "15") VNull
           estado_inicial Muestra.estadoSecuencia15 Muestra.secuencia15
           secuencia15_llamada).
  unfold Muestra.secuencia15.
  repeat (apply List.Forall_cons; [split; discriminate|]). apply List.Forall_nil.
Defined.

Lemma ejemplo_info_linea_rutas :
  exists sentidoNum secuencia st1,
    getSecuenciaLinea (Muestra.servicio Muestra.sinParadas) (VStr "15") sentidoNum st1
    = (Ok secuencia, Muestra.estadoInfoLinea15)
    /\ Consultas.InfoLinea.totalParadas Muestra.infoLinea15 = length secuencia
    /\ NoDup (map fst (Consultas.InfoLinea.rutas Muestra.infoLinea15))
    /\ (forall k g,
           In (k, g) (Consultas.InfoLinea.rutas Muestra.infoLinea15)
           <-> (k = "ida" \/ k = "vuelta")
               /\ delSentido k secuencia <> []
               /\ g = imap enOrden (delSentido k secuencia))
    /\ list_sum (map (fun kv => length (snd kv))
                   (Consultas.InfoLinea.rutas Muestra.infoLinea15))
       = Consultas.InfoLinea.totalParadas Muestra.infoLinea15.
Proof.
  exact (info_linea_rutas (Muestra.servicio Muestra.sinParadas) "15" Consultas.ambos
           estado_inicial Muestra.estadoInfoLinea15 Muestra.infoLinea15
           infoLinea15_llamada).
Defined.

Lemma ejemplo_info_linea_error :
  exists linea st1 sentidoNum secuencia,
    getLineaByNumero (Muestra.servicio Muestra.sinParadas) (VStr "15") estado_inicial
    = (Ok linea, st1)
    /\ getSecuenciaLinea (Muestra.servicio Muestra.sinParadas) (VStr "15") sentidoNum st1
       = (Ok secuencia, Muestra.estadoInfoLinea15)
    /\ (secuencia = []
        <-> exists m, Consultas.ok Muestra.infoLinea15 = Consultas.err m)
    /\ (forall d, Consultas.ok Muestra.infoLinea15 = Consultas.ok d -> linea = None ->
                  Consultas.InfoLinea.linea d
                  = {| Consultas.LineaInfo.numero := VStr "15";
                       Consultas.LineaInfo.nombre := VStr "No disponible";
                       Consultas.LineaInfo.id := VUndefined |}).
Proof.
  exact (info_linea_error (Muestra.servicio Muestra.sinParadas) "15" Consultas.ambos
           estado_inicial Muestra.estadoInfoLinea15 (Consultas.ok Muestra.infoLinea15)
           infoLinea15_llamada).
Defined.

Lemma ejemplo_estimaciones_parada :
  3%nat = length Muestra.estimaciones539
  /\ (0 < 3)%nat
  /\ Forall (fun e => match Consultas.EstimacionParada.segundoBus e with
                      | Some b => conHora b
                      | None => True
                      end) Muestra.estimaciones539.
Proof.
  exact (estimaciones_parada_segundoBus (Muestra.servicio Muestra.conParadas) reloj "539"
           1000 estado_inicial Muestra.estadoEstimaciones539 Muestra.sujeto539 3
           Muestra.estimaciones539 1000 estimaciones539_llamada).
Defined.

Lemma ejemplo_estimaciones_linea :
  (length Muestra.posiciones15 <= 3)%nat
  /\ Forall (fun p => conHora (Consultas.Posicion.proximoBus p)) Muestra.posiciones15
  /\ ordenada llegaAntes Muestra.posiciones15.
Proof.
  exact (estimaciones_linea_ordenadas (Muestra.servicio Muestra.sinParadas) reloj "15" 1000
           estado_inicial Muestra.estadoPosiciones15 Muestra.sujeto15 3
           Muestra.posiciones15 1000 posiciones15_llamada).
Defined.

Lemma ejemplo_estimaciones_sin_paradas :
  exists sujeto st',
    Consultas.estimaciones_linea (Muestra.servicio Muestra.sinParadas) reloj "15" 1000
      estado_inicial
    = (Ok (Consultas.ok (Consultas.LineaConEstimaciones
                           sujeto (length Muestra.estimacionesLinea15)
                           (Consultas.posicionesBuses ∅ Muestra.estimacionesLinea15) 1000)),
       st')
    /\ Forall (fun p => Consultas.Posicion.nombreParada p = VNull)
         (Consultas.posicionesBuses ∅ Muestra.estimacionesLinea15).
Proof.
  apply (estimaciones_linea_sin_paradas (Muestra.servicio Muestra.sinParadas) reloj "15"
           1000 estado_inicial Muestra.estadoLinea15 Muestra.estadoEstimacionesLinea15
           Muestra.linea15 Muestra.estimacionesLinea15 (HttpError "Error HTTP 503")
           linea15_llamada estimacionesLinea15_llamada).
  - discriminate.
  - reflexivity.
Defined.

(* ===================================================================== *)
(** * More on [planificarRuta] and [ruta_desde_nombres]                    *)
(* ===================================================================== *)

(** ** The requests of a plan *)

Lemma pide_ret {A} (a : A) : pide 0 0 (ret a).
Proof. intros st. cbn. split; [lia|]. intros _ _. lia. Qed.

Lemma pide_lift {A} (r : result A) : pide 0 0 (lift r).
Proof. intros st. cbn. split; [lia|]. intros _ _. lia. Qed.

Lemma pide_bind {A B} (lo1 hi1 lo2 hi2 : nat) (m : M A) (k : A -> M B) :
  pide lo1 hi1 m -> (forall a, pide lo2 hi2 (k a)) ->
  pide (lo1 + lo2) (hi1 + hi2) (bind m k).
Proof.
  intros Hm Hk st. unfold bind. destruct (Hm st) as [Hhi Hlo].
  destruct (m st) as [[a|e] st1]; cbn [fst snd] in *.
  - destruct (Hk a st1) as [Hhi2 Hlo2]. specialize (Hlo a eq_refl).
    split; [lia|]. intros b Hb. specialize (Hlo2 b Hb). lia.
  - split; [lia|]. intros b [=].
Qed.

Lemma pide_mas {A} (lo hi lo' hi' : nat) (m : M A) :
  (lo' <= lo)%nat -> (hi <= hi')%nat -> pide lo hi m -> pide lo' hi' m.
Proof.
  intros Hlo Hhi Hm st. destruct (Hm st) as [H1 H2]. split; [lia|].
  intros a Ha. specialize (H2 a Ha). lia.
Qed.

Section Peticiones.

Variable server : nat -> request -> result response.
Variable horaLocal : Z -> string.

Lemma pide_fetchAllPages (ep : endpoint) (q : option string) :
  pide 1 1 (fetchAllPages server ep q).
Proof.
  intros st. unfold fetchAllPages. cbn [fst snd peticiones].
  rewrite length_app. cbn [length]. split; [lia|]. intros _ _. lia.
Qed.

Lemma pide_cache (now : Z) : pide 0 1 (getTodasEstimacionesCached server now).
Proof.
  intros st. unfold getTodasEstimacionesCached.
  assert (pide 0 1
            (bind (fetchAllPages server estimaciones None)
               (fun result => bind (set_cache {| data := Some result; ts := now |})
                                (fun _ => ret result)))) as Hre.
  { apply (pide_mas 1 1); [lia|lia|].
    apply (pide_bind 1 1 0 0); [apply pide_fetchAllPages|]. intros result.
    apply (pide_bind 0 0 0 0); [|intros; apply pide_ret].
    intros st0. cbn. split; [lia|]. intros _ _. lia. }
  destruct (data (_cache st)) as [snap|]; [|apply Hre].
  destruct (now - ts (_cache st) <? CACHE_TTL_MS); [|apply Hre].
  cbn. split; [lia|]. intros _ _. lia.
Qed.

Lemma pide_obtenerDatos (o d : value) (now : Z) :
  pide 3 6 (obtenerDatos server horaLocal o d now).
Proof.
  unfold obtenerDatos.
  apply (pide_bind 0 0 3 6); [apply pide_lift|]. intros so.
  apply (pide_bind 1 1 2 5); [apply pide_fetchAllPages|]. intros resO.
  apply (pide_bind 0 0 2 5); [apply pide_lift|]. intros sd.
  apply (pide_bind 1 1 1 4); [apply pide_fetchAllPages|]. intros resD.
  apply (pide_bind 0 0 1 4); [apply pide_lift|]. intros qo.
  apply (pide_bind 0 0 1 4); [apply pide_lift|]. intros qd.
  apply (pide_bind 0 1 1 3).
  { destruct (lineasUnicas _); [apply (pide_mas 0 0), pide_ret; lia|].
    apply (pide_mas 1 1), pide_fetchAllPages; lia. }
  intros seqO. apply (pide_bind 0 1 1 2).
  { destruct (lineasUnicas _); [apply (pide_mas 0 0), pide_ret; lia|].
    apply (pide_mas 1 1), pide_fetchAllPages; lia. }
  intros seqD. apply (pide_bind 1 1 0 1).
  { unfold getEstimacionesByParada.
    apply (pide_bind 0 0 1 1); [apply pide_lift|]. intros s.
    apply (pide_bind 1 1 0 0); [apply pide_fetchAllPages|]. intros res. apply pide_ret. }
  intros ests. apply (pide_bind 0 1 0 0); [apply pide_cache|]. intros todas.
  apply pide_ret.
Qed.

(** X17. A call of [planificarRuta] that returns has sent between three
    and six requests to the service, however many lines stop at the two
    stops. *)
Theorem planificarRuta_peticiones (o d : value) (now : Z) (st st' : state) (plan : Plan.t) :
  planificarRuta server horaLocal o d now st = (Ok plan, st') ->
  (length (peticiones st) + 3 <= length (peticiones st') <= length (peticiones st) + 6)%nat.
Proof.
  intros H.
  assert (pide 3 6 (planificarRuta server horaLocal o d now)) as Hp.
  { unfold planificarRuta. apply (pide_bind 0 0 3 6).
    - intros st0. cbn. split; [lia|]. intros _ _. lia.
    - intros _. apply (pide_bind 3 6 0 0); [apply pide_obtenerDatos|].
      intros dt. apply pide_lift. }
  destruct (Hp st) as [Hhi Hlo]. rewrite H in Hhi, Hlo. cbn [fst snd] in *.
  specialize (Hlo plan eq_refl). lia.
Qed.

End Peticiones.

(** ** The stop of a transfer *)

Lemma rutasTransbordo_guardas o d so sd seqs mapa Lo Ld r :
  In r (rutasTransbordo o d so sd seqs mapa Lo Ld) ->
  exists pi li ld seqOrigen,
    opt_str_eq pi (Some so) = false /\ opt_str_eq pi (Some sd) = false
    /\ In ld Ld /\ enlaza li ld = true
    /\ r = rutaTransbordo o d Lo pi li ld seqOrigen.
Proof.
  unfold rutasTransbordo. intros H.
  apply in_flat_map in H as (pi & _ & H).
  destruct (opt_str_eq pi (Some so)) eqn:Eo; [done|].
  destruct (opt_str_eq pi (Some sd)) eqn:Ed; [done|]. cbn [orb] in H.
  apply in_flat_map in H as (li & _ & H).
  apply in_flat_map in H as (ld & Hld & H).
  destruct (enlaza li ld) eqn:E; [|done].
  destruct (seqOrigenDe seqs Lo pi) as [seqOrigen|]; [|done].
  destruct H as [<-|[]]. by exists pi, li, ld, seqOrigen.
Qed.

Lemma opt_str_eq_false (pi : option string) (s : string) :
  opt_str_eq pi (Some s) = false -> of_opt_string pi <> VStr s.
Proof.
  destruct pi as [k|]; cbn; [|done]. intros E [= ->]. by rewrite String.eqb_refl in E.
Qed.

Section Transbordo.

Variable server : nat -> request -> result response.
Variable horaLocal : Z -> string.

(** X18. In every route with a transfer that [planificarRuta] returns,
    the two legs name the same transfer stop, which is neither the stop
    of origin nor the stop of destination; the first leg leaves from the
    origin that was asked for and the second arrives at the
    destination. *)
Theorem transbordo_fuera_de_los_extremos (o d : value) (now : Z) (st st' : state)
    (plan : Plan.t) (r : Transbordo.t) :
  planificarRuta server horaLocal o d now st = (Ok plan, st') ->
  In r (Plan.rutasConTransbordo plan) ->
  Parada.numero (Tramo1.paradaTransbordo (Transbordo.tramo1 r))
  = Parada.numero (Tramo2.paradaTransbordo (Transbordo.tramo2 r))
  /\ Parada.numero (Tramo1.paradaTransbordo (Transbordo.tramo1 r)) <> VStr (to_string o)
  /\ Parada.numero (Tramo1.paradaTransbordo (Transbordo.tramo1 r)) <> VStr (to_string d)
  /\ Parada.numero (Tramo1.paradaOrigen (Transbordo.tramo1 r)) = o
  /\ Parada.numero (Tramo2.paradaDestino (Transbordo.tramo2 r)) = d.
Proof.
  intros Hplan Hr.
  destruct (planificarRuta_Ok _ _ _ _ _ _ _ _ Hplan) as (dt & _ & Hp).
  destruct (planificar_Ok _ _ _ _ _ Hp) as (activas & directas & _ & _ & _ & Ht & _).
  rewrite Ht in Hr. unfold busquedaTransbordo in Hr.
  destruct (Plan.rutasDirectas plan); [|by rewrite firstn_nil in Hr].
  assert (In r (List.filter (ambasActivas activas)
                  (rutasTransbordo o d (to_string o) (to_string d)
                     (resources (resSeqLineasOrigen dt))
                     (paradaALineas (resources (resSeqLineasOrigen dt)
                                     ++ resources (resSeqLineasDestino dt)))
                     (lineasOrigen dt) (lineasDestino dt)))) as Hr'.
  { rewrite <- (firstn_skipn 5 (List.filter _ _)). rewrite in_app_iff. auto. }
  apply filter_In in Hr' as [Hr' _].
  apply rutasTransbordo_guardas in Hr' as (pi & li & ld & seqOrigen & Ho & Hd & _ & _ & ->).
  cbn. split; [done|]. split; [by apply opt_str_eq_false|].
  split; [by apply opt_str_eq_false|done].
Qed.

End Transbordo.

(** ** The stops [ruta_desde_nombres] chooses *)

Section DesdeNombres.

Variable server : nat -> request -> result response.
Variable horaLocal : Z -> string.

(** X19. [ruta_desde_nombres] searches both names; when either search
    finds no stop it answers with an error and [planificarRuta] is not
    called; otherwise it plans between the first stop of each search and
    lists, for each name, the next stops found, three at most. *)
Theorem ruta_desde_nombres_paradas (origen destino : string) (now : Z) (st st' : state)
    (r : Index.respuesta) :
  Index.ruta_desde_nombres server horaLocal origen destino now st = (Ok r, st') ->
  exists paradasOrigen st1 paradasDestino st2,
    buscarParadas server origen st = (Ok paradasOrigen, st1)
    /\ buscarParadas server destino st1 = (Ok paradasDestino, st2)
    /\ match paradasOrigen, paradasDestino with
       | po :: otrasOrigen, pd :: otrasDestino =>
           exists bo bd plan resumen,
             r = Index.ok (Index.RutaDesdeNombres bo bd plan resumen)
             /\ planificarRuta server horaLocal (ParadaBus.numero po) (ParadaBus.numero pd)
                  now st2 = (Ok plan, st')
             /\ Index.Busqueda.paradaSeleccionada bo = po
             /\ Index.Busqueda.paradaSeleccionada bd = pd
             /\ Index.Busqueda.otrasParadasEncontradas bo = firstn 3 otrasOrigen
             /\ Index.Busqueda.otrasParadasEncontradas bd = firstn 3 otrasDestino
       | _, _ => (exists m, r = Index.err m) /\ st' = st2 /\ llamadas st' = llamadas st
       end.
Proof.
  unfold Index.ruta_desde_nombres. unfold bind at 1.
  destruct (buscarParadas server origen st) as [[ps1|e] st1] eqn:H1; [|done].
  unfold bind at 1.
  destruct (buscarParadas server destino st1) as [[ps2|e] st2] eqn:H2; [|done].
  intros H. exists ps1, st1, ps2, st2. split; [done|]. split; [done|].
  assert (llamadas st2 = llamadas st) as Hll.
  { pose proof (sin_llamadas_buscarParadas server origen st) as L1.
    pose proof (sin_llamadas_buscarParadas server destino st1) as L2.
    rewrite H1 in L1. rewrite H2 in L2. cbn [snd] in *. congruence. }
  destruct ps1 as [|po otrasOrigen]; [|destruct ps2 as [|pd otrasDestino]].
  - unfold ret in H. injection H as <- <-. eauto.
  - unfold ret in H. injection H as <- <-. eauto.
  - unfold bind in H.
    destruct (planificarRuta server horaLocal _ _ now st2) as [[plan|e] st3] eqn:Hp; [|done].
    unfold ret in H. injection H as <- <-.
    eexists _, _, plan, _. split; [reflexivity|]. by repeat split.
Qed.

End DesdeNombres.

(** ** On the sample feeds *)

Lemma rutaNombres_llamada :
  Index.ruta_desde_nombres (servidor conDirecta) reloj
    "Valdecilla" "Hospital Valdecilla" 1000 estado_inicial
  = (Ok Muestra.rutaNombres, Muestra.estadoRutaNombres).
Proof. ejecuta. Qed.

Lemma ejemplo_peticiones_del_plan :
  (length (peticiones estado_inicial) + 3 <= length (peticiones estadoConDirecta)
   <= length (peticiones estado_inicial) + 6)%nat.
Proof.
  exact (planificarRuta_peticiones (servidor conDirecta) reloj (VStr "539") (VStr "1234")
           1000 estado_inicial estadoConDirecta planConDirecta llamada_conDirecta).
Defined.

Lemma ejemplo_transbordo_en_200 :
  Parada.numero (Tramo1.paradaTransbordo (Transbordo.tramo1 Muestra.primerTransbordo))
  = Parada.numero (Tramo2.paradaTransbordo (Transbordo.tramo2 Muestra.primerTransbordo))
  /\ Parada.numero (Tramo1.paradaTransbordo (Transbordo.tramo1 Muestra.primerTransbordo))
     <> VStr "539"
  /\ Parada.numero (Tramo1.paradaTransbordo (Transbordo.tramo1 Muestra.primerTransbordo))
     <> VStr "1234"
  /\ Parada.numero (Tramo1.paradaOrigen (Transbordo.tramo1 Muestra.primerTransbordo))
     = VStr "539"
  /\ Parada.numero (Tramo2.paradaDestino (Transbordo.tramo2 Muestra.primerTransbordo))
     = VStr "1234".
Proof.
  apply (transbordo_fuera_de_los_extremos (servidor sinDirecta) reloj
           (VStr "539") (VStr "1234") 1000 estado_inicial estadoSinDirecta
           planSinDirecta Muestra.primerTransbordo llamada_sinDirecta).
  vm_compute. left. reflexivity.
Defined.

Lemma ejemplo_paradas_elegidas :
  exists paradasOrigen st1 paradasDestino st2,
    buscarParadas (servidor conDirecta) "Valdecilla" estado_inicial = (Ok paradasOrigen, st1)
    /\ buscarParadas (servidor conDirecta) "Hospital Valdecilla" st1
       = (Ok paradasDestino, st2)
    /\ match paradasOrigen, paradasDestino with
       | po :: otrasOrigen, pd :: otrasDestino =>
           exists bo bd plan resumen,
             Muestra.rutaNombres = Index.ok (Index.RutaDesdeNombres bo bd plan resumen)
             /\ planificarRuta (servidor conDirecta) reloj
                  (ParadaBus.numero po) (ParadaBus.numero pd) 1000 st2
                = (Ok plan, Muestra.estadoRutaNombres)
             /\ Index.Busqueda.paradaSeleccionada bo = po
             /\ Index.Busqueda.paradaSeleccionada bd = pd
             /\ Index.Busqueda.otrasParadasEncontradas bo = firstn 3 otrasOrigen
             /\ Index.Busqueda.otrasParadasEncontradas bd = firstn 3 otrasDestino
       | _, _ =>
           (exists m, Muestra.rutaNombres = Index.err m)
           /\ Muestra.estadoRutaNombres = st2
           /\ llamadas Muestra.estadoRutaNombres = llamadas estado_inicial
       end.
Proof.
  exact (ruta_desde_nombres_paradas (servidor conDirecta) reloj
           "Valdecilla" "Hospital Valdecilla" 1000 estado_inicial
           Muestra.estadoRutaNombres Muestra.rutaNombres rutaNombres_llamada).
Defined.

(* ===================================================================== *)
(** * [fetchAllPages], page by page                                        *)
(* ===================================================================== *)

Section Paginas.

Variable fetch : nat -> Http.Url.t -> result Http.Response.t.

Lemma pageRequests_spec (u : Http.Url.t) (pags : list Z) (enviadas : list Http.Url.t) :
  Http.pageRequests fetch u pags enviadas
  = (imap (fun i page => fetch (length enviadas + i)%nat (Http.conPagina u page)) pags,
     enviadas ++ map (Http.conPagina u) pags).
Proof.
  revert enviadas. induction pags as [|page pags IH]; intros enviadas.
  - cbn. by rewrite app_nil_r.
  - cbn [Http.pageRequests Http.envia]. rewrite IH. cbn [imap map].
    rewrite Nat.add_0_r, <- app_assoc. cbn [app]. f_equal. f_equal.
    apply imap_ext. intros i p _. cbn. rewrite length_app. cbn [length].
    f_equal. lia.
Qed.

(** X20. [fetchAllPages] always sends the request for the first page, with
    500 items per page and the query, if there is one.  It sends others
    only when the first answer is in order and its summary counts more
    than one page: then one request for each page from the second to the
    last, in order and with the same parameters, each sent whatever
    becomes of the others. *)
Theorem fetchAllPages_peticiones (ep : endpoint) (query : option string)
    (enviadas : list Http.Url.t) :
  let url := Http.urlDe ep query in
  exists pags,
    snd (Http.fetchAllPages fetch ep query enviadas)
    = enviadas ++ url :: map (Http.conPagina url) pags
    /\ (pags = []
        \/ exists firstRes firstData summary,
             fetch (length enviadas) url = Ok firstRes
             /\ Http.Response.ok firstRes = true
             /\ Http.Response.json firstRes = Ok firstData
             /\ Http.Body.summary firstData = Some summary
             /\ Http.masDeUna (Http.Summary.pages summary) = true
             /\ pags = Http.paginas (Http.Summary.pages summary))
    /\ Http.Url.searchParams url
       = ("items_per_page", "500")
         :: match query with Some q => [("query", q)] | None => [] end.
Proof.
  intros url. unfold Http.fetchAllPages. fold url. cbn [Http.envia].
  assert (Http.Url.searchParams url
          = ("items_per_page", "500")
            :: match query with Some q => [("query", q)] | None => [] end) as Hurl.
  { unfold url, Http.urlDe. by destruct query. }
  destruct (fetch (length enviadas) url) as [firstRes|e] eqn:Hf;
    [|exists []; cbn; auto].
  destruct (Http.Response.ok firstRes) eqn:Hok; cbn [negb];
    [|exists []; cbn; auto].
  destruct (Http.Response.json firstRes) as [firstData|e] eqn:Hj;
    [|exists []; cbn; auto].
  destruct (Http.Body.summary firstData) as [summary|] eqn:Hs;
    [|exists []; cbn; auto].
  destruct (Http.masDeUna (Http.Summary.pages summary)) eqn:Hm;
    [|exists []; cbn; auto].
  rewrite pageRequests_spec. exists (Http.paginas (Http.Summary.pages summary)).
  cbn [snd]. rewrite <- app_assoc. split; [done|]. split; [|done].
  right. by exists firstRes, firstData, summary.
Qed.

Lemma mapR_cuerpos (rs : list (result Http.Response.t)) (bodies : list Http.Body.t) :
  length bodies = length rs ->
  (forall i r b, rs !! i = Some r -> bodies !! i = Some b -> Http.cuerpoDe r = Ok b) ->
  mapR Http.cuerpoDe rs = Ok bodies.
Proof.
  revert bodies. induction rs as [|r rs IH]; intros [|b bodies] Hlen H; try done.
  cbn [mapR]. rewrite (H 0%nat r b eq_refl eq_refl). cbn [bindR].
  rewrite (IH bodies); [done|by injection Hlen|].
  intros i r' b' Hr Hb. by apply (H (S i)).
Qed.

Lemma fold_left_concat {A B} (f : B -> list A) (l : list B) (acc : list A) :
  fold_left (fun acc x => acc ++ f x) l acc = acc ++ concat (map f l).
Proof.
  revert acc. induction l as [|x l IH]; intros acc; cbn.
  - by rewrite app_nil_r.
  - by rewrite IH, app_assoc.
Qed.

(** X21. When the first answer is in order and every later page arrives
    and parses, [fetchAllPages] returns the records of the first page
    followed by those of the later pages, in the order of the pages, and
    as [total] the [items] of the first summary; a page without
    [resources] adds nothing. *)
Theorem fetchAllPages_paginas (ep : endpoint) (query : option string)
    (enviadas : list Http.Url.t) (firstRes : Http.Response.t) (firstData : Http.Body.t)
    (summary : Http.Summary.t) (bodies : list Http.Body.t) :
  let url := Http.urlDe ep query in
  let pags := if Http.masDeUna (Http.Summary.pages summary)
              then Http.paginas (Http.Summary.pages summary) else [] in
  fetch (length enviadas) url = Ok firstRes ->
  Http.Response.ok firstRes = true ->
  Http.Response.json firstRes = Ok firstData ->
  Http.Body.summary firstData = Some summary ->
  length bodies = length pags ->
  (forall i page b,
      pags !! i = Some page -> bodies !! i = Some b ->
      exists res, fetch (S (length enviadas) + i)%nat (Http.conPagina url page) = Ok res
                  /\ Http.Response.json res = Ok b) ->
  fst (Http.fetchAllPages fetch ep query enviadas)
  = Ok {| total := Http.Summary.items summary;
          resources :=
            default [] (Http.Body.resources firstData)
            ++ concat (map (fun b => default [] (Http.Body.resources b)) bodies) |}.
Proof.
  intros url pags Hf Hok Hj Hs Hlen Hpags.
  unfold Http.fetchAllPages. fold url. cbn [Http.envia].
  rewrite Hf, Hok, Hj, Hs. cbn [negb]. subst pags.
  destruct (Http.masDeUna (Http.Summary.pages summary)).
  - rewrite pageRequests_spec. cbn [fst].
    rewrite (mapR_cuerpos _ bodies).
    + cbn [bindR]. by rewrite fold_left_concat.
    + by rewrite length_imap.
    + intros i r b Hr Hb. rewrite list_lookup_imap in Hr.
      destruct (Http.paginas (Http.Summary.pages summary) !! i) as [page|] eqn:Hp; [|done].
      cbn in Hr. injection Hr as <-.
      destruct (Hpags i page b Hp Hb) as (res & Hres & Hb').
      rewrite length_app in *. cbn [length] in *.
      replace (length enviadas + 1 + i)%nat with (S (length enviadas) + i)%nat by lia.
      rewrite Hres. exact Hb'.
  - destruct bodies; [|done]. cbn. by rewrite app_nil_r.
Qed.

End Paginas.

Lemma mapR_imap_cuerpos (f g : nat -> Z -> result Http.Response.t) (l : list Z) :
  (forall i x, Http.cuerpoDe (f i x) = Http.cuerpoDe (g i x)) ->
  mapR Http.cuerpoDe (imap f l) = mapR Http.cuerpoDe (imap g l).
Proof.
  revert f g. induction l as [|x l IH]; intros f g H; [done|].
  cbn [imap mapR]. rewrite H.
  rewrite (IH (f ∘ S) (g ∘ S)); [done|]. intros i y. apply H.
Qed.

(** X22. Of the answers to the pages after the first, [fetchAllPages]
    reads the body alone: whether they are in order ([ok], [status]) is
    never looked at, so two networks that give the same first answer and
    the same bodies afterwards give the same result. *)
Theorem fetchAllPages_solo_cuerpos (fetch fetch' : nat -> Http.Url.t -> result Http.Response.t)
    (ep : endpoint) (query : option string) (enviadas : list Http.Url.t) :
  fetch (length enviadas) (Http.urlDe ep query)
  = fetch' (length enviadas) (Http.urlDe ep query) ->
  (forall n u, (length enviadas < n)%nat ->
               Http.cuerpoDe (fetch n u) = Http.cuerpoDe (fetch' n u)) ->
  Http.fetchAllPages fetch ep query enviadas = Http.fetchAllPages fetch' ep query enviadas.
Proof.
  intros H1 Hn. unfold Http.fetchAllPages. cbn [Http.envia]. rewrite <- H1.
  destruct (fetch (length enviadas) _) as [firstRes|e]; [|done].
  destruct (negb _); [done|].
  destruct (Http.Response.json firstRes) as [firstData|e]; [|done].
  destruct (Http.Body.summary firstData) as [summary|]; [|done].
  destruct (Http.masDeUna _); [|done].
  rewrite !pageRequests_spec. f_equal. f_equal.
  apply mapR_imap_cuerpos. intros i page. apply Hn. rewrite length_app. cbn. lia.
Qed.

(** ** On the sample network *)

Lemma ejemplo_tres_paginas :
  fst (Http.fetchAllPages Muestra.red paradas None [])
  = Ok {| total := VNum (of_Z 3);
          resources :=
            default [] (Http.Body.resources Muestra.pagina1)
            ++ concat (map (fun b => default [] (Http.Body.resources b))
                         [Muestra.pagina2; Muestra.pagina3]) |}.
Proof.
  apply (fetchAllPages_paginas Muestra.red paradas None []
           {| Http.Response.ok := true; Http.Response.status := 200;
              Http.Response.json := Ok Muestra.pagina1 |}
           Muestra.pagina1
           {| Http.Summary.pages := Some (3, 0); Http.Summary.items := VNum (of_Z 3) |}
           [Muestra.pagina2; Muestra.pagina3]); try reflexivity.
  intros [|[|i]] page b; cbn; intros [= <-] [= <-].
  - eexists. split; reflexivity.
  - eexists. split; reflexivity.
Defined.

Lemma ejemplo_paginas_sin_comprobar :
  Http.fetchAllPages Muestra.red paradas None []
  = Http.fetchAllPages Muestra.redEnOrden paradas None [].
Proof.
  apply (fetchAllPages_solo_cuerpos Muestra.red Muestra.redEnOrden paradas None []).
  - reflexivity.
  - intros [|n] u Hn; [cbn in Hn; lia|].
    unfold Muestra.redEnOrden. by destruct (Muestra.red (S n) u).
Defined.

(* ===================================================================== *)
(** * The legs of a transfer                                               *)
(* ===================================================================== *)

Lemma enParada_app (k : string) (l1 l2 : list record) :
  List.filter (enParada k) (l1 ++ l2)
  = List.filter (enParada k) l1 ++ List.filter (enParada k) l2.
Proof. apply List.filter_app. Qed.

Lemma paradaALineas_inv (ss l0 : list record) (m : gmap string (list Entry.t)) :
  (forall k, m !! k
             = if String.eqb k "" then None
               else match List.filter (enParada k) l0 with
                    | [] => None
                    | _ :: _ => Some (map seqToEntry (List.filter (enParada k) l0))
                    end) ->
  forall k,
    fold_left
      (fun (m : gmap string (list Entry.t)) s =>
         match opt_toString (field s "ayto:NParada") with
         | None => m
         | Some nParada =>
             if String.eqb nParada "" then m
             else <[nParada := default [] (m !! nParada) ++ [seqToEntry s]]> m
         end) ss m !! k
    = if String.eqb k "" then None
      else match List.filter (enParada k) (l0 ++ ss) with
           | [] => None
           | _ :: _ => Some (map seqToEntry (List.filter (enParada k) (l0 ++ ss)))
           end.
Proof.
  revert l0 m. induction ss as [|s ss IH]; intros l0 m Hm k.
  - cbn [fold_left]. rewrite app_nil_r. apply Hm.
  - cbn [fold_left]. replace (l0 ++ s :: ss) with ((l0 ++ [s]) ++ ss)
      by by rewrite <- app_assoc.
    apply IH. clear k. intros k. rewrite enParada_app.
    change (List.filter (enParada k) [s]) with (if enParada k s then [s] else []).
    destruct (opt_toString (field s "ayto:NParada")) as [n|] eqn:En.
    + assert (enParada k s = String.eqb n k) as -> by (unfold enParada; by rewrite En).
      destruct (String.eqb n "") eqn:E0.
      * apply String.eqb_eq in E0. subst n. rewrite Hm.
        destruct (String.eqb k "") eqn:Ek; [done|].
        rewrite String.eqb_sym, Ek, app_nil_r. done.
      * destruct (String.eqb n k) eqn:Enk.
        -- apply String.eqb_eq in Enk. subst n. rewrite lookup_insert_eq, E0.
           rewrite Hm, E0.
           destruct (List.filter (enParada k) l0) as [|x f]; [done|].
           rewrite map_app. reflexivity.
        -- apply String.eqb_neq in Enk. rewrite lookup_insert_ne by done.
           rewrite Hm, app_nil_r. done.
    + assert (enParada k s = false) as -> by (unfold enParada; by rewrite En).
      rewrite Hm, app_nil_r. done.
Qed.

Lemma paradaALineas_spec (ss : list record) (k : string) :
  paradaALineas ss !! k
  = if String.eqb k "" then None
    else match List.filter (enParada k) ss with
         | [] => None
         | _ :: _ => Some (map seqToEntry (List.filter (enParada k) ss))
         end.
Proof.
  unfold paradaALineas.
  rewrite (paradaALineas_inv ss [] ∅); [done|].
  intros k'. rewrite lookup_empty. by destruct (String.eqb k' "").
Qed.

(** X23. The [Map] from stop number to entries holds, under each stop
    number that is not empty, the entries of the records with that number
    in the order of the records, and has no key for a number without
    records, nor for the empty number. *)
Theorem paradaALineas_lookup (ss : list record) (k : string) :
  paradaALineas ss !! k
  = if String.eqb k "" then None
    else match List.filter (enParada k) ss with
         | [] => None
         | _ :: _ => Some (map seqToEntry (List.filter (enParada k) ss))
         end.
Proof. exact (paradaALineas_spec ss k). Qed.

Lemma rutasTransbordo_completo o d so sd seqs mapa Lo Ld r :
  In r (rutasTransbordo o d so sd seqs mapa Lo Ld) ->
  exists k li ld seqOrigen,
    In li (default [] (mapa !! k)) /\ In ld Ld /\ enlaza li ld = true
    /\ seqOrigenDe seqs Lo (Some k) = Some seqOrigen
    /\ r = rutaTransbordo o d Lo (Some k) li ld seqOrigen.
Proof.
  unfold rutasTransbordo. intros H.
  apply in_flat_map in H as (pi & _ & H).
  destruct (opt_str_eq pi (Some so) || opt_str_eq pi (Some sd)); [done|].
  apply in_flat_map in H as (li & Hli & H).
  apply in_flat_map in H as (ld & Hld & H).
  destruct (enlaza li ld) eqn:E; [|done].
  destruct (seqOrigenDe seqs Lo pi) as [seqOrigen|] eqn:Hs; [|done].
  destruct H as [<-|[]]. destruct pi as [k|]; [|done].
  by exists k, li, ld, seqOrigen.
Qed.

Section Tramos.

Variable server : nat -> request -> result response.
Variable horaLocal : Z -> string.

(** X24. In every route with a transfer that [planificarRuta] returns,
    the transfer stop is a stop of the sequences fetched at which both
    lines stop: the line of the first leg is a line of the origin stop
    with a record at the transfer stop, and the line of the second leg
    has a record at the transfer stop and reaches the destination in the
    same direction, at a position that is not smaller. *)
Theorem transbordo_con_paradas_reales (o d : value) (now : Z) (st st' : state)
    (plan : Plan.t) (dt : datos) (r : Transbordo.t) :
  planificarRuta server horaLocal o d now st = (Ok plan, st') ->
  obtenerDatos server horaLocal o d now (snd (registrarLlamada o d st)) = (Ok dt, st') ->
  In r (Plan.rutasConTransbordo plan) ->
  exists k seqOrigen s ld,
    Parada.numero (Tramo1.paradaTransbordo (Transbordo.tramo1 r)) = VStr k
    /\ In seqOrigen (resources (resSeqLineasOrigen dt))
    /\ enParada k seqOrigen = true
    /\ lineaDe seqOrigen = Tramo1.linea (Transbordo.tramo1 r)
    /\ sirveOrigen (lineasOrigen dt) (Tramo1.linea (Transbordo.tramo1 r)) = true
    /\ In s (resources (resSeqLineasOrigen dt) ++ resources (resSeqLineasDestino dt))
    /\ enParada k s = true
    /\ Entry.linea (seqToEntry s) = Tramo2.linea (Transbordo.tramo2 r)
    /\ In ld (lineasDestino dt)
    /\ enlaza (seqToEntry s) ld = true.
Proof.
  intros Hplan Hdatos Hr.
  pose proof (planificar_de_llamada server horaLocal o d now st st' plan dt Hplan Hdatos)
    as Hp.
  destruct (planificar_Ok _ _ _ _ _ Hp) as (activas & directas & _ & _ & _ & Ht & _).
  rewrite Ht in Hr. unfold busquedaTransbordo in Hr.
  destruct (Plan.rutasDirectas plan); [|by rewrite firstn_nil in Hr].
  assert (In r (List.filter (ambasActivas activas)
                  (rutasTransbordo o d (to_string o) (to_string d)
                     (resources (resSeqLineasOrigen dt))
                     (paradaALineas (resources (resSeqLineasOrigen dt)
                                     ++ resources (resSeqLineasDestino dt)))
                     (lineasOrigen dt) (lineasDestino dt)))) as Hr'.
  { rewrite <- (firstn_skipn 5 (List.filter _ _)). rewrite in_app_iff. auto. }
  apply filter_In in Hr' as [Hr' _].
  apply rutasTransbordo_completo in Hr' as (k & li & ld & seqOrigen & Hli & Hld & He & Hs & ->).
  rewrite paradaALineas_spec in Hli.
  destruct (String.eqb k ""); [done|].
  destruct (List.filter (enParada k) _) as [|x f] eqn:Ef; [done|]. rewrite <- Ef in Hli.
  cbn [default] in Hli. apply in_map_iff in Hli as (s & <- & Hs').
  apply filter_In in Hs' as [Hin Hk].
  unfold seqOrigenDe in Hs. apply find_some in Hs as [HinO Hb].
  apply andb_prop in Hb as [Hb1 Hb2].
  exists k, seqOrigen, s, ld. cbn. by repeat split.
Qed.

End Tramos.

Lemma ejemplo_transbordo_real :
  exists k seqOrigen s ld,
    Parada.numero (Tramo1.paradaTransbordo (Transbordo.tramo1 Muestra.primerTransbordo))
    = VStr k
    /\ In seqOrigen (resources (resSeqLineasOrigen datosSinDirecta))
    /\ enParada k seqOrigen = true
    /\ lineaDe seqOrigen = Tramo1.linea (Transbordo.tramo1 Muestra.primerTransbordo)
    /\ sirveOrigen (lineasOrigen datosSinDirecta)
         (Tramo1.linea (Transbordo.tramo1 Muestra.primerTransbordo)) = true
    /\ In s (resources (resSeqLineasOrigen datosSinDirecta)
             ++ resources (resSeqLineasDestino datosSinDirecta))
    /\ enParada k s = true
    /\ Entry.linea (seqToEntry s) = Tramo2.linea (Transbordo.tramo2 Muestra.primerTransbordo)
    /\ In ld (lineasDestino datosSinDirecta)
    /\ enlaza (seqToEntry s) ld = true.
Proof.
  apply (transbordo_con_paradas_reales (servidor sinDirecta) reloj
           (VStr "539") (VStr "1234") 1000 estado_inicial estadoSinDirecta
           planSinDirecta datosSinDirecta Muestra.primerTransbordo
           llamada_sinDirecta peticiones_sinDirecta).
  vm_compute. left. reflexivity.
Defined.

(* ===================================================================== *)
(** * [getParadasCercanas]                                                 *)
(* ===================================================================== *)

Lemma ordenada_app {A} (R : A -> A -> Prop) (l1 l2 : list A) :
  ordenada R (l1 ++ l2) ->
  ordenada R l1 /\ ordenada R l2 /\ (forall a b, In a l1 -> In b l2 -> R a b).
Proof.
  induction l1 as [|x l1 IH]; cbn [app ordenada]; [by auto|].
  intros [Hx Hl]. destruct (IH Hl) as (H1 & H2 & H12).
  apply Forall_app in Hx as [Hx1 Hx2]. split; [by split|]. split; [done|].
  intros a b [<-|Ha] Hb; [|by apply H12].
  rewrite Forall_forall in Hx2. by apply Hx2, list_elem_of_In.
Qed.

Lemma slice0_firstn {A} (n : Z) (l : list A) :
  0 <= n -> slice0 n l = firstn (Z.to_nat n) l.
Proof. intros Hn. unfold slice0. by apply Z.ltb_ge in Hn as ->. Qed.

Section Cercanas.

Variable server : nat -> request -> result response.
Variable Math_sqrt : number -> number.

Lemma porDistancia_spec (lat lon : number) (ps : list ParadaBus.t) :
  Permutation (map fst (porDistancia Math_sqrt lat lon ps)) (List.filter conCoordenadas ps)
  /\ Forall (fun pd => snd pd = distanciaGrados Math_sqrt lat lon (fst pd))
       (porDistancia Math_sqrt lat lon ps)
  /\ (Forall (fun p => distanciaGrados Math_sqrt lat lon p <> NaN)
        (List.filter conCoordenadas ps) ->
      ordenada (fun a b => leb (snd a) (snd b) = true) (porDistancia Math_sqrt lat lon ps)).
Proof.
  unfold porDistancia.
  set (cmp := fun a b : ParadaBus.t * number => sub (snd a) (snd b)).
  set (l := map _ (List.filter conCoordenadas ps)).
  assert (map fst l = List.filter conCoordenadas ps) as Hfst.
  { unfold l. rewrite map_map. cbn. apply map_id. }
  assert (forall pd, In pd l -> snd pd = distanciaGrados Math_sqrt lat lon (fst pd)) as Hsnd.
  { intros pd Hpd. unfold l in Hpd. by apply in_map_iff in Hpd as (p & <- & _). }
  split; [|split].
  - rewrite <- Hfst. apply Permutation_map, sort_Permutation.
  - apply Forall_forall. intros pd Hpd. apply Hsnd, (sort_In cmp), list_elem_of_In, Hpd.
  - intros Hnum.
    assert (forall pd, In pd l -> snd pd <> NaN) as Hn.
    { intros pd Hpd. rewrite (Hsnd pd Hpd). rewrite Forall_forall in Hnum. apply Hnum.
      apply list_elem_of_In. rewrite <- Hfst. by apply in_map. }
    apply sort_ordenada.
    + intros a b Ha Hb Hp. unfold cmp in Hp.
      rewrite is_positive_sub in Hp by auto. by apply negb_false_iff in Hp.
    + intros a b Ha Hb Hp. unfold cmp in Hp.
      rewrite is_positive_sub in Hp by auto. apply negb_true_iff in Hp.
      apply leb_total; auto.
    + intros a b c _ _ _. apply leb_trans.
Qed.

Lemma getParadasCercanas_Ok (lat lon : number) (n : Z) (st st' : state)
    (out : list Cercana.t) :
  getParadasCercanas server Math_sqrt lat lon n st = (Ok out, st') ->
  exists res,
    server (length (peticiones st)) {| endpoint_of := paradas; query := None |} = Ok res
    /\ out = map (fun pd =>
                    {| Cercana.parada := fst pd;
                       Cercana.distanciaMetrosAprox := round (mul (snd pd) (of_Z 111320)) |})
               (slice0 n (porDistancia Math_sqrt lat lon (map mapParada (resources res)))).
Proof.
  unfold getParadasCercanas, getParadas, bind, fetchAllPages, ret.
  destruct (server _ _) as [res|e] eqn:Hres; [|done].
  intros [= <- _]. by exists res.
Qed.

(** X25. Asked for [n >= 0] stops, [getParadasCercanas] returns [n] of
    them, or all the stops that have both coordinates when these are
    fewer; each stop returned is a different one of the stops with
    coordinates that the service lists. *)
Theorem getParadasCercanas_cuantas (lat lon : number) (n : Z) (st st' : state)
    (out : list Cercana.t) :
  getParadasCercanas server Math_sqrt lat lon n st = (Ok out, st') ->
  0 <= n ->
  exists res resto,
    server (length (peticiones st)) {| endpoint_of := paradas; query := None |} = Ok res
    /\ Permutation (map Cercana.parada out ++ resto)
         (List.filter conCoordenadas (map mapParada (resources res)))
    /\ length out = Nat.min (Z.to_nat n) (length out + length resto)
    /\ Forall (fun c => isNaN (ParadaBus.lat (Cercana.parada c)) = false
                        /\ isNaN (ParadaBus.lon (Cercana.parada c)) = false) out.
Proof.
  intros H Hn. apply getParadasCercanas_Ok in H as (res & Hres & ->).
  rewrite slice0_firstn by done.
  set (l := porDistancia Math_sqrt lat lon (map mapParada (resources res))).
  destruct (porDistancia_spec lat lon (map mapParada (resources res))) as (Hperm & _ & _).
  fold l in Hperm.
  exists res, (map fst (skipn (Z.to_nat n) l)).
  assert (map Cercana.parada
            (map (fun pd =>
                    {| Cercana.parada := fst pd;
                       Cercana.distanciaMetrosAprox := round (mul (snd pd) (of_Z 111320)) |})
               (firstn (Z.to_nat n) l))
          = map fst (firstn (Z.to_nat n) l)) as Hout.
  { rewrite map_map. by apply map_ext. }
  split; [done|]. split; [|split].
  - rewrite Hout, <- map_app, firstn_skipn. exact Hperm.
  - rewrite !length_map, length_firstn, length_skipn. lia.
  - rewrite Forall_map. apply Forall_forall. intros pd Hpd. cbn [Cercana.parada].
    assert (In (fst pd) (List.filter conCoordenadas (map mapParada (resources res)))) as Hin.
    { apply (Permutation_in _ Hperm), in_map.
      apply list_elem_of_In in Hpd. rewrite <- (firstn_skipn (Z.to_nat n) l).
      apply in_app_iff. by left. }
    apply filter_In in Hin as [_ Hc]. unfold conCoordenadas in Hc.
    apply andb_prop in Hc as [H1 H2]. by rewrite !negb_true_iff in *.
Qed.

(** X26. When no stop with coordinates has [NaN] for distance, the stops
    that [getParadasCercanas] returns are the nearest ones: they come by
    distance, and none of the stops left out is nearer than one that is
    returned. *)
Theorem getParadasCercanas_las_mas_cercanas (lat lon : number) (n : Z) (st st' : state)
    (out : list Cercana.t) (res : response) :
  getParadasCercanas server Math_sqrt lat lon n st = (Ok out, st') ->
  0 <= n ->
  server (length (peticiones st)) {| endpoint_of := paradas; query := None |} = Ok res ->
  Forall (fun p => distanciaGrados Math_sqrt lat lon p <> NaN)
    (List.filter conCoordenadas (map mapParada (resources res))) ->
  exists resto,
    Permutation (map Cercana.parada out ++ resto)
      (List.filter conCoordenadas (map mapParada (resources res)))
    /\ ordenada (fun a b => leb (distanciaGrados Math_sqrt lat lon (Cercana.parada a))
                                (distanciaGrados Math_sqrt lat lon (Cercana.parada b))
                            = true) out
    /\ forall c q, In c out -> In q resto ->
                   leb (distanciaGrados Math_sqrt lat lon (Cercana.parada c))
                       (distanciaGrados Math_sqrt lat lon q) = true.
Proof.
  intros H Hn Hres Hnum. apply getParadasCercanas_Ok in H as (res' & Hres' & ->).
  rewrite Hres in Hres'. injection Hres' as <-.
  rewrite slice0_firstn by done.
  set (l := porDistancia Math_sqrt lat lon (map mapParada (resources res))).
  destruct (porDistancia_spec lat lon (map mapParada (resources res)))
    as (Hperm & Hsnd & Hord).
  fold l in Hperm, Hsnd, Hord.
  exists (map fst (skipn (Z.to_nat n) l)).
  split.
  { rewrite map_map. cbn [Cercana.parada]. rewrite <- map_app, firstn_skipn. exact Hperm. }
  specialize (Hord Hnum).
  rewrite <- (firstn_skipn (Z.to_nat n) l) in Hord, Hsnd.
  apply ordenada_app in Hord as (H1 & _ & H12).
  apply Forall_app in Hsnd as [Hs1 Hs2]. rewrite Forall_forall in Hs1, Hs2.
  split.
  - apply ordenada_map. cbn [Cercana.parada].
    apply (ordenada_impl (fun a b => leb (snd a) (snd b) = true)); [|done].
    intros a b Ha Hb Hab.
    by rewrite <- (Hs1 a), <- (Hs1 b) by by apply list_elem_of_In.
  - intros c q Hc Hq. apply in_map_iff in Hc as (a & <- & Ha).
    apply in_map_iff in Hq as (b & <- & Hb). cbn [Cercana.parada].
    rewrite <- (Hs1 a), <- (Hs2 b) by by apply list_elem_of_In. by apply H12.
Qed.

End Cercanas.

(** ** On the sample service *)

(** The absence of [NaN] among the distances, checked by computation. *)
Lemma Forall_forallb_distancia (ps : list ParadaBus.t) :
  Forall (fun p => distanciaGrados Muestra.raiz6 (Dec 434628 (-4)) (Dec (-38044) (-4)) p
                   <> NaN) ps
  <-> forallb (fun p => negb (isNaN (distanciaGrados Muestra.raiz6 (Dec 434628 (-4))
                                       (Dec (-38044) (-4)) p))) ps = true.
Proof.
  rewrite forallb_forall, Forall_forall. split; intros H p Hp.
  - apply list_elem_of_In in Hp. specialize (H p Hp). by destruct (distanciaGrados _ _ _ p).
  - apply list_elem_of_In in Hp. specialize (H p Hp). by destruct (distanciaGrados _ _ _ p).
Qed.

Lemma cercanas_llamada :
  getParadasCercanas (Muestra.servicio Muestra.plano) Muestra.raiz6
    (Dec 434628 (-4)) (Dec (-38044) (-4)) 2 estado_inicial
  = (Ok Muestra.cercanas, Muestra.estadoCercanas).
Proof. ejecuta. Qed.

Lemma ejemplo_dos_cercanas :
  exists res resto,
    Muestra.servicio Muestra.plano (length (peticiones estado_inicial))
      {| endpoint_of := paradas; query := None |} = Ok res
    /\ Permutation (map Cercana.parada Muestra.cercanas ++ resto)
         (List.filter conCoordenadas (map mapParada (resources res)))
    /\ length Muestra.cercanas
       = Nat.min (Z.to_nat 2) (length Muestra.cercanas + length resto)
    /\ Forall (fun c => isNaN (ParadaBus.lat (Cercana.parada c)) = false
                        /\ isNaN (ParadaBus.lon (Cercana.parada c)) = false)
         Muestra.cercanas.
Proof.
  apply (getParadasCercanas_cuantas (Muestra.servicio Muestra.plano) Muestra.raiz6
           (Dec 434628 (-4)) (Dec (-38044) (-4)) 2 estado_inicial Muestra.estadoCercanas
           Muestra.cercanas cercanas_llamada).
  lia.
Defined.

Lemma ejemplo_las_mas_cercanas :
  exists resto,
    Permutation (map Cercana.parada Muestra.cercanas ++ resto)
      (List.filter conCoordenadas (map mapParada (resources Muestra.respuestaPlano)))
    /\ ordenada (fun a b =>
                   leb (distanciaGrados Muestra.raiz6 (Dec 434628 (-4)) (Dec (-38044) (-4))
                          (Cercana.parada a))
                       (distanciaGrados Muestra.raiz6 (Dec 434628 (-4)) (Dec (-38044) (-4))
                          (Cercana.parada b)) = true)
         Muestra.cercanas
    /\ forall c q, In c Muestra.cercanas -> In q resto ->
                   leb (distanciaGrados Muestra.raiz6 (Dec 434628 (-4))
                          (Dec (-38044) (-4)) (Cercana.parada c))
                       (distanciaGrados Muestra.raiz6 (Dec 434628 (-4))
                          (Dec (-38044) (-4)) q) = true.
Proof.
  apply (getParadasCercanas_las_mas_cercanas (Muestra.servicio Muestra.plano) Muestra.raiz6
           (Dec 434628 (-4)) (Dec (-38044) (-4)) 2 estado_inicial Muestra.estadoCercanas
           Muestra.cercanas Muestra.respuestaPlano cercanas_llamada).
  - lia.
  - reflexivity.
  - apply (proj2 (Forall_forallb_distancia _)). ejecuta.
Defined.
